(** * Amahoot game service: session orchestration, scoring and leaderboard

    A shallow embedding of [services/gameService.ts] (class [GameService]),
    of the persistence wrapper [services/dynamodb.ts] it calls, and of the
    WebSocket handlers of [server.ts] that drive it.

    Conventions of the embedding
    - a JavaScript [number] that holds a count, an index, a score or a choice
      is an integer ([Z], or [nat] for the question index); the fractional
      intermediate values of the scoring formula are IEEE 754 binary64
      numbers, computed with the operations of the Standard Library's
      [SpecFloat]; the quotient of the average is an exact rational ([Q]),
      which rounds as the binary64 quotient does as long as the sum of the
      scores is below 2^51; [Math.round] is rounding half up;
    - a timestamp (an ISO string in the source, compared through
      [Date.getTime()]) is its number of milliseconds since the epoch;
    - every reading of the clock, every [uuidv4()] and every [Math.random()]
      is an explicit argument of the operation that performs it;
    - the DynamoDB table is a record of finite maps, one per key prefix
      ([QUIZ#], [SESSION#], [JOINCODE#], [GAME_RESULT#]); the player items of
      one session partition are a list kept in sort-key order, which is the
      order a [Query] returns them in;
    - an operation whose body is wrapped in [try { ... } catch] is a function
      [..._try] that returns [Throw e] where the source throws, and the
      operation itself, which maps a throw to the value the [catch] returns. *)

From Stdlib Require Import QArith Qround.
From Stdlib Require Import Floats.SpecFloat.
From Stdlib Require Import Structures.OrdersEx.
From Stdlib Require Import Ascii String.
From stdpp Require Import base strings list sorting gmap pretty.

Close Scope Q_scope.
Open Scope Z_scope.

(** ** Data model ([types/index.ts]) *)

Module Question.
Record t := mk {
  id : string;
  text : string;
  choices : list string;
  correctAnswer : Z;
  timeLimit : Z;
  points : Z
}.
End Question.

Module Quiz.
Record t := mk {
  id : string;
  title : string;
  description : string;
  creatorId : string;
  questions : list Question.t;
  createdAt : Z;
  updatedAt : Z
}.
End Quiz.

Module PlayerAnswer.
Record t := mk {
  questionId : string;
  selectedChoice : Z;
  timeToAnswer : Z;
  isCorrect : bool;
  points : Z;
  submittedAt : option Z
}.
End PlayerAnswer.

Module Player.
Record t := mk {
  id : string;
  name : string;
  sessionId : string;
  score : Z;
  answers : list PlayerAnswer.t;
  isOnline : bool;
  joinedAt : Z
}.
End Player.

Inductive Status := waiting | active | finished.

Global Instance Status_eq_dec : EqDecision Status.
Proof. solve_decision. Defined.

Module GameSession.
Record t := mk {
  id : string;
  quizId : string;
  hostId : string;
  joinCode : string;
  status : Status;
  currentQuestionIndex : nat;
  players : list Player.t;
  createdAt : Z;
  startedAt : option Z;
  finishedAt : option Z;
  quiz : option Quiz.t
}.
End GameSession.

Module LeaderboardEntry.
Record t := mk {
  playerId : string;
  playerName : string;
  score : Z;
  rank : Z
}.
End LeaderboardEntry.

Module QuestionStat.
Record t := mk {
  questionId : string;
  questionText : string;
  correctAnswer : Z;
  correctCount : Z;
  totalAnswers : Z
}.
End QuestionStat.

(** [GameResult] of [services/dynamodb.ts]. *)
Module GameResult.
Record t := mk {
  sessionId : string;
  quizId : string;
  quizTitle : string;
  hostId : string;
  completedAt : Z;
  totalParticipants : Z;
  totalQuestions : Z;
  averageScore : Z;
  leaderboard : list LeaderboardEntry.t;
  questionStats : list QuestionStat.t;
  isPublic : bool;
  duration : option Z
}.
End GameResult.

(** ** JavaScript library functions used by the service *)

(** [Math.round]: the nearest integer, a half rounded towards plus infinity. *)
Definition js_round (x : Q) : Z := Qfloor (x + (1 # 2))%Q.

(** [Array.prototype.find]: the first element that satisfies the predicate. *)
Definition js_find {A} (P : A → Prop) `{∀ x, Decision (P x)} (l : list A) : option A :=
  snd <$> list_find P l.

(** [Array.prototype.findIndex]: the index of that element, or -1. *)
Definition js_findIndex {A} (P : A → Prop) `{∀ x, Decision (P x)} (l : list A) : Z :=
  match list_find P l with
  | Some (i, _) => Z.of_nat i
  | None => -1
  end.

(** [Array.prototype.sort(cmp)]. The sort of ECMAScript 2019 is stable, and
    for a consistent comparator the result of a stable sort is unique; it is
    computed here by insertion: [x] moves past [y] only when [cmp x y > 0]. *)
Fixpoint js_sort_insert {A} (cmp : A → A → Z) (x : A) (l : list A) : list A :=
  match l with
  | [] => [x]
  | y :: r => if cmp x y <=? 0 then x :: y :: r else y :: js_sort_insert cmp x r
  end.

Fixpoint js_sort {A} (cmp : A → A → Z) (l : list A) : list A :=
  match l with
  | [] => []
  | x :: r => js_sort_insert cmp x (js_sort cmp r)
  end.

(** [Array.prototype.map((x, index) => ...)]. *)
Definition js_mapi {A B} (f : A → nat → B) (l : list A) : list B :=
  imap (λ i x, f x i) l.

(** ** The JavaScript [number]: IEEE 754 binary64

    The operations are those of [SpecFloat] at precision 53 and maximal
    exponent 1024, rounding to nearest, ties to even. *)

Definition double : Set := spec_float.

Definition double_prec : Z := 53.
Definition double_emax : Z := 1024.

(** The [number] that an integer converts to. *)
Definition double_of_Z (z : Z) : double := binary_normalize double_prec double_emax z 0 false.

Definition double_sub : double → double → double := SFsub double_prec double_emax.
Definition double_mul : double → double → double := SFmul double_prec double_emax.
Definition double_div : double → double → double := SFdiv double_prec double_emax.

(** The literals [1.0], [0.5] and [0.3]; the last one is the binary64 number
    nearest to three tenths, [0x3FD3333333333333]. *)
Definition double_1_0 : double := S754_finite false 4503599627370496 (-52).
Definition double_0_5 : double := S754_finite false 4503599627370496 (-53).
Definition double_0_3 : double := S754_finite false 5404319552844595 (-54).

(** The rational number a finite [number] stands for. *)
Definition double_value (x : double) : Q :=
  match x with
  | S754_finite s m e => (inject_Z (if s then Z.neg m else Z.pos m) * 2 ^ e)%Q
  | _ => 0%Q
  end.

(** [Math.round] of a finite [number], as an integer. The scoring block
    applies it to products of the base points with numbers between 0 and 1,
    which are finite. *)
Definition Math_round (x : double) : Z := js_round (double_value x).

(** ** Scoring block of [submitAnswer] (the branch [if (isCorrect)]) *)

(** [1.0 - ((rank - 1) / totalCorrect) * 0.5]; [totalCorrect] counts the
    current answer, so it is at least 1 and the quotient is finite. *)
Definition rankPercentage (rank totalCorrect : Z) : double :=
  double_sub double_1_0
    (double_mul
       (double_div (double_sub (double_of_Z rank) double_1_0) (double_of_Z totalCorrect))
       double_0_5).

(** [Math.round(basePoints * 0.3)] *)
Definition minPoints (basePoints : Z) : Z :=
  Math_round (double_mul (double_of_Z basePoints) double_0_3).

Definition scorePoints (basePoints rank totalCorrect : Z) : Z :=
  if totalCorrect =? 1 then basePoints
  else Z.max (Math_round (double_mul (double_of_Z basePoints)
                            (rankPercentage rank totalCorrect)))
             (minPoints basePoints).

Example scorePoints_100_2_4 : scorePoints 100 2 4 = 88.
Proof. vm_compute. reflexivity. Qed.

(** ** [demoData.ts] *)

Definition DEMO_QUIZ_ID : string := "demo-quiz-2024".
Definition DEMO_HOST_ID : string := "demo-host-user".

Definition demoQuestions : list Question.t :=
  [ Question.mk "q1" "대한민국의 수도는 어디인가요?"
      ["서울"; "부산"; "대구"; "인천"] 0 15 100;
    Question.mk "q2" "다음 중 프로그래밍 언어가 아닌 것은?"
      ["JavaScript"; "Python"; "HTML"; "Java"] 2 20 150;
    Question.mk "q3" "1 + 1 = ?"
      ["1"; "2"; "3"; "11"] 1 10 50;
    Question.mk "q4" "지구에서 가장 큰 대륙은?"
      ["아프리카"; "아시아"; "유럽"; "북아메리카"] 1 25 200;
    Question.mk "q5" "React는 무엇을 위한 라이브러리인가요?"
      ["데이터베이스"; "서버"; "사용자 인터페이스"; "네트워킹"] 2 30 250 ].

(** The two arguments are the clock readings [new Date()] taken when the
    module is loaded. *)
Definition demoQuiz (createdAt updatedAt : Z) : Quiz.t :=
  Quiz.mk DEMO_QUIZ_ID "🎯 Amahoot 데모 퀴즈"
    "실시간 퀴즈 시스템을 체험해보세요! 일반 상식부터 프로그래밍까지 다양한 문제가 준비되어 있습니다."
    DEMO_HOST_ID demoQuestions createdAt updatedAt.

Definition isDemoQuiz (quizId : string) : bool := bool_decide (quizId = DEMO_QUIZ_ID).

(** ** The persistence gateway ([services/dynamodb.ts])

    [savedResults] is a history variable: it lists, oldest first, every game
    result handed to [saveGameResult], so that the number of snapshot builds
    can be counted. [loadedAt] holds the two clock readings of the demo quiz.
    Expiry of items (the [ttl] attribute) and failures of the store are not
    modelled: every command succeeds. An [UpdateCommand] on a key that holds
    no item would create a partial item; the service only updates sessions and
    players it has just read, and such an update is a no-op here. *)

Record DB := mkDB {
  loadedAt : Z * Z;
  quizzes : gmap string Quiz.t;
  sessions : gmap string GameSession.t;
  players : gmap string (list Player.t);
  joinCodes : gmap string string;
  gameResults : gmap string GameResult.t;
  savedResults : list GameResult.t
}.

Definition set_sessions (f : gmap string GameSession.t → gmap string GameSession.t)
    (db : DB) : DB :=
  mkDB (loadedAt db) (quizzes db) (f (sessions db)) (players db) (joinCodes db)
       (gameResults db) (savedResults db).

Definition set_players (f : gmap string (list Player.t) → gmap string (list Player.t))
    (db : DB) : DB :=
  mkDB (loadedAt db) (quizzes db) (sessions db) (f (players db)) (joinCodes db)
       (gameResults db) (savedResults db).

Definition set_joinCodes (f : gmap string string → gmap string string) (db : DB) : DB :=
  mkDB (loadedAt db) (quizzes db) (sessions db) (players db) (f (joinCodes db))
       (gameResults db) (savedResults db).

(** A store that holds quizzes only: the state before any session exists. *)
Definition initialDB (loaded : Z * Z) (qs : gmap string Quiz.t) : DB :=
  mkDB loaded qs ∅ ∅ ∅ ∅ [].

(** [PutCommand] of an item with sort key [PLAYER#id] into a partition. *)
Fixpoint put_player (p : Player.t) (l : list Player.t) : list Player.t :=
  match l with
  | [] => [p]
  | q :: r =>
      match String_as_OT.compare (Player.id p) (Player.id q) with
      | Lt => p :: q :: r
      | Eq => p :: r
      | Gt => q :: put_player p r
      end
  end.

(** [UpdateCommand] on the item with sort key [PLAYER#playerId]. *)
Definition update_player (playerId : string) (f : Player.t → Player.t)
    (l : list Player.t) : list Player.t :=
  (λ q, if decide (Player.id q = playerId) then f q else q) <$> l.

(** [DeleteCommand] on the item with sort key [PLAYER#playerId]. *)
Definition delete_player (playerId : string) (l : list Player.t) : list Player.t :=
  filter (λ q, Player.id q ≠ playerId) l.

Module dynamoService.

Definition getQuiz (db : DB) (quizId : string) : option Quiz.t :=
  if isDemoQuiz quizId then Some (demoQuiz (loadedAt db).1 (loadedAt db).2)
  else quizzes db !! quizId.

Definition saveSession (db : DB) (session : GameSession.t) : DB :=
  set_sessions <[GameSession.id session := session]> db.

Definition getSession (db : DB) (sessionId : string) : option GameSession.t :=
  sessions db !! sessionId.

Definition updateSession (db : DB) (sessionId : string)
    (updates : GameSession.t → GameSession.t) : DB :=
  set_sessions (alter updates sessionId) db.

Definition getSessionPlayers (db : DB) (sessionId : string) : list Player.t :=
  default [] (players db !! sessionId).

Definition savePlayer (db : DB) (sessionId : string) (player : Player.t) : DB :=
  set_players <[sessionId := put_player player (getSessionPlayers db sessionId)]> db.

Definition updatePlayer (db : DB) (sessionId playerId : string)
    (updates : Player.t → Player.t) : DB :=
  set_players (alter (update_player playerId updates) sessionId) db.

Definition removePlayer (db : DB) (sessionId playerId : string) : DB :=
  set_players (alter (delete_player playerId) sessionId) db.

Definition setJoinCode (db : DB) (joinCode sessionId : string) : DB :=
  set_joinCodes <[joinCode := sessionId]> db.

Definition getSessionByJoinCode (db : DB) (joinCode : string) : option string :=
  joinCodes db !! joinCode.

Definition saveGameResult (db : DB) (gameResult : GameResult.t) : DB :=
  mkDB (loadedAt db) (quizzes db) (sessions db) (players db) (joinCodes db)
       (<[GameResult.sessionId gameResult := gameResult]> (gameResults db))
       (savedResults db ++ [gameResult]).

Definition getGameResult (db : DB) (sessionId : string) : option GameResult.t :=
  gameResults db !! sessionId.

End dynamoService.

(** ** Exceptions inside a [try] block *)

Inductive Res (A : Type) :=
  | Ok (a : A)
  | Throw (message : string).
Arguments Ok {A} a.
Arguments Throw {A} message.

Global Instance Res_ret : MRet Res := λ A a, Ok a.
Global Instance Res_bind : MBind Res := λ A B f m,
  match m with
  | Ok a => f a
  | Throw e => Throw e
  end.

(** [if (!x) throw new Error(message)] for a possibly absent [x]. *)
Definition orThrow {A} (x : option A) (message : string) : Res A :=
  match x with
  | Some a => Ok a
  | None => Throw message
  end.

(** [if (cond) throw new Error(message)] *)
Definition throwIf (cond : bool) (message : string) : Res unit :=
  if cond then Throw message else Ok tt.

(** A string is falsy when it is empty. *)
Definition truthy (s : option string) : option string :=
  match s with
  | Some "" => None
  | _ => s
  end.

(** ** [GameService] ([services/gameService.ts]) *)

(** *** [generateJoinCode]

    [Math.random()] returns a number of the interval [0, 1). A draw is given
    by the digits that [Number.prototype.toString(36)] prints after the point:
    the draw 0 prints as [0], any other draw as [0.] followed by its base-36
    digits, of which there is at least one and no fixed number. *)

Definition Draw := list nat.

Definition digit36 (d : nat) : ascii :=
  if (d <? 10)%nat then ascii_of_nat (48 + d) else ascii_of_nat (87 + d).

Definition toString36 (draw : Draw) : string :=
  match draw with
  | [] => "0"
  | _ => "0." +:+ string_of_list_ascii (digit36 <$> draw)
  end.

(** The number a draw stands for: the sum of [d_i / 36^(i+1)]. *)
Fixpoint draw_value (draw : Draw) : Q :=
  match draw with
  | [] => 0%Q
  | d :: r => ((inject_Z (Z.of_nat d) + draw_value r) / 36)%Q
  end.

(** [String.prototype.substring(start, end)] for non-negative integers. *)
Definition js_substring (start end_ : nat) (s : string) : string :=
  String.substring (start `min` end_) ((start `max` end_) - (start `min` end_)) s.

(** [String.prototype.toUpperCase] on the ASCII letters. *)
Definition upper_ascii (c : ascii) : ascii :=
  let n := nat_of_ascii c in
  if ((97 <=? n) && (n <=? 122))%nat then ascii_of_nat (n - 32) else c.

Definition toUpperCase (s : string) : string :=
  string_of_list_ascii (upper_ascii <$> list_ascii_of_string s).

Definition generateJoinCode (draw : Draw) : string :=
  toUpperCase (js_substring 2 8 (toString36 draw)).

(** *** [createSession] *)

(** The [do { ... } while (!isUnique && attempts < 10)] loop; [draws n] is the
    draw of the iteration that starts with [attempts = n], and [remaining]
    counts the iterations still allowed after the current one. *)
Fixpoint joinCodeLoop (db : DB) (draws : nat → Draw) (attempts remaining : nat)
    : string * bool :=
  let joinCode := generateJoinCode (draws attempts) in
  let existingSession := truthy (dynamoService.getSessionByJoinCode db joinCode) in
  let isUnique := bool_decide (existingSession = None) in
  match remaining with
  | O => (joinCode, isUnique)
  | S remaining' =>
      if negb isUnique then joinCodeLoop db draws (S attempts) remaining'
      else (joinCode, isUnique)
  end.

(** A missing quiz makes the [try] block [return null]; only the failure to
    find a free join code throws. *)
Definition createSession_try (db : DB) (draws : nat → Draw) (uuid : string) (now : Z)
    (hostId quizId : string) : Res (DB * option GameSession.t) :=
  match dynamoService.getQuiz db quizId with
  | None => Ok (db, None)
  | Some quiz =>
      let '(joinCode, isUnique) := joinCodeLoop db draws 0 9 in
      throwIf (negb isUnique) "Could not generate unique join code";;
      let sessionId := uuid in
      let session :=
        GameSession.mk sessionId quizId hostId joinCode waiting 0 [] now None None
          (Some quiz) in
      let db := dynamoService.saveSession db session in
      let db := dynamoService.setJoinCode db joinCode sessionId in
      Ok (db, Some session)
  end.

Definition createSession (db : DB) (draws : nat → Draw) (uuid : string) (now : Z)
    (hostId quizId : string) : DB * option GameSession.t :=
  match createSession_try db draws uuid now hostId quizId with
  | Ok r => r
  | Throw _ => (db, None)
  end.

(** *** [joinSession] *)

(** The loop [while (players.find(p => p.name === uniquePlayerName))]. It is
    run with a bound on the number of tests; [uniqueNameLoop_total] below
    shows that one test more than there are players always suffices, so that
    the default in [uniquePlayerName] is never taken. *)
Fixpoint uniqueNameLoop (fuel : nat) (players : list Player.t) (playerName : string)
    (nameCounter : nat) (uniquePlayerName : string) : option string :=
  match fuel with
  | O => None
  | S fuel' =>
      match js_find (λ p, Player.name p = uniquePlayerName) players with
      | Some _ =>
          let nameCounter := S nameCounter in
          uniqueNameLoop fuel' players playerName nameCounter (playerName +:+ pretty nameCounter)
      | None => Some uniquePlayerName
      end
  end.

Definition uniquePlayerName (players : list Player.t) (playerName : string) : string :=
  default playerName (uniqueNameLoop (S (length players)) players playerName 1 playerName).

Definition with_players (players : list Player.t) (s : GameSession.t) : GameSession.t :=
  GameSession.mk (GameSession.id s) (GameSession.quizId s) (GameSession.hostId s)
    (GameSession.joinCode s) (GameSession.status s) (GameSession.currentQuestionIndex s)
    players (GameSession.createdAt s) (GameSession.startedAt s)
    (GameSession.finishedAt s) (GameSession.quiz s).

Definition joinSession_try (db : DB) (uuid : string) (now : Z)
    (joinCode playerName : string) : Res (DB * (GameSession.t * Player.t)) :=
  sessionId ← orThrow (truthy (dynamoService.getSessionByJoinCode db joinCode))
                "Invalid join code";
  session ← orThrow (dynamoService.getSession db sessionId) "Session not found";
  throwIf (bool_decide (GameSession.status session ≠ waiting)) "Game has already started";;
  let players := dynamoService.getSessionPlayers db sessionId in
  let uniquePlayerName := uniquePlayerName players playerName in
  let playerId := uuid in
  let player := Player.mk playerId uniquePlayerName sessionId 0 [] true now in
  let db := dynamoService.savePlayer db sessionId player in
  let session := with_players (players ++ [player]) session in
  Ok (db, (session, player)).

Definition joinSession (db : DB) (uuid : string) (now : Z)
    (joinCode playerName : string) : DB * option (GameSession.t * Player.t) :=
  match joinSession_try db uuid now joinCode playerName with
  | Ok (db', r) => (db', Some r)
  | Throw _ => (db, None)
  end.

(** *** [startGame] *)

Definition set_active (startedAt : Z) (s : GameSession.t) : GameSession.t :=
  GameSession.mk (GameSession.id s) (GameSession.quizId s) (GameSession.hostId s)
    (GameSession.joinCode s) active (GameSession.currentQuestionIndex s)
    (GameSession.players s) (GameSession.createdAt s) (Some startedAt)
    (GameSession.finishedAt s) (GameSession.quiz s).

Definition startGame_try (db : DB) (now : Z) (sessionId hostId : string) : Res DB :=
  session ← orThrow (dynamoService.getSession db sessionId) "Session not found";
  throwIf (bool_decide (GameSession.hostId session ≠ hostId)) "Only host can start the game";;
  throwIf (bool_decide (GameSession.status session ≠ waiting)) "Game has already started";;
  let players := dynamoService.getSessionPlayers db sessionId in
  throwIf (bool_decide (length players = 0%nat)) "No players joined";;
  Ok (dynamoService.updateSession db sessionId (set_active now)).

Definition startGame (db : DB) (now : Z) (sessionId hostId : string) : DB * bool :=
  match startGame_try db now sessionId hostId with
  | Ok db' => (db', true)
  | Throw _ => (db, false)
  end.

(** *** [getLeaderboard] *)

Definition leaderboardData (players : list Player.t) : list LeaderboardEntry.t :=
  (λ player, LeaderboardEntry.mk (Player.id player) (Player.name player) (Player.score player) 0)
    <$> players.

Definition with_rank (rank : Z) (e : LeaderboardEntry.t) : LeaderboardEntry.t :=
  LeaderboardEntry.mk (LeaderboardEntry.playerId e) (LeaderboardEntry.playerName e)
    (LeaderboardEntry.score e) rank.

(** The objects of [leaderboardData] have no [rank] field before the last
    [map] adds it; the field is 0 until then. *)
Definition getLeaderboard (db : DB) (sessionId : string) : list LeaderboardEntry.t :=
  let players := dynamoService.getSessionPlayers db sessionId in
  let leaderboardData :=
    js_sort (λ a b, LeaderboardEntry.score b - LeaderboardEntry.score a)
            (leaderboardData players) in
  js_mapi (λ player index, with_rank (Z.of_nat index + 1) player) leaderboardData.

(** *** [saveGameResult] and [finishGame] *)

Definition averageScore (players : list Player.t) : Z :=
  let totalParticipants := Z.of_nat (length players) in
  if 0 <? totalParticipants then
    let total := foldl (λ sum player, sum + Player.score player) 0 players in
    js_round (inject_Z total / inject_Z totalParticipants)%Q
  else 0.

Definition questionStats (players : list Player.t) (question : Question.t) : QuestionStat.t :=
  let questionAnswers :=
    mbind (M := list) (λ player,
      filter (λ answer, PlayerAnswer.questionId answer = Question.id question)
             (Player.answers player)) players in
  let correctCount :=
    Z.of_nat (length (filter (λ answer, PlayerAnswer.isCorrect answer = true) questionAnswers)) in
  let totalAnswers := Z.of_nat (length questionAnswers) in
  QuestionStat.mk (Question.id question) (Question.text question)
    (Question.correctAnswer question) correctCount totalAnswers.

Definition gameDuration (session : GameSession.t) : option Z :=
  match GameSession.startedAt session, GameSession.finishedAt session with
  | Some startedAt, Some finishedAt =>
      Some (js_round (inject_Z (finishedAt - startedAt) / 1000)%Q)
  | _, _ => None
  end.

(** [completedAt] is the clock reading of [completedAt: new Date()]. Both
    early [return]s leave the store as it is. *)
Definition saveGameResult (db : DB) (completedAt : Z) (sessionId : string) : DB :=
  match dynamoService.getSession db sessionId with
  | None => db
  | Some session =>
      let players := dynamoService.getSessionPlayers db sessionId in
      let leaderboard := getLeaderboard db sessionId in
      match GameSession.quiz session with
      | None => db
      | Some quiz =>
          let totalParticipants := Z.of_nat (length players) in
          let totalQuestions := Z.of_nat (length (Quiz.questions quiz)) in
          let averageScore := averageScore players in
          let resultLeaderboard :=
            (λ entry, LeaderboardEntry.mk (LeaderboardEntry.playerId entry)
                        (LeaderboardEntry.playerName entry) (LeaderboardEntry.score entry)
                        (LeaderboardEntry.rank entry)) <$> leaderboard in
          let questionStats := questionStats players <$> Quiz.questions quiz in
          let duration := gameDuration session in
          let gameResult :=
            GameResult.mk sessionId (GameSession.quizId session) (Quiz.title quiz)
              (GameSession.hostId session) completedAt totalParticipants totalQuestions
              averageScore resultLeaderboard questionStats true duration in
          dynamoService.saveGameResult db gameResult
      end
  end.

Definition set_finished (finishedAt : Z) (s : GameSession.t) : GameSession.t :=
  GameSession.mk (GameSession.id s) (GameSession.quizId s) (GameSession.hostId s)
    (GameSession.joinCode s) finished (GameSession.currentQuestionIndex s)
    (GameSession.players s) (GameSession.createdAt s) (GameSession.startedAt s)
    (Some finishedAt) (GameSession.quiz s).

(** The two clock readings of [finishGame]: [finishedAt: new Date()] and,
    inside [saveGameResult], [completedAt: new Date()]. *)
Record FinishClock := mkFinishClock {
  finishedAtNow : Z;
  completedAtNow : Z
}.

Definition finishGame (db : DB) (clock : FinishClock) (sessionId : string) : DB * bool :=
  match dynamoService.getSession db sessionId with
  | None => (db, false)
  | Some existingSession =>
      let db := dynamoService.updateSession db sessionId (set_finished (finishedAtNow clock)) in
      let db := saveGameResult db (completedAtNow clock) sessionId in
      (db, true)
  end.

(** *** [nextQuestion] *)

Definition set_currentQuestionIndex (index : nat) (s : GameSession.t) : GameSession.t :=
  GameSession.mk (GameSession.id s) (GameSession.quizId s) (GameSession.hostId s)
    (GameSession.joinCode s) (GameSession.status s) index
    (GameSession.players s) (GameSession.createdAt s) (GameSession.startedAt s)
    (GameSession.finishedAt s) (GameSession.quiz s).

(** The branch that finishes the game returns [null] after a write, so the
    result of the [try] block carries the store together with the optional
    question. *)
Definition nextQuestion_try (db : DB) (clock : FinishClock) (sessionId hostId : string)
    : Res (DB * option Question.t) :=
  session ← orThrow (dynamoService.getSession db sessionId) "Session not found";
  throwIf (bool_decide (GameSession.hostId session ≠ hostId)) "Only host can control questions";;
  throwIf (bool_decide (GameSession.status session ≠ active)) "Game is not active";;
  quiz ← orThrow (GameSession.quiz session) "Quiz not found in session";
  let currentIndex := GameSession.currentQuestionIndex session in
  match Quiz.questions quiz !! currentIndex with
  | None =>
      (* currentIndex >= quiz.questions.length *)
      Ok ((finishGame db clock sessionId).1, None)
  | Some question =>
      let nextIndex := (currentIndex + 1)%nat in
      Ok (dynamoService.updateSession db sessionId (set_currentQuestionIndex nextIndex),
          Some question)
  end.

Definition nextQuestion (db : DB) (clock : FinishClock) (sessionId hostId : string)
    : DB * option Question.t :=
  match nextQuestion_try db clock sessionId hostId with
  | Ok r => r
  | Throw _ => (db, None)
  end.

(** *** [submitAnswer] *)

(** An element of [correctAnswersForQuestion]. *)
Module RankEntry.
Record t := mk {
  playerId : string;
  playerName : string;
  submittedAt : Z;
  timeToAnswer : Z
}.
End RankEntry.

(** The clock readings of one call: [dateNow p] is the value of [Date.now()]
    taken while the answer of player [p] is collected (used only when that
    answer carries no [submittedAt]), then [const currentSubmissionTime = new
    Date()], then [submittedAt: new Date()] of the answer record. *)
Record SubmitClock := mkSubmitClock {
  dateNow : string → Z;
  currentSubmissionTime : Z;
  answerSubmittedAt : Z
}.

(** The loop [for (const p of allPlayers)]. *)
Definition collectCorrect (clock : SubmitClock) (questionId : string)
    (allPlayers : list Player.t) : list RankEntry.t :=
  omap (λ p,
    correctAnswer ← js_find (λ a, PlayerAnswer.questionId a = questionId
                                 ∧ PlayerAnswer.isCorrect a = true) (Player.answers p);
    Some (RankEntry.mk (Player.id p) (Player.name p)
            (default (dateNow clock (Player.id p)) (PlayerAnswer.submittedAt correctAnswer))
            (PlayerAnswer.timeToAnswer correctAnswer))) allPlayers.

Definition bySubmittedAt (a b : RankEntry.t) : Z :=
  RankEntry.submittedAt a - RankEntry.submittedAt b.

(** [correctAnswersForQuestion] after the current answer is pushed and the
    array is sorted by submission time, earliest first. *)
Definition correctAnswersForQuestion (clock : SubmitClock) (allPlayers : list Player.t)
    (playerId playerName questionId : string) (timeToAnswer : Z) : list RankEntry.t :=
  js_sort bySubmittedAt
    (collectCorrect clock questionId allPlayers
     ++ [RankEntry.mk playerId playerName (currentSubmissionTime clock) timeToAnswer]).

Module SubmitResult.
Record t := mk {
  isCorrect : bool;
  points : Z;
  questionId : string;
  rank : option Z;
  totalCorrect : option Z
}.
End SubmitResult.

Definition add_answer (answer : PlayerAnswer.t) (points : Z) (player : Player.t) : Player.t :=
  Player.mk (Player.id player) (Player.name player) (Player.sessionId player)
    (Player.score player + points) (Player.answers player ++ [answer])
    (Player.isOnline player) (Player.joinedAt player).

Definition set_score_answers (score : Z) (answers : list PlayerAnswer.t) (player : Player.t)
    : Player.t :=
  Player.mk (Player.id player) (Player.name player) (Player.sessionId player)
    score answers (Player.isOnline player) (Player.joinedAt player).

Definition submitAnswer_try (db : DB) (clock : SubmitClock)
    (sessionId playerId questionId : string) (selectedChoice timeToAnswer : Z)
    : Res (DB * SubmitResult.t) :=
  session ← orThrow (dynamoService.getSession db sessionId) "Session not found";
  throwIf (bool_decide (GameSession.status session ≠ active)) "Game is not active";;
  quiz ← orThrow (GameSession.quiz session) "Quiz not found";
  question ← orThrow (js_find (λ q, Question.id q = questionId) (Quiz.questions quiz))
               "Question not found";
  let players := dynamoService.getSessionPlayers db sessionId in
  player ← orThrow (js_find (λ p, Player.id p = playerId) players) "Player not found";
  let existingAnswer :=
    js_find (λ a, PlayerAnswer.questionId a = questionId) (Player.answers player) in
  throwIf (bool_decide (is_Some existingAnswer)) "Player already answered this question";;
  throwIf ((selectedChoice <? 0)
           || (selectedChoice >=? Z.of_nat (length (Question.choices question))))
    "Invalid choice selected";;
  let isCorrect := selectedChoice =? Question.correctAnswer question in
  let '(points, rank, totalCorrect) :=
    if isCorrect then
      let allPlayers := dynamoService.getSessionPlayers db sessionId in
      let correctAnswersForQuestion :=
        correctAnswersForQuestion clock allPlayers playerId (Player.name player)
          questionId timeToAnswer in
      let rank :=
        js_findIndex (λ a, RankEntry.playerId a = playerId) correctAnswersForQuestion + 1 in
      let totalCorrect := Z.of_nat (length correctAnswersForQuestion) in
      let basePoints := Question.points question in
      (scorePoints basePoints rank totalCorrect, rank, totalCorrect)
    else (0, 0, 0) in
  let answer :=
    PlayerAnswer.mk questionId selectedChoice timeToAnswer isCorrect points
      (Some (answerSubmittedAt clock)) in
  let player := add_answer answer points player in
  let db :=
    dynamoService.updatePlayer db sessionId playerId
      (set_score_answers (Player.score player) (Player.answers player)) in
  Ok (db, SubmitResult.mk isCorrect points questionId
            (if isCorrect then Some rank else None)
            (if isCorrect then Some totalCorrect else None)).

Definition submitAnswer (db : DB) (clock : SubmitClock)
    (sessionId playerId questionId : string) (selectedChoice timeToAnswer : Z)
    : DB * option SubmitResult.t :=
  match submitAnswer_try db clock sessionId playerId questionId selectedChoice timeToAnswer with
  | Ok (db', r) => (db', Some r)
  | Throw _ => (db, None)
  end.

(** *** [removePlayer] *)

Definition removePlayer (db : DB) (sessionId playerId : string) : DB * bool :=
  (dynamoService.removePlayer db sessionId playerId, true).

(** ** Message handlers ([server.ts])

    A handler is given the flag [isHost] of the connection and the fields of
    the message; it returns the store and the messages it sends, each with
    its recipients. The connection map itself is not modelled. *)

Module server.

Record NameChanged := mkNameChanged {
  original : string;
  final : string;
  reason : string
}.

Inductive Content :=
  | player_joined_success (session : GameSession.t) (player : Player.t)
      (nameChanged : option NameChanged)
  | player_joined (player : Player.t)
  | question_started (question : Question.t) (questionIndex : string) (timeLimit : Z)
  | game_ended (leaderboard : list LeaderboardEntry.t)
  | error (message code : string) (details : option string).

Inductive Recipient :=
  | sender                              (* sendMessage(ws, ...) *)
  | host (sessionId : string)           (* sendToHost(sessionId, ...) *)
  | everyone (sessionId : string).      (* broadcastToSession(sessionId, ...) *)

Definition Sent := list (Recipient * Content).

(** [joinCode] is [message.sessionId], [playerName] is
    [message.content.playerName]. *)
Definition player_join (db : DB) (uuid : string) (now : Z)
    (joinCode playerName : string) : DB * Sent :=
  match joinSession db uuid now joinCode playerName with
  | (db, None) =>
      (db, [(sender, error "Failed to join session" "SESSION_JOIN_ERROR"
                       (Some "Failed to join session"))])
  | (db, Some (session, player)) =>
      let nameChanged :=
        if bool_decide (Player.name player ≠ playerName)
        then Some (mkNameChanged playerName (Player.name player)
                     "이름 중복으로 인한 자동 변경")
        else None in
      (db, [(sender, player_joined_success session player nameChanged);
            (host (GameSession.id session), player_joined player)])
  end.

Definition next_question (db : DB) (clock : FinishClock) (isHost : bool)
    (sessionId playerId : string) : DB * Sent :=
  if negb isHost then
    (db, [(sender, error "Only host can proceed to next question" "UNAUTHORIZED" None)])
  else
    match nextQuestion db clock sessionId playerId with
    | (db, None) =>
        let leaderboard := getLeaderboard db sessionId in
        (db, [(everyone sessionId, game_ended leaderboard)])
    | (db, Some question) =>
        (db, [(everyone sessionId,
               question_started question (Question.id question)
                 (Question.timeLimit question))])
    end.

Definition finish_game (db : DB) (clock : FinishClock) (isHost : bool)
    (sessionId : string) : DB * Sent :=
  if negb isHost then
    (db, [(sender, error "Only host can finish the game" "UNAUTHORIZED" None)])
  else
    match finishGame db clock sessionId with
    | (db, true) =>
        let leaderboard := getLeaderboard db sessionId in
        (db, [(everyone sessionId, game_ended leaderboard)])
    | (db, false) =>
        (db, [(sender, error "Failed to finish game" "FINISH_GAME_ERROR" None)])
    end.

End server.

(** ** Runs of the service

    One constructor per method of [GameService] that writes to the store,
    with the arguments of the call and the readings of the environment it
    makes. The handlers of [server.ts] reach the store through these methods
    only. *)

Inductive Op :=
  | OpCreateSession (draws : nat → Draw) (uuid : string) (now : Z) (hostId quizId : string)
  | OpJoinSession (uuid : string) (now : Z) (joinCode playerName : string)
  | OpStartGame (now : Z) (sessionId hostId : string)
  | OpNextQuestion (clock : FinishClock) (sessionId hostId : string)
  | OpSubmitAnswer (clock : SubmitClock) (sessionId playerId questionId : string)
      (selectedChoice timeToAnswer : Z)
  | OpFinishGame (clock : FinishClock) (sessionId : string)
  | OpRemovePlayer (sessionId playerId : string).

Definition run_op (db : DB) (op : Op) : DB :=
  match op with
  | OpCreateSession draws uuid now hostId quizId =>
      (createSession db draws uuid now hostId quizId).1
  | OpJoinSession uuid now joinCode playerName =>
      (joinSession db uuid now joinCode playerName).1
  | OpStartGame now sessionId hostId => (startGame db now sessionId hostId).1
  | OpNextQuestion clock sessionId hostId => (nextQuestion db clock sessionId hostId).1
  | OpSubmitAnswer clock sessionId playerId questionId selectedChoice timeToAnswer =>
      (submitAnswer db clock sessionId playerId questionId selectedChoice timeToAnswer).1
  | OpFinishGame clock sessionId => (finishGame db clock sessionId).1
  | OpRemovePlayer sessionId playerId => (removePlayer db sessionId playerId).1
  end.

Definition run_ops (db : DB) (ops : list Op) : DB := foldl run_op db ops.

(** ** A worked game: the scenario of two players named Ann on a one-question
    quiz with 100 base points and correct choice 1. *)

Module Scenario.

Definition quiz : Quiz.t :=
  Quiz.mk "quiz-1" "Capitals" "" "host-1"
    [Question.mk "q1" "Capital of France?" ["Lyon"; "Paris"; "Nice"] 1 20 100] 0 0.

Definition db0 : DB := initialDB (0, 0) {[ "quiz-1" := quiz ]}.

(** The draw 0.a1b2c3 in base 36. *)
Definition draws : nat → Draw := λ _, [10; 1; 11; 2; 12; 3]%nat.

Definition clock1 : SubmitClock := mkSubmitClock (λ _, 5000) 5000 5001.
Definition clock2 : SubmitClock := mkSubmitClock (λ _, 6000) 6000 6001.

Definition created : DB := run_op db0 (OpCreateSession draws "s-1" 1000 "host-1" "quiz-1").
Definition joined : DB :=
  run_ops created [OpJoinSession "p-a" 2000 "A1B2C3" "Ann"; OpJoinSession "p-b" 2100 "A1B2C3" "Ann"].
Definition started : DB :=
  run_ops joined [OpStartGame 3000 "s-1" "host-1";
                  OpNextQuestion (mkFinishClock 4000 4001) "s-1" "host-1"].
Definition answered1 : DB := run_op started (OpSubmitAnswer clock1 "s-1" "p-a" "q1" 1 800).
Definition answered2 : DB := run_op answered1 (OpSubmitAnswer clock2 "s-1" "p-b" "q1" 1 1800).
Definition ended : DB := run_op answered2 (OpFinishGame (mkFinishClock 9000 9001) "s-1").

(** The same game as one run from the initial store. *)
Definition game : list Op :=
  [ OpCreateSession draws "s-1" 1000 "host-1" "quiz-1";
    OpJoinSession "p-a" 2000 "A1B2C3" "Ann";
    OpJoinSession "p-b" 2100 "A1B2C3" "Ann";
    OpStartGame 3000 "s-1" "host-1";
    OpNextQuestion (mkFinishClock 4000 4001) "s-1" "host-1";
    OpSubmitAnswer clock1 "s-1" "p-a" "q1" 1 800;
    OpSubmitAnswer clock2 "s-1" "p-b" "q1" 1 1800;
    OpFinishGame (mkFinishClock 9000 9001) "s-1" ].

End Scenario.

(** ** A game on the demo quiz: six players answer its second question, worth
    150 points, correctly and one after the other. *)

Module DemoGame.

Definition db0 : DB := initialDB (0, 0) ∅.

Definition clock (t : Z) : SubmitClock := mkSubmitClock (λ _, t) t (t + 1).

(** The store before the sixth answer. *)
Definition before_sixth : DB :=
  run_ops db0
    [ OpCreateSession Scenario.draws "s-1" 1000 "host-1" DEMO_QUIZ_ID;
      OpJoinSession "p-1" 2001 "A1B2C3" "P1";
      OpJoinSession "p-2" 2002 "A1B2C3" "P2";
      OpJoinSession "p-3" 2003 "A1B2C3" "P3";
      OpJoinSession "p-4" 2004 "A1B2C3" "P4";
      OpJoinSession "p-5" 2005 "A1B2C3" "P5";
      OpJoinSession "p-6" 2006 "A1B2C3" "P6";
      OpStartGame 3000 "s-1" "host-1";
      OpNextQuestion (mkFinishClock 4000 4001) "s-1" "host-1";
      OpNextQuestion (mkFinishClock 5000 5001) "s-1" "host-1";
      OpSubmitAnswer (clock 6100) "s-1" "p-1" "q2" 2 1100;
      OpSubmitAnswer (clock 6200) "s-1" "p-2" "q2" 2 1200;
      OpSubmitAnswer (clock 6300) "s-1" "p-3" "q2" 2 1300;
      OpSubmitAnswer (clock 6400) "s-1" "p-4" "q2" 2 1400;
      OpSubmitAnswer (clock 6500) "s-1" "p-5" "q2" 2 1500 ].

End DemoGame.

(** * Properties *)

(** ** The sort *)

Section js_sort_facts.
Context {A : Type} (cmp : A → A → Z).

Lemma js_sort_insert_perm x l : js_sort_insert cmp x l ≡ₚ x :: l.
Proof.
  induction l as [|y r IH]; simpl; [done|].
  destruct (cmp x y <=? 0); [done|].
  rewrite IH. apply Permutation_swap.
Qed.

Lemma js_sort_perm l : js_sort cmp l ≡ₚ l.
Proof.
  induction l as [|x r IH]; simpl; [done|].
  by rewrite js_sort_insert_perm, IH.
Qed.

Lemma js_sort_length l : length (js_sort cmp l) = length l.
Proof. by rewrite js_sort_perm. Qed.

(** The comparator orders by a key: [cmp x y <= 0] exactly when the key of
    [x] is at most the key of [y]. *)
Context (key : A → Z) (cmp_key : ∀ x y, cmp x y ≤ 0 ↔ key x ≤ key y).

Let le_key (x y : A) : Prop := key x ≤ key y.

Lemma js_sort_insert_sorted x l :
  StronglySorted le_key l → StronglySorted le_key (js_sort_insert cmp x l).
Proof using cmp_key.
  induction 1 as [|y r Hr IH Hy]; simpl.
  { repeat constructor. }
  destruct (Z.leb_spec (cmp x y) 0) as [Hle|Hgt].
  - apply cmp_key in Hle. constructor; [by constructor|].
    constructor; [done|].
    eapply Forall_impl; [exact Hy|]. unfold le_key in *; intros; lia.
  - assert (key y ≤ key x) by (pose proof (cmp_key x y); lia).
    constructor; [done|].
    rewrite js_sort_insert_perm. by constructor.
Qed.

Lemma js_sort_sorted l : StronglySorted le_key (js_sort cmp l).
Proof using cmp_key.
  induction l; simpl; [constructor|by apply js_sort_insert_sorted].
Qed.

(** Stability: the elements of one key keep their relative order. [P] selects
    elements that all have the same key. *)
Lemma js_sort_insert_stable (P : A → Prop) `{∀ a, Decision (P a)} x l :
  (∀ a b, P a → P b → key a = key b) →
  filter P (js_sort_insert cmp x l) = filter P (x :: l).
Proof using cmp_key.
  intros HP. induction l as [|y r IH]; simpl; [done|].
  destruct (Z.leb_spec (cmp x y) 0) as [Hle|Hgt]; [done|].
  assert (key y < key x) by (pose proof (cmp_key x y); lia).
  rewrite filter_cons, IH, !filter_cons.
  repeat case_decide; try done.
  exfalso. assert (key x = key y) by auto. lia.
Qed.

Lemma js_sort_stable (P : A → Prop) `{∀ a, Decision (P a)} l :
  (∀ a b, P a → P b → key a = key b) →
  filter P (js_sort cmp l) = filter P l.
Proof using cmp_key.
  intros HP. induction l as [|x r IH]; simpl; [done|].
  rewrite js_sort_insert_stable, !filter_cons, IH; done.
Qed.

Lemma js_sort_lookup_le l i j x y :
  (i ≤ j)%nat → js_sort cmp l !! i = Some x → js_sort cmp l !! j = Some y →
  key x ≤ key y.
Proof using cmp_key.
  intros Hij Hi Hj.
  destruct (decide (i = j)) as [->|Hne]; [by simplify_eq|].
  pose proof (js_sort_sorted l) as Hs.
  revert i j Hij Hne Hi Hj.
  induction Hs as [|z r Hr IH Hz]; intros i j Hij Hne Hi Hj; [done|].
  destruct i as [|i], j as [|j]; simplify_eq/=; try lia.
  - rewrite Forall_forall in Hz. apply Hz. eauto using list_elem_of_lookup_2.
  - apply (IH i j); [lia|lia|done|done].
Qed.
End js_sort_facts.

(** ** The first match *)

Lemma js_find_Some {A} (P : A → Prop) `{∀ x, Decision (P x)} (l : list A) x :
  js_find P l = Some x → x ∈ l ∧ P x.
Proof.
  unfold js_find. destruct (list_find P l) as [[i y]|] eqn:E; [|done].
  intros [= <-]. apply list_find_Some in E as (?&?&_).
  eauto using list_elem_of_lookup_2.
Qed.

Lemma js_find_None {A} (P : A → Prop) `{∀ x, Decision (P x)} (l : list A) :
  js_find P l = None ↔ Forall (λ x, ¬ P x) l.
Proof.
  unfold js_find. destruct (list_find P l) as [[i y]|] eqn:E; simpl.
  - split; [done|]. intros HF.
    pose proof (proj2 (list_find_None P l) HF). congruence.
  - split; [|done]. intros _. exact (proj1 (list_find_None P l) E).
Qed.

Lemma js_find_is_Some {A} (P : A → Prop) `{∀ x, Decision (P x)} (l : list A) x :
  x ∈ l → P x → is_Some (js_find P l).
Proof.
  intros Hx HP. unfold js_find.
  destruct (list_find_elem_of P l x Hx HP) as [? ->]. by eexists.
Qed.

Lemma Forall_filter_keep {A} (P Q : A → Prop) `{∀ x, Decision (Q x)} (l : list A) :
  Forall P l → Forall P (filter Q l).
Proof.
  rewrite !Forall_forall. intros Hl x [_ Hx]%list_elem_of_filter. auto.
Qed.

(** ** The player items of a session partition *)

(** The sort keys of a partition are strictly increasing; in particular no
    two items share a key. *)
Definition keys_sorted (l : list Player.t) : Prop :=
  StronglySorted String_as_OT.lt (Player.id <$> l).

Global Instance keys_sorted_dec l : Decision (keys_sorted l).
Proof. unfold keys_sorted, String_as_OT.lt. apply _. Defined.

Definition wf_db (db : DB) : Prop :=
  map_Forall (λ _ l, keys_sorted l) (players db).

Global Instance wf_db_dec db : Decision (wf_db db).
Proof. unfold wf_db. apply _. Defined.

Section partition_facts.
Implicit Types (p q : Player.t) (l : list Player.t).

Lemma keys_sorted_NoDup l : keys_sorted l → NoDup (Player.id <$> l).
Proof.
  unfold keys_sorted. induction 1 as [|x r Hr IH Hx]; constructor; [|done].
  intros Hin. rewrite Forall_forall in Hx.
  apply (StrictOrder_Irreflexive (R := String_as_OT.lt) x), Hx, Hin.
Qed.

Lemma Forall_put_player (P : Player.t → Prop) p l :
  P p → Forall P l → Forall P (put_player p l).
Proof.
  intros Hp. induction 1 as [|q r Hq Hr IH]; simpl; [by repeat constructor|].
  destruct (String_as_OT.compare _ _); repeat constructor; done.
Qed.

Lemma put_player_keys_sorted p l : keys_sorted l → keys_sorted (put_player p l).
Proof.
  unfold keys_sorted. induction l as [|q r IH]; simpl; intros Hs.
  { repeat constructor. }
  apply StronglySorted_cons in Hs as [Hq Hr].
  destruct (String_as_OT.compare_spec (Player.id p) (Player.id q)) as [Heq|Hlt|Hgt]; simpl.
  - rewrite Heq. by apply StronglySorted_cons.
  - apply StronglySorted_cons. split; [|by apply StronglySorted_cons].
    constructor; [done|].
    eapply Forall_impl; [exact Hq|]. intros y Hy. by etrans.
  - apply StronglySorted_cons. split; [|by apply IH].
    apply Forall_fmap, Forall_put_player; [done|]. by apply Forall_fmap.
Qed.

Lemma elem_of_put_player p l : p ∈ put_player p l.
Proof.
  induction l as [|q r IH]; simpl; [set_solver|].
  destruct (String_as_OT.compare _ _); set_solver.
Qed.

Lemma update_player_ids playerId f l :
  (∀ q, Player.id (f q) = Player.id q) →
  Player.id <$> update_player playerId f l = Player.id <$> l.
Proof.
  intros Hf. unfold update_player. rewrite <-list_fmap_compose.
  apply list_fmap_ext. intros i q _. simpl. by case_decide.
Qed.

Lemma Forall_update_player (P : Player.t → Prop) playerId f l :
  (∀ q, q ∈ l → Player.id q = playerId → P q → P (f q)) →
  Forall P l → Forall P (update_player playerId f l).
Proof.
  intros Hf Hl. unfold update_player. apply Forall_fmap, Forall_forall.
  rewrite Forall_forall in Hl. intros q Hq. simpl. case_decide; auto.
Qed.

Lemma Forall_delete_player (P : Player.t → Prop) playerId l :
  Forall P l → Forall P (delete_player playerId l).
Proof. unfold delete_player. apply Forall_filter_keep. Qed.

Lemma delete_player_keys_sorted playerId l :
  keys_sorted l → keys_sorted (delete_player playerId l).
Proof.
  unfold keys_sorted, delete_player. induction l as [|q r IH]; simpl; [done|].
  intros [Hq Hr]%StronglySorted_cons. rewrite filter_cons.
  case_decide; [|by apply IH]. simpl. apply StronglySorted_cons. split; [|by apply IH].
  apply Forall_fmap, Forall_filter_keep. by apply Forall_fmap.
Qed.
End partition_facts.

(** ** Reading the result of a [try] block *)

Lemma bind_Ok {A B} (m : Res A) (f : A → Res B) (b : B) :
  m ≫= f = Ok b ↔ ∃ a, m = Ok a ∧ f a = Ok b.
Proof.
  unfold mbind, Res_bind. destruct m as [a|e].
  - split; [intros ?; by exists a|]. by intros (a' & [= ->] & ?).
  - split; [done|]. by intros (a' & ? & ?).
Qed.

Lemma bind_Throw {A B} (m : Res A) (f : A → Res B) (e : string) :
  m ≫= f = Throw e ↔ m = Throw e ∨ ∃ a, m = Ok a ∧ f a = Throw e.
Proof.
  unfold mbind, Res_bind. destruct m as [a|e'].
  - split; [intros ?; right; by exists a|]. intros [?|(a' & [= ->] & ?)]; done.
  - split; [intros [= ->]; by left|]. intros [[= ->]|(a' & ? & ?)]; done.
Qed.

Lemma orThrow_Ok {A} (x : option A) (message : string) (a : A) :
  orThrow x message = Ok a ↔ x = Some a.
Proof. destruct x; simpl; split; intros; simplify_eq; done. Qed.

Lemma throwIf_Ok (cond : bool) (message : string) (u : unit) :
  throwIf cond message = Ok u ↔ cond = false.
Proof. destruct cond, u; simpl; split; intros; simplify_eq; done. Qed.

(** Splits a hypothesis [... = Ok _] about a [try] block into its steps. *)
Ltac try_inv H :=
  repeat match type of H with
  | _ ≫= _ = Ok _ =>
      let a := fresh "a" in let Ha := fresh "Hstep" in
      apply bind_Ok in H as (a & Ha & H);
      first [ apply orThrow_Ok in Ha
            | apply throwIf_Ok in Ha
            | idtac ]
  end.

Lemma bool_decide_ne_false `{EqDecision A} (x y : A) :
  bool_decide (x ≠ y) = false ↔ x = y.
Proof.
  rewrite bool_decide_eq_false. split; [|by intros ->; auto].
  intros Hnn. by destruct (decide (x = y)).
Qed.

(** What an accepted submission has checked, written and returned. *)
Lemma submitAnswer_try_Ok db clock sessionId playerId questionId selectedChoice timeToAnswer
    db' result :
  submitAnswer_try db clock sessionId playerId questionId selectedChoice timeToAnswer
    = Ok (db', result) →
  ∃ session quiz question player,
    dynamoService.getSession db sessionId = Some session
    ∧ GameSession.status session = active
    ∧ GameSession.quiz session = Some quiz
    ∧ js_find (λ q, Question.id q = questionId) (Quiz.questions quiz) = Some question
    ∧ js_find (λ p, Player.id p = playerId) (dynamoService.getSessionPlayers db sessionId)
      = Some player
    ∧ js_find (λ a, PlayerAnswer.questionId a = questionId) (Player.answers player) = None
    ∧ 0 ≤ selectedChoice < Z.of_nat (length (Question.choices question))
    ∧ let isCorrect := selectedChoice =? Question.correctAnswer question in
      let ordered :=
        correctAnswersForQuestion clock (dynamoService.getSessionPlayers db sessionId)
          playerId (Player.name player) questionId timeToAnswer in
      let rank := js_findIndex (λ a, RankEntry.playerId a = playerId) ordered + 1 in
      let totalCorrect := Z.of_nat (length ordered) in
      let points :=
        if isCorrect then scorePoints (Question.points question) rank totalCorrect else 0 in
      let answer :=
        PlayerAnswer.mk questionId selectedChoice timeToAnswer isCorrect points
          (Some (answerSubmittedAt clock)) in
      db' = dynamoService.updatePlayer db sessionId playerId
              (set_score_answers (Player.score player + points)
                 (Player.answers player ++ [answer]))
      ∧ result = SubmitResult.mk isCorrect points questionId
                   (if isCorrect then Some rank else None)
                   (if isCorrect then Some totalCorrect else None).
Proof.
  unfold submitAnswer_try. intros H. try_inv H.
  rename a into session, a1 into quiz, a2 into question, a3 into player.
  exists session, quiz, question, player.
  apply (proj1 (bool_decide_ne_false _ _)) in Hstep0.
  apply bool_decide_eq_false in Hstep4.
  apply orb_false_iff in Hstep5 as [Hlo%Z.ltb_ge Hhi].
  rewrite Z.geb_leb in Hhi. apply Z.leb_gt in Hhi.
  split_and!; try done.
  { destruct (js_find _ (Player.answers player)); [|done]. destruct Hstep4; eauto. }
  all: destruct (selectedChoice =? Question.correctAnswer question); simpl in H;
    by simplify_eq.
Qed.

Lemma wf_db_players db sessionId :
  wf_db db → keys_sorted (dynamoService.getSessionPlayers db sessionId).
Proof.
  intros Hwf. unfold dynamoService.getSessionPlayers.
  destruct (players db !! sessionId) as [l|] eqn:E; simpl.
  - by eapply (map_Forall_lookup_1 _ _ _ _ Hwf).
  - constructor.
Qed.

Lemma NoDup_fmap_elem_eq {A B} (f : A → B) (l : list A) x y :
  NoDup (f <$> l) → x ∈ l → y ∈ l → f x = f y → x = y.
Proof.
  induction l as [|z r IH]; [by intros _ ?%elem_of_nil|].
  rewrite fmap_cons, NoDup_cons, !elem_of_cons.
  intros [Hz Hr] [->|Hx] [->|Hy] Hf; try done.
  - destruct Hz. rewrite Hf. by apply list_elem_of_fmap_2.
  - destruct Hz. rewrite <-Hf. by apply list_elem_of_fmap_2.
  - by apply IH.
Qed.

(** ** Rank and points of a correct answer *)

Lemma bySubmittedAt_key x y :
  bySubmittedAt x y ≤ 0 ↔ RankEntry.submittedAt x ≤ RankEntry.submittedAt y.
Proof. unfold bySubmittedAt. lia. Qed.

(** A player without an answer to the question contributes no entry, and no
    other player of the partition carries that player's id. *)
Lemma collectCorrect_other clock questionId allPlayers player :
  keys_sorted allPlayers →
  js_find (λ p, Player.id p = Player.id player) allPlayers = Some player →
  js_find (λ a, PlayerAnswer.questionId a = questionId) (Player.answers player) = None →
  Forall (λ e, RankEntry.playerId e ≠ Player.id player)
    (collectCorrect clock questionId allPlayers).
Proof.
  intros Hkeys [Hin _]%js_find_Some Hnone.
  apply Forall_forall. intros e (p & Hp & He)%list_elem_of_omap Hid.
  destruct (js_find _ (Player.answers p)) as [a|] eqn:Ha; simplify_eq/=.
  assert (p = player) as ->.
  { eapply NoDup_fmap_elem_eq; eauto using keys_sorted_NoDup. }
  apply js_find_Some in Ha as [Ha [Hq _]].
  apply js_find_None in Hnone. rewrite Forall_forall in Hnone.
  by apply (Hnone a).
Qed.

(** The rank computed by [findIndex] is the place of the current submission
    in the array sorted by submission time. *)
Lemma rank_position clock allPlayers player questionId timeToAnswer :
  keys_sorted allPlayers →
  js_find (λ p, Player.id p = Player.id player) allPlayers = Some player →
  js_find (λ a, PlayerAnswer.questionId a = questionId) (Player.answers player) = None →
  let current :=
    RankEntry.mk (Player.id player) (Player.name player) (currentSubmissionTime clock)
      timeToAnswer in
  let ordered :=
    correctAnswersForQuestion clock allPlayers (Player.id player) (Player.name player)
      questionId timeToAnswer in
  ∃ position : nat,
    ordered !! position = Some current
    ∧ js_findIndex (λ a, RankEntry.playerId a = Player.id player) ordered
      = Z.of_nat position.
Proof.
  intros Hkeys Hplayer Hnone current ordered.
  pose proof (collectCorrect_other clock questionId _ _ Hkeys Hplayer Hnone) as Hother.
  assert (ordered ≡ₚ collectCorrect clock questionId allPlayers ++ [current]) as Hperm
    by apply js_sort_perm.
  assert (current ∈ ordered) as Hcur by (rewrite Hperm; set_solver).
  unfold js_findIndex.
  destruct (list_find_elem_of (λ a, RankEntry.playerId a = Player.id player)
              ordered current Hcur eq_refl) as [[i e] Hfind].
  rewrite Hfind. exists i. split; [|done].
  apply list_find_Some in Hfind as (Hi & He & _).
  assert (e ∈ ordered) as Hin by eauto using list_elem_of_lookup_2.
  rewrite Hperm, elem_of_app, list_elem_of_singleton in Hin.
  destruct Hin as [Hin| ->]; [|done].
  rewrite Forall_forall in Hother. by destruct (Hother e Hin).
Qed.

Lemma scorePoints_floor rank totalCorrect :
  1 ≤ totalCorrect → 30 ≤ scorePoints 100 rank totalCorrect.
Proof.
  intros _. unfold scorePoints. destruct (totalCorrect =? 1); [lia|].
  change (minPoints 100) with 30. lia.
Qed.

(** C1. A correct submission that [submitAnswer] accepts (the session is then
    active) is ranked among the recorded correct answers to the question plus
    itself, ordered by submission time: the sorted array is a permutation of
    those entries, it is ascending in [submittedAt], the current submission
    stands at index [rank - 1] in it, and [totalCorrect] is its length. The
    points are [basePoints] when [totalCorrect = 1] and otherwise the larger of
    [Math.round(basePoints * (1.0 - ((rank - 1) / totalCorrect) * 0.5))] and
    [Math.round(basePoints * 0.3)], where the subtractions, the quotient and
    the products are those of binary64 numbers. With 100 base points this
    gives 100 for one correct answer, 100, 88 and 63 for ranks 1, 2 and 4 of
    4, and never less than 30; with 150 base points the last of six gets
    87. *)
Theorem C1_rank_based_points :
  (∀ db clock sessionId playerId questionId selectedChoice timeToAnswer db' result,
     wf_db db →
     submitAnswer db clock sessionId playerId questionId selectedChoice timeToAnswer
       = (db', Some result) →
     SubmitResult.isCorrect result = true →
     ∃ session quiz question player (position : nat),
       let allPlayers := dynamoService.getSessionPlayers db sessionId in
       dynamoService.getSession db sessionId = Some session
       ∧ GameSession.status session = active
       ∧ GameSession.quiz session = Some quiz
       ∧ js_find (λ q, Question.id q = questionId) (Quiz.questions quiz) = Some question
       ∧ js_find (λ p, Player.id p = playerId) allPlayers = Some player
       ∧ let recorded := collectCorrect clock questionId allPlayers in
         let current :=
           RankEntry.mk playerId (Player.name player) (currentSubmissionTime clock)
             timeToAnswer in
         let ordered :=
           correctAnswersForQuestion clock allPlayers playerId (Player.name player)
             questionId timeToAnswer in
         let r := Z.of_nat position + 1 in
         let n := Z.of_nat (length recorded) + 1 in
         let basePoints := Question.points question in
         ordered ≡ₚ recorded ++ [current]
         ∧ StronglySorted (λ a b, RankEntry.submittedAt a ≤ RankEntry.submittedAt b) ordered
         ∧ ordered !! position = Some current
         ∧ SubmitResult.rank result = Some r
         ∧ SubmitResult.totalCorrect result = Some n
         ∧ SubmitResult.points result =
             if decide (n = 1) then basePoints
             else Z.max
                    (Math_round
                       (double_mul (double_of_Z basePoints)
                          (double_sub double_1_0
                             (double_mul
                                (double_div (double_sub (double_of_Z r) double_1_0)
                                   (double_of_Z n))
                                double_0_5))))
                    (Math_round (double_mul (double_of_Z basePoints) double_0_3)))
  ∧ scorePoints 100 1 1 = 100
  ∧ scorePoints 100 1 4 = 100
  ∧ scorePoints 100 2 4 = 88
  ∧ scorePoints 100 4 4 = 63
  ∧ (∀ rank totalCorrect, 1 ≤ totalCorrect → 30 ≤ scorePoints 100 rank totalCorrect)
  ∧ scorePoints 150 6 6 = 87.
Proof.
  split; [|split_and!; [vm_compute; reflexivity..|exact scorePoints_floor
                        |vm_compute; reflexivity]].
  intros db clock sessionId playerId questionId selectedChoice timeToAnswer db' result
    Hwf Hsubmit Hcorrect.
  unfold submitAnswer in Hsubmit.
  destruct (submitAnswer_try _ _ _ _ _ _ _) as [[db1 result1]|] eqn:Htry; [|done].
  simplify_eq.
  apply submitAnswer_try_Ok in Htry
    as (session & quiz & question & player & Hs & Hact & Hquiz & Hq & Hp & Hnone & _ & _ & ->).
  simpl in Hcorrect. rewrite Hcorrect. simpl.
  destruct (js_find_Some _ _ _ Hp) as [_ <-].
  destruct (rank_position clock _ player questionId timeToAnswer
              (wf_db_players db sessionId Hwf) Hp Hnone) as (position & Hpos & Hrank).
  exists session, quiz, question, player, position.
  split_and!; try done.
  - apply js_sort_perm.
  - apply (js_sort_sorted bySubmittedAt RankEntry.submittedAt bySubmittedAt_key).
  - by rewrite Hrank.
  - unfold correctAnswersForQuestion.
    rewrite js_sort_length, length_app, Nat2Z.inj_add. done.
  - rewrite Hrank. unfold correctAnswersForQuestion.
    rewrite js_sort_length, length_app, Nat2Z.inj_add. simpl length.
    unfold scorePoints, rankPercentage, minPoints.
    change (Z.of_nat 1) with 1.
    destruct (Z.eqb_spec (Z.of_nat (length (collectCorrect clock questionId
                (dynamoService.getSessionPlayers db sessionId))) + 1) 1);
      case_decide; done.
Qed.

(** The second of two correct answers in the worked game. *)
Lemma C1_rank_based_points_witness :
  let result := SubmitResult.mk true 75 "q1" (Some 2) (Some 2) in
  wf_db Scenario.answered1
  ∧ submitAnswer Scenario.answered1 Scenario.clock2 "s-1" "p-b" "q1" 1 1800
    = (Scenario.answered2, Some result)
  ∧ SubmitResult.isCorrect result = true
  ∧ ∃ position : nat,
      SubmitResult.rank result = Some (Z.of_nat position + 1)
      ∧ SubmitResult.totalCorrect result
        = Some (Z.of_nat (length (collectCorrect Scenario.clock2 "q1"
                  (dynamoService.getSessionPlayers Scenario.answered1 "s-1"))) + 1).
Proof.
  intros result.
  assert (wf_db Scenario.answered1) as Hwf
    by (apply (bool_decide_unpack _); vm_compute; exact I).
  assert (submitAnswer Scenario.answered1 Scenario.clock2 "s-1" "p-b" "q1" 1 1800
          = (Scenario.answered2, Some result)) as Hsubmit
    by (vm_compute; reflexivity).
  split; [exact Hwf|]. split; [exact Hsubmit|]. split; [reflexivity|].
  destruct C1_rank_based_points as [Hgeneral _].
  destruct (Hgeneral _ _ _ _ _ _ _ _ _ Hwf Hsubmit eq_refl)
    as (session & quiz & question & player & position & _ & _ & _ & _ & _
        & _ & _ & _ & Hrank & Htotal & _).
  exists position. exact (conj Hrank Htotal).
Defined.

(** C1 (as stated, with the formula evaluated exactly) fails. In the game on
    the demo quiz the sixth of six correct answers to the question worth 150
    points gets 87 points: the binary64 value of the percentage lies below
    7/12 and that of the product below 87.5. The formula evaluated exactly
    gives round(87.5) = 88. *)
Lemma C1_counterexample :
  let outcome :=
    submitAnswer DemoGame.before_sixth (DemoGame.clock 6600) "s-1" "p-6" "q2" 2 1600 in
  outcome.2 = Some (SubmitResult.mk true 87 "q2" (Some 6) (Some 6))
  ∧ Question.points <$> demoQuestions !! 1%nat = Some 150
  ∧ Z.max (js_round (inject_Z 150 * (1 - (inject_Z (6 - 1) / inject_Z 6) * (1 # 2)))%Q)
          (js_round (inject_Z 150 * (3 # 10))%Q) = 88
  ∧ rankPercentage 6 6 = S754_finite false 5254199565265578 (-53)
  ∧ (double_value (rankPercentage 6 6) < 7 # 12)%Q
  ∧ (double_value (double_mul (double_of_Z 150) (rankPercentage 6 6)) < 175 # 2)%Q.
Proof.
  intros outcome.
  split; [vm_compute; reflexivity|]. split; [reflexivity|].
  split; [vm_compute; reflexivity|]. split; [vm_compute; reflexivity|].
  split; vm_compute; reflexivity.
Qed.


(** ** Duplicate submissions *)

Lemma submitAnswer_Throw_unchanged db clock sessionId playerId questionId selectedChoice
    timeToAnswer message :
  submitAnswer_try db clock sessionId playerId questionId selectedChoice timeToAnswer
    = Throw message →
  submitAnswer db clock sessionId playerId questionId selectedChoice timeToAnswer = (db, None).
Proof. unfold submitAnswer. by intros ->. Qed.

(** C2. A player who already has a recorded answer for [questionId] submits
    again for the same question: the call fails (it returns [null]) and the
    store is left exactly as it was, so that the player's score and answers
    are unchanged, nothing is appended and the recorded answer stays; and
    whenever the call gets as far as the player (the session is active and
    the question belongs to its quiz), the error raised is the duplicate-answer
    error [Player already answered this question]. *)
Theorem C2_duplicate_answer_rejected db clock sessionId playerId questionId
    selectedChoice timeToAnswer player existing :
  js_find (λ p, Player.id p = playerId) (dynamoService.getSessionPlayers db sessionId)
    = Some player →
  js_find (λ a, PlayerAnswer.questionId a = questionId) (Player.answers player)
    = Some existing →
  let outcome :=
    submitAnswer db clock sessionId playerId questionId selectedChoice timeToAnswer in
  outcome = (db, None)
  ∧ js_find (λ p, Player.id p = playerId) (dynamoService.getSessionPlayers outcome.1 sessionId)
    = Some player
  ∧ (∀ session quiz question,
       dynamoService.getSession db sessionId = Some session →
       GameSession.status session = active →
       GameSession.quiz session = Some quiz →
       js_find (λ q, Question.id q = questionId) (Quiz.questions quiz) = Some question →
       submitAnswer_try db clock sessionId playerId questionId selectedChoice timeToAnswer
       = Throw "Player already answered this question").
Proof.
  intros Hplayer Hexisting outcome.
  assert (outcome = (db, None)) as Hout.
  { subst outcome. unfold submitAnswer.
    destruct (submitAnswer_try _ _ _ _ _ _ _) as [[db1 result1]|] eqn:Htry; [|done].
    apply submitAnswer_try_Ok in Htry
      as (session & quiz & question & player' & _ & _ & _ & _ & Hp & Hnone & _).
    congruence. }
  split; [done|]. split; [by rewrite Hout|].
  intros session quiz question Hs Hact Hquiz Hq.
  unfold submitAnswer_try.
  rewrite Hs. simpl. rewrite Hact. simpl. rewrite Hquiz. simpl.
  rewrite Hq. simpl. rewrite Hplayer. simpl. rewrite Hexisting. done.
Qed.

(** The second player of the worked game submits a second time. *)
Lemma C2_duplicate_answer_rejected_witness :
  let db := Scenario.answered2 in
  let player :=
    Player.mk "p-b" "Ann2" "s-1" 75
      [PlayerAnswer.mk "q1" 1 1800 true 75 (Some 6001)] true 2100 in
  js_find (λ p, Player.id p = "p-b") (dynamoService.getSessionPlayers db "s-1") = Some player
  ∧ js_find (λ a, PlayerAnswer.questionId a = "q1") (Player.answers player)
    = Some (PlayerAnswer.mk "q1" 1 1800 true 75 (Some 6001))
  ∧ submitAnswer db Scenario.clock2 "s-1" "p-b" "q1" 0 2500 = (db, None).
Proof.
  intros db player.
  assert (js_find (λ p, Player.id p = "p-b") (dynamoService.getSessionPlayers db "s-1")
          = Some player) as Hplayer by (vm_compute; reflexivity).
  assert (js_find (λ a, PlayerAnswer.questionId a = "q1") (Player.answers player)
          = Some (PlayerAnswer.mk "q1" 1 1800 true 75 (Some 6001))) as Hexisting
    by (vm_compute; reflexivity).
  split; [exact Hplayer|]. split; [exact Hexisting|].
  exact (proj1 (C2_duplicate_answer_rejected db Scenario.clock2 "s-1" "p-b" "q1" 0 2500
                  player _ Hplayer Hexisting)).
Defined.


(** ** Sums and rounding *)

(** The sum of a list of integers. *)
Definition Zsum (l : list Z) : Z := foldr Z.add 0 l.

Lemma foldl_add_Zsum {A} (f : A → Z) (l : list A) (acc : Z) :
  foldl (λ sum x, sum + f x) acc l = acc + Zsum (f <$> l).
Proof.
  revert acc. induction l as [|x r IH]; intros acc.
  - unfold Zsum. simpl. lia.
  - rewrite fmap_cons. cbn [foldl]. rewrite IH. unfold Zsum. cbn [foldr]. lia.
Qed.

Lemma Zsum_app l1 l2 : Zsum (l1 ++ l2) = Zsum l1 + Zsum l2.
Proof.
  unfold Zsum. induction l1 as [|x r IH]; [done|].
  rewrite <-app_comm_cons. cbn [foldr]. lia.
Qed.

(** Rounding a quotient of integers half up is one floor division. *)
Lemma js_round_div (t n : Z) :
  0 < n → js_round (inject_Z t / inject_Z n)%Q = (2 * t + n) `div` (2 * n).
Proof.
  intros Hn. destruct n as [|p|p]; try lia.
  unfold js_round.
  rewrite (Qfloor_comp _ ((2 * t + Z.pos p) # (2 * p))).
  - reflexivity.
  - unfold Qeq, Qplus, Qdiv, Qmult, Qinv, inject_Z. simpl. lia.
Qed.

Lemma js_round_div_bounds (t n : Z) :
  0 < n →
  let a := js_round (inject_Z t / inject_Z n)%Q in
  2 * n * a - n ≤ 2 * t < 2 * n * a + n.
Proof.
  intros Hn a. subst a. rewrite js_round_div by done.
  pose proof (Z.div_mod (2 * t + n) (2 * n)) as Hdm.
  pose proof (Z.mod_pos_bound (2 * t + n) (2 * n)) as Hmod.
  nia.
Qed.


(** ** Finishing a game *)

(** The snapshot [saveGameResult] builds from a session and its quiz. *)
Definition snapshot (db : DB) (completedAt : Z) (sessionId : string)
    (session : GameSession.t) (quiz : Quiz.t) : GameResult.t :=
  let players := dynamoService.getSessionPlayers db sessionId in
  GameResult.mk sessionId (GameSession.quizId session) (Quiz.title quiz)
    (GameSession.hostId session) completedAt (Z.of_nat (length players))
    (Z.of_nat (length (Quiz.questions quiz))) (averageScore players)
    (getLeaderboard db sessionId) (questionStats players <$> Quiz.questions quiz)
    true (gameDuration session).

Lemma resultLeaderboard_id (l : list LeaderboardEntry.t) :
  (λ entry, LeaderboardEntry.mk (LeaderboardEntry.playerId entry)
              (LeaderboardEntry.playerName entry) (LeaderboardEntry.score entry)
              (LeaderboardEntry.rank entry)) <$> l = l.
Proof.
  induction l as [|[] r IH]; [done|]. rewrite fmap_cons, IH. done.
Qed.

Lemma saveGameResult_built db completedAt sessionId session quiz :
  dynamoService.getSession db sessionId = Some session →
  GameSession.quiz session = Some quiz →
  saveGameResult db completedAt sessionId
  = dynamoService.saveGameResult db (snapshot db completedAt sessionId session quiz).
Proof.
  intros Hs Hq. unfold saveGameResult. rewrite Hs, Hq.
  unfold snapshot. by rewrite resultLeaderboard_id.
Qed.

Lemma saveGameResult_sessions db completedAt sessionId :
  sessions (saveGameResult db completedAt sessionId) = sessions db.
Proof.
  unfold saveGameResult.
  destruct (dynamoService.getSession db sessionId) as [s|]; [|done].
  destruct (GameSession.quiz s); done.
Qed.

Lemma saveGameResult_players db completedAt sessionId :
  players (saveGameResult db completedAt sessionId) = players db.
Proof.
  unfold saveGameResult.
  destruct (dynamoService.getSession db sessionId) as [s|]; [|done].
  destruct (GameSession.quiz s); done.
Qed.

Lemma finishGame_found db clock sessionId session :
  dynamoService.getSession db sessionId = Some session →
  finishGame db clock sessionId
  = (saveGameResult
       (dynamoService.updateSession db sessionId (set_finished (finishedAtNow clock)))
       (completedAtNow clock) sessionId, true)
  ∧ dynamoService.getSession (finishGame db clock sessionId).1 sessionId
    = Some (set_finished (finishedAtNow clock) session).
Proof.
  intros Hs. unfold finishGame. rewrite Hs. split; [done|].
  unfold dynamoService.getSession in *. simpl.
  rewrite saveGameResult_sessions. simpl.
  by rewrite lookup_alter_eq, Hs.
Qed.

(** C9. [finishGame] tests that the session exists and nothing else: on a
    missing session it returns [false] and writes nothing; on an existing
    session of any status, also [waiting] or [finished], it returns [true] and
    stores the session with status [finished] and with the clock reading of
    this call as [finishedAt], every other field as before. A waiting session
    thus goes to finished directly. *)
Theorem C9_finishGame_ignores_status db clock sessionId :
  (dynamoService.getSession db sessionId = None →
   finishGame db clock sessionId = (db, false))
  ∧ (∀ session,
       dynamoService.getSession db sessionId = Some session →
       ∃ db' session',
         finishGame db clock sessionId = (db', true)
         ∧ dynamoService.getSession db' sessionId = Some session'
         ∧ GameSession.status session' = finished
         ∧ GameSession.finishedAt session' = Some (finishedAtNow clock)
         ∧ session' = set_finished (finishedAtNow clock) session).
Proof.
  split.
  - intros Hs. unfold finishGame. by rewrite Hs.
  - intros session Hs.
    destruct (finishGame_found db clock sessionId session Hs) as [Hrun Hget].
    eexists _, _. split; [exact Hrun|].
    rewrite Hrun in Hget. simpl in Hget. by rewrite Hget.
Qed.

(** A session that is still waiting: two players joined, the game was never
    started. *)
Lemma C9_finishGame_ignores_status_witness :
  let session :=
    GameSession.mk "s-1" "quiz-1" "host-1" "A1B2C3" waiting 0 [] 1000 None None
      (Some Scenario.quiz) in
  let clock := mkFinishClock 9000 9001 in
  dynamoService.getSession Scenario.joined "s-1" = Some session
  ∧ ∃ db' session',
      finishGame Scenario.joined clock "s-1" = (db', true)
      ∧ dynamoService.getSession db' "s-1" = Some session'
      ∧ GameSession.status session' = finished
      ∧ GameSession.finishedAt session' = Some 9000
      ∧ session' = set_finished 9000 session.
Proof.
  intros session clock.
  assert (dynamoService.getSession Scenario.joined "s-1" = Some session) as Hs
    by (vm_compute; reflexivity).
  split; [exact Hs|].
  exact (proj2 (C9_finishGame_ignores_status Scenario.joined clock "s-1") session Hs).
Defined.

Lemma finishGame_saved db clock sessionId session quiz :
  dynamoService.getSession db sessionId = Some session →
  GameSession.quiz session = Some quiz →
  let result :=
    snapshot (dynamoService.updateSession db sessionId (set_finished (finishedAtNow clock)))
      (completedAtNow clock) sessionId (set_finished (finishedAtNow clock) session) quiz in
  savedResults (finishGame db clock sessionId).1 = savedResults db ++ [result]
  ∧ dynamoService.getGameResult (finishGame db clock sessionId).1 sessionId = Some result
  ∧ (∀ other, other ≠ sessionId →
       dynamoService.getGameResult (finishGame db clock sessionId).1 other
       = dynamoService.getGameResult db other).
Proof.
  intros Hs Hq result.
  destruct (finishGame_found db clock sessionId session Hs) as [-> _]. simpl.
  rewrite (saveGameResult_built _ _ _ (set_finished (finishedAtNow clock) session) quiz);
    [| |done].
  - unfold dynamoService.getGameResult. simpl. split; [done|].
    split; [by rewrite lookup_insert_eq|].
    intros other Hne. by rewrite lookup_insert_ne.
  - unfold dynamoService.getSession in *. simpl. by rewrite lookup_alter_eq, Hs.
Qed.

(** C3 (as amended). On an existing session that carries its quiz, every call
    of [finishGame], whatever the status of the session, returns [true], stores
    the session as finished with the finish time of this call, and builds and
    saves exactly one game-result snapshot, which becomes the stored result of
    the session (the results of other sessions are untouched). There is no
    guard against a repeated call: [k] calls build [k] snapshots, each
    replacing the one stored before. *)
Theorem C3_finish_builds_one_snapshot_per_call db sessionId session quiz :
  dynamoService.getSession db sessionId = Some session →
  GameSession.quiz session = Some quiz →
  (∀ clock, ∃ db' result,
     finishGame db clock sessionId = (db', true)
     ∧ dynamoService.getSession db' sessionId
       = Some (set_finished (finishedAtNow clock) session)
     ∧ savedResults db' = savedResults db ++ [result]
     ∧ dynamoService.getGameResult db' sessionId = Some result
     ∧ GameResult.sessionId result = sessionId
     ∧ GameResult.completedAt result = completedAtNow clock
     ∧ GameResult.leaderboard result = getLeaderboard db sessionId
     ∧ (∀ other, other ≠ sessionId →
          dynamoService.getGameResult db' other = dynamoService.getGameResult db other))
  ∧ (∀ clocks : list FinishClock,
       length (savedResults (foldl (λ d clock, (finishGame d clock sessionId).1) db clocks))
       = (length (savedResults db) + length clocks)%nat).
Proof.
  intros Hs Hq. split.
  - intros clock.
    destruct (finishGame_found db clock sessionId session Hs) as [Hrun Hget].
    destruct (finishGame_saved db clock sessionId session quiz Hs Hq)
      as (Hsaved & Hstored & Hothers).
    rewrite Hrun in Hget, Hsaved, Hstored, Hothers.
    eexists _, _. split; [exact Hrun|]. split; [exact Hget|].
    split; [exact Hsaved|]. split; [exact Hstored|]. by split_and!.
  - intros clocks. revert db session Hs Hq.
    induction clocks as [|clock clocks IH]; intros db session Hs Hq.
    { simpl. lia. }
    cbn [foldl].
    destruct (finishGame_found db clock sessionId session Hs) as [_ Hget].
    rewrite (IH _ _ Hget Hq).
    destruct (finishGame_saved db clock sessionId session quiz Hs Hq) as (-> & _).
    rewrite length_app. simpl. lia.
Qed.

Lemma C3_finish_builds_one_snapshot_per_call_witness :
  let session :=
    GameSession.mk "s-1" "quiz-1" "host-1" "A1B2C3" active 1 [] 1000 (Some 3000) None
      (Some Scenario.quiz) in
  dynamoService.getSession Scenario.answered2 "s-1" = Some session
  ∧ GameSession.quiz session = Some Scenario.quiz
  ∧ length (savedResults
              (foldl (λ d clock, (finishGame d clock "s-1").1) Scenario.answered2
                 [mkFinishClock 7000 7001; mkFinishClock 9000 9001; mkFinishClock 9500 9501]))
    = (length (savedResults Scenario.answered2) + 3)%nat.
Proof.
  intros session.
  assert (dynamoService.getSession Scenario.answered2 "s-1" = Some session) as Hs
    by (vm_compute; reflexivity).
  split; [exact Hs|]. split; [reflexivity|].
  exact (proj2 (C3_finish_builds_one_snapshot_per_call Scenario.answered2 "s-1" session
                  Scenario.quiz Hs eq_refl)
           [mkFinishClock 7000 7001; mkFinishClock 9000 9001; mkFinishClock 9500 9501]).
Defined.

(** C3 (as stated) fails. In the worked game the host asks for the next
    question after the last one, which finishes the game and builds a first
    snapshot; the host then sends the explicit message that ends the game,
    and a second snapshot is built, which replaces the stored one. *)
Lemma C3_counterexample :
  let end_of_quiz :=
    (server.next_question Scenario.answered2 (mkFinishClock 7000 7001) true
       "s-1" "host-1").1 in
  let host_ends :=
    (server.finish_game end_of_quiz (mkFinishClock 9000 9001) true "s-1").1 in
  length (savedResults Scenario.answered2) = 0%nat
  ∧ GameSession.status <$> dynamoService.getSession end_of_quiz "s-1" = Some finished
  ∧ length (savedResults end_of_quiz) = 1%nat
  ∧ GameResult.completedAt <$> dynamoService.getGameResult end_of_quiz "s-1" = Some 7001
  ∧ length (savedResults host_ends) = 2%nat
  ∧ GameResult.completedAt <$> dynamoService.getGameResult host_ends "s-1" = Some 9001
  ∧ dynamoService.getGameResult host_ends "s-1"
    ≠ dynamoService.getGameResult end_of_quiz "s-1".
Proof.
  intros end_of_quiz host_ends.
  split; [vm_compute; reflexivity|]. split; [vm_compute; reflexivity|].
  split; [vm_compute; reflexivity|]. split; [vm_compute; reflexivity|].
  split; [vm_compute; reflexivity|]. split; [vm_compute; reflexivity|].
  intros Heq.
  assert (GameResult.completedAt <$> dynamoService.getGameResult host_ends "s-1"
          = GameResult.completedAt <$> dynamoService.getGameResult end_of_quiz "s-1")
    as Hc by (rewrite Heq; reflexivity).
  vm_compute in Hc. discriminate Hc.
Qed.

Lemma averageScore_spec (players : list Player.t) :
  let n := Z.of_nat (length players) in
  let total := Zsum (Player.score <$> players) in
  (n = 0 → averageScore players = 0)
  ∧ (0 < n → averageScore players = js_round (inject_Z total / inject_Z n)%Q).
Proof.
  intros n total. unfold averageScore. fold n.
  destruct (Z.ltb_spec 0 n); split; try lia.
  intros _. by rewrite foldl_add_Zsum, Z.add_0_l.
Qed.

(** C10. The snapshot built for a session records the number of participants
    and their average score: with no participant the average is 0 (nothing is
    divided), and with [n > 0] participants it is the sum of the scores
    divided by [n] and rounded to the nearest integer, a half rounding up. *)
Theorem C10_average_score db completedAt sessionId session quiz :
  dynamoService.getSession db sessionId = Some session →
  GameSession.quiz session = Some quiz →
  ∃ result,
    savedResults (saveGameResult db completedAt sessionId) = savedResults db ++ [result]
    ∧ let players := dynamoService.getSessionPlayers db sessionId in
      let n := Z.of_nat (length players) in
      let total := Zsum (Player.score <$> players) in
      let average := GameResult.averageScore result in
      GameResult.totalParticipants result = n
      ∧ (n = 0 → average = 0)
      ∧ (0 < n →
         average = js_round (inject_Z total / inject_Z n)%Q
         ∧ 2 * n * average - n ≤ 2 * total < 2 * n * average + n).
Proof.
  intros Hs Hq. rewrite (saveGameResult_built _ _ _ _ _ Hs Hq).
  eexists. split; [reflexivity|]. simpl.
  destruct (averageScore_spec (dynamoService.getSessionPlayers db sessionId)) as [H0 Hpos].
  split; [done|]. split; [exact H0|].
  intros Hn. rewrite (Hpos Hn). split; [done|].
  by apply js_round_div_bounds.
Qed.

(** The worked game: two participants with 100 and 75 points. *)
Lemma C10_average_score_witness :
  let session :=
    GameSession.mk "s-1" "quiz-1" "host-1" "A1B2C3" active 1 [] 1000 (Some 3000) None
      (Some Scenario.quiz) in
  dynamoService.getSession Scenario.answered2 "s-1" = Some session
  ∧ GameSession.quiz session = Some Scenario.quiz
  ∧ ∃ result,
      savedResults (saveGameResult Scenario.answered2 9001 "s-1")
      = savedResults Scenario.answered2 ++ [result]
      ∧ GameResult.totalParticipants result = 2
      ∧ GameResult.averageScore result = 88.
Proof.
  intros session.
  assert (dynamoService.getSession Scenario.answered2 "s-1" = Some session) as Hs
    by (vm_compute; reflexivity).
  split; [exact Hs|]. split; [reflexivity|].
  destruct (C10_average_score Scenario.answered2 9001 "s-1" session Scenario.quiz Hs eq_refl)
    as (result & Hsaved & Hn & _ & Havg).
  exists result. split; [exact Hsaved|].
  assert (Z.of_nat (length (dynamoService.getSessionPlayers Scenario.answered2 "s-1")) = 2)
    as Hlen by (vm_compute; reflexivity).
  assert (Zsum (Player.score <$> dynamoService.getSessionPlayers Scenario.answered2 "s-1")
          = 175) as Htotal by (vm_compute; reflexivity).
  rewrite Hlen in Hn, Havg. rewrite Htotal in Havg.
  split; [exact Hn|]. exact (proj1 (Havg eq_refl)).
Defined.

Lemma averageScore_empty_session :
  GameResult.averageScore
    <$> savedResults (saveGameResult Scenario.created 9001 "s-1") = [0].
Proof. vm_compute. reflexivity. Qed.


(** ** The leaderboard *)

Lemma filter_fmap {A B} (f : A → B) (P : B → Prop) `{∀ b, Decision (P b)} (l : list A) :
  filter P (f <$> l) = f <$> filter (λ a, P (f a)) l.
Proof.
  induction l as [|x r IH]; [done|].
  rewrite fmap_cons, !filter_cons, IH. by case_decide.
Qed.

(** What a leaderboard entry says of a player: id, name and score. *)
Definition standing (e : LeaderboardEntry.t) : string * string * Z :=
  (LeaderboardEntry.playerId e, LeaderboardEntry.playerName e, LeaderboardEntry.score e).

Definition standing_of (p : Player.t) : string * string * Z :=
  (Player.id p, Player.name p, Player.score p).

Lemma standing_filter v (l : list LeaderboardEntry.t) :
  standing <$> filter (λ e, LeaderboardEntry.score e = v) l
  = filter (λ s, s.2 = v) (standing <$> l).
Proof. by rewrite filter_fmap. Qed.

Lemma standing_of_filter v (l : list Player.t) :
  standing_of <$> filter (λ p, Player.score p = v) l
  = filter (λ s, s.2 = v) (standing_of <$> l).
Proof. by rewrite filter_fmap. Qed.

Lemma byScore_key (a b : LeaderboardEntry.t) :
  LeaderboardEntry.score b - LeaderboardEntry.score a ≤ 0
  ↔ - LeaderboardEntry.score a ≤ - LeaderboardEntry.score b.
Proof. lia. Qed.

Lemma standing_ranked (f : nat → Z) (l : list LeaderboardEntry.t) :
  standing <$> js_mapi (λ player index, with_rank (f index) player) l = standing <$> l.
Proof.
  unfold js_mapi. apply list_eq. intros i.
  rewrite !list_lookup_fmap, list_lookup_imap. by destruct (l !! i).
Qed.

Lemma standing_leaderboardData (players : list Player.t) :
  standing <$> leaderboardData players = standing_of <$> players.
Proof. unfold leaderboardData. rewrite <-list_fmap_compose. done. Qed.

(** C6. The leaderboard has one entry per player of the session, carrying the
    player's id, name and score; it is in descending order of score; players
    with equal scores stand in the order in which the store lists them; and
    the entry at position [i] (from 0) has rank [i + 1]. *)
Theorem C6_leaderboard_sorted_dense_ranks db sessionId :
  let players := dynamoService.getSessionPlayers db sessionId in
  let board := getLeaderboard db sessionId in
  length board = length players
  ∧ standing <$> board ≡ₚ standing_of <$> players
  ∧ (∀ i j a b,
       (i ≤ j)%nat → board !! i = Some a → board !! j = Some b →
       LeaderboardEntry.score b ≤ LeaderboardEntry.score a)
  ∧ (∀ v,
       standing <$> filter (λ e, LeaderboardEntry.score e = v) board
       = standing_of <$> filter (λ p, Player.score p = v) players)
  ∧ (∀ i e, board !! i = Some e → LeaderboardEntry.rank e = Z.of_nat i + 1).
Proof.
  intros players board.
  set (cmp := λ a b : LeaderboardEntry.t,
         LeaderboardEntry.score b - LeaderboardEntry.score a).
  set (sorted := js_sort cmp (leaderboardData players)).
  assert (board = js_mapi (λ player index, with_rank (Z.of_nat index + 1) player) sorted)
    as Hboard by done.
  assert (standing <$> board = standing <$> sorted) as Hstanding
    by (rewrite Hboard; apply standing_ranked).
  assert (∀ i e, board !! i = Some e →
            ∃ e', sorted !! i = Some e' ∧ e = with_rank (Z.of_nat i + 1) e') as Hentry.
  { intros i e. rewrite Hboard. unfold js_mapi. rewrite list_lookup_imap.
    destruct (sorted !! i) as [e'|]; [|done]. intros [= <-]. eauto. }
  split_and!.
  - rewrite Hboard. unfold js_mapi, sorted, leaderboardData.
    by rewrite length_imap, js_sort_length, length_fmap.
  - rewrite Hstanding. unfold sorted.
    by rewrite js_sort_perm, standing_leaderboardData.
  - intros i j a b Hij Ha Hb.
    apply Hentry in Ha as (a' & Ha & ->). apply Hentry in Hb as (b' & Hb & ->).
    pose proof (js_sort_lookup_le cmp (λ e, - LeaderboardEntry.score e) byScore_key
                  _ i j a' b' Hij Ha Hb). simpl in *. lia.
  - intros v.
    rewrite standing_filter, Hstanding, <-standing_filter. unfold sorted.
    rewrite (js_sort_stable cmp (λ e, - LeaderboardEntry.score e) byScore_key)
      by (simpl; intros; lia).
    by rewrite standing_filter, standing_leaderboardData, standing_of_filter.
  - intros i e (e' & _ & ->)%Hentry. done.
Qed.

Example leaderboard_worked_game :
  getLeaderboard Scenario.ended "s-1"
  = [LeaderboardEntry.mk "p-a" "Ann" 100 1; LeaderboardEntry.mk "p-b" "Ann2" 75 2].
Proof. vm_compute. reflexivity. Qed.


(** ** Unique player names *)

(** The name tried after [nameCounter] has been incremented to [k]. *)
Definition candidate (playerName : string) (k : nat) : string := playerName +:+ pretty k.

Definition taken (players : list Player.t) (s : string) : Prop :=
  s ∈ Player.name <$> players.

Lemma find_name_taken players s :
  is_Some (js_find (λ p, Player.name p = s) players) ↔ taken players s.
Proof.
  unfold taken. rewrite list_elem_of_fmap. split.
  - intros [p [Hp Hs]%js_find_Some]. eauto.
  - intros (p & -> & Hp). by eapply js_find_is_Some.
Qed.

Lemma find_name_free players s :
  js_find (λ p, Player.name p = s) players = None ↔ ¬ taken players s.
Proof. rewrite <-find_name_taken, eq_None_not_Some. done. Qed.

Lemma pretty_N_go_nonempty (x : N) (s : string) : s ≠ "" → pretty_N_go x s ≠ "".
Proof.
  revert s. induction (N.lt_wf_0 x) as [x _ IH]; intros s Hs.
  destruct (decide (x = 0)%N) as [->|Hx]; [by rewrite pretty_N_go_0|].
  rewrite pretty_N_go_step by lia. apply IH; [|done].
  apply N.div_lt; lia.
Qed.

Lemma pretty_nat_nonempty (k : nat) : pretty k ≠ "".
Proof.
  unfold pretty, pretty_nat, pretty, pretty_N. case_decide; [done|].
  rewrite pretty_N_go_step by lia. by apply pretty_N_go_nonempty.
Qed.

Lemma append_empty_r (s : string) : s +:+ "" = s.
Proof.
  induction s as [|a s IH]; [done|].
  change (String a s +:+ "") with (String a (s +:+ "")). by rewrite IH.
Qed.

Lemma candidate_ne playerName k : candidate playerName k ≠ playerName.
Proof.
  unfold candidate. intros Heq.
  rewrite <-(append_empty_r playerName) in Heq at 2.
  apply (inj _) in Heq. by apply pretty_nat_nonempty in Heq.
Qed.

Global Instance candidate_inj playerName : Inj (=) (=) (candidate playerName).
Proof. intros i j Heq. unfold candidate in Heq. by apply (inj _), (inj pretty) in Heq. Qed.

(** The loop, when it exits, has found the first free name of the sequence. *)
Lemma uniqueNameLoop_Some fuel players playerName nameCounter current result :
  uniqueNameLoop fuel players playerName nameCounter current = Some result →
  (¬ taken players current ∧ result = current)
  ∨ (taken players current
     ∧ ∃ k, (nameCounter < k)%nat
            ∧ result = candidate playerName k
            ∧ ¬ taken players result
            ∧ ∀ j, (nameCounter < j < k)%nat → taken players (candidate playerName j)).
Proof.
  revert nameCounter current.
  induction fuel as [|fuel IH]; intros nameCounter current; simpl; [done|].
  destruct (js_find _ players) as [p|] eqn:Hfind.
  - intros Hloop. right. split; [apply find_name_taken; by rewrite Hfind|].
    apply IH in Hloop as [[Hfree ->]|(Htaken & k & Hk & -> & Hfree & Hbefore)].
    + exists (S nameCounter). split_and!; [lia|done|done|intros; lia].
    + exists k. split_and!; [lia|done|done|].
      intros j Hj. destruct (decide (j = S nameCounter)) as [->|]; [done|].
      apply Hbefore. lia.
  - intros [= <-]. left. split; [|done]. by apply find_name_free.
Qed.

(** The names the loop tests when it is given [fuel] tests. *)
Lemma uniqueNameLoop_None fuel players playerName nameCounter current :
  uniqueNameLoop fuel players playerName nameCounter current = None →
  ∀ i, (i < fuel)%nat →
    taken players (if decide (i = 0%nat) then current
                   else candidate playerName (nameCounter + i)).
Proof.
  revert nameCounter current.
  induction fuel as [|fuel IH]; intros nameCounter current; simpl; [intros; lia|].
  destruct (js_find _ players) as [p|] eqn:Hfind; [|done].
  intros Hloop i Hi. destruct i as [|i]; simpl.
  - apply find_name_taken. by rewrite Hfind.
  - specialize (IH _ _ Hloop i ltac:(lia)).
    destruct i as [|i]; simpl in IH.
    + by rewrite Nat.add_1_r.
    + by replace (nameCounter + S (S i))%nat with (S nameCounter + S i)%nat by lia.
Qed.

(** One test more than there are players is enough: the tested names are
    pairwise different, and the players hold at most as many names as there
    are players. *)
Lemma uniqueNameLoop_total players playerName :
  is_Some (uniqueNameLoop (S (length players)) players playerName 1 playerName).
Proof.
  destruct (uniqueNameLoop _ _ _ _ _) as [r|] eqn:Hloop; [by eexists|].
  exfalso. pose proof (uniqueNameLoop_None _ _ _ _ _ Hloop) as Htested.
  set (tested := playerName :: (candidate playerName <$> seq 2 (length players))).
  assert (NoDup tested) as Hnodup.
  { constructor.
    - intros (k & Hk & _)%list_elem_of_fmap. by destruct (candidate_ne playerName k).
    - apply (NoDup_fmap_2 _), NoDup_seq. }
  assert (∀ s, s ∈ tested → s ∈ Player.name <$> players) as Hsub.
  { intros s [->|(k & -> & Hk)%list_elem_of_fmap]%elem_of_cons.
    - apply (Htested 0%nat). lia.
    - apply elem_of_seq in Hk.
      specialize (Htested (k - 1)%nat ltac:(lia)).
      destruct (decide (k - 1 = 0)%nat); [lia|].
      by replace (1 + (k - 1))%nat with k in Htested by lia. }
  pose proof (submseteq_length _ _ (NoDup_submseteq _ _ Hnodup Hsub)) as Hlen.
  subst tested. simpl in Hlen. rewrite !length_fmap, length_seq in Hlen. lia.
Qed.

Lemma uniquePlayerName_spec players playerName :
  let effective := uniquePlayerName players playerName in
  ¬ taken players effective
  ∧ (¬ taken players playerName → effective = playerName)
  ∧ (taken players playerName →
     ∃ k, (2 ≤ k)%nat
          ∧ effective = playerName +:+ pretty k
          ∧ ∀ j, (2 ≤ j < k)%nat → taken players (playerName +:+ pretty j)).
Proof.
  intros effective. subst effective. unfold uniquePlayerName.
  destruct (uniqueNameLoop_total players playerName) as [r Hloop]. rewrite Hloop. simpl.
  apply uniqueNameLoop_Some in Hloop as [[Hfree ->]|(Htaken & k & Hk & -> & Hfree & Hbefore)].
  - split_and!; [done|done|]. intros; done.
  - split_and!; [done|intros; done|]. intros _.
    exists k. split_and!; [lia|done|]. intros j Hj. apply Hbefore. lia.
Qed.

Lemma joinSession_waiting db uuid now joinCode playerName sessionId session :
  dynamoService.getSessionByJoinCode db joinCode = Some sessionId →
  sessionId ≠ "" →
  dynamoService.getSession db sessionId = Some session →
  GameSession.status session = waiting →
  let players := dynamoService.getSessionPlayers db sessionId in
  let player :=
    Player.mk uuid (uniquePlayerName players playerName) sessionId 0 [] true now in
  joinSession db uuid now joinCode playerName
  = (dynamoService.savePlayer db sessionId player,
     Some (with_players (players ++ [player]) session, player)).
Proof.
  intros Hcode Hne Hs Hwaiting players player.
  unfold joinSession, joinSession_try. rewrite Hcode.
  destruct sessionId as [|a sessionId]; [done|]. simpl.
  rewrite Hs. simpl. rewrite Hwaiting. done.
Qed.

(** C8. A join through a code that leads to a waiting session succeeds, and
    the name of the new player is held by no player already in the session.
    It is the requested name when that is free. When the requested name is
    taken, it is the requested name followed by the decimal numeral of the
    least [k >= 2] for which that string is free: every string of the
    sequence name2, name3, ... before it is held by a player. The reply of the
    [player_join] handler to the caller carries [nameChanged], with the
    requested and the final name, exactly when the two differ, which is the
    case whenever the requested name was taken. *)
Theorem C8_name_collision db uuid now joinCode playerName sessionId session :
  dynamoService.getSessionByJoinCode db joinCode = Some sessionId →
  sessionId ≠ "" →
  dynamoService.getSession db sessionId = Some session →
  GameSession.status session = waiting →
  let existing := Player.name <$> dynamoService.getSessionPlayers db sessionId in
  ∃ db' session' player nameChanged,
    joinSession db uuid now joinCode playerName = (db', Some (session', player))
    ∧ Player.score player = 0
    ∧ Player.answers player = []
    ∧ (Player.name player ∉ existing)
    ∧ (playerName ∉ existing → Player.name player = playerName)
    ∧ (playerName ∈ existing →
       ∃ k, (2 ≤ k)%nat
            ∧ Player.name player = playerName +:+ pretty k
            ∧ ∀ j, (2 ≤ j < k)%nat → playerName +:+ pretty j ∈ existing)
    ∧ server.player_join db uuid now joinCode playerName
      = (db', [(server.sender, server.player_joined_success session' player nameChanged);
               (server.host (GameSession.id session'), server.player_joined player)])
    ∧ (Player.name player = playerName → nameChanged = None)
    ∧ (Player.name player ≠ playerName →
       ∃ reason,
         nameChanged = Some (server.mkNameChanged playerName (Player.name player) reason))
    ∧ (playerName ∈ existing → Player.name player ≠ playerName).
Proof.
  intros Hcode Hne Hs Hwaiting existing.
  pose proof (joinSession_waiting db uuid now joinCode playerName sessionId session
                Hcode Hne Hs Hwaiting) as Hjoin. simpl in Hjoin.
  destruct (uniquePlayerName_spec (dynamoService.getSessionPlayers db sessionId) playerName)
    as (Hfree & Hsame & Hsuffix).
  eexists _, _, _, _. split; [exact Hjoin|]. simpl.
  split; [done|]. split; [done|]. split; [exact Hfree|]. split; [exact Hsame|].
  split; [exact Hsuffix|].
  split; [unfold server.player_join; rewrite Hjoin; reflexivity|]. simpl.
  split_and!.
  - intros ->. by rewrite bool_decide_false by auto.
  - intros Hdiff. rewrite bool_decide_true by done. eauto.
  - intros Htaken. destruct (Hsuffix Htaken) as (k & _ & -> & _).
    apply candidate_ne.
Qed.

(** In the worked game the first Ann has joined and a second Ann asks to. *)
Lemma C8_name_collision_witness :
  let db := run_op Scenario.created (OpJoinSession "p-a" 2000 "A1B2C3" "Ann") in
  let session :=
    GameSession.mk "s-1" "quiz-1" "host-1" "A1B2C3" waiting 0 [] 1000 None None
      (Some Scenario.quiz) in
  dynamoService.getSessionByJoinCode db "A1B2C3" = Some "s-1"
  ∧ "s-1" ≠ ""
  ∧ dynamoService.getSession db "s-1" = Some session
  ∧ GameSession.status session = waiting
  ∧ "Ann" ∈ Player.name <$> dynamoService.getSessionPlayers db "s-1"
  ∧ ∃ db' session' player,
      joinSession db "p-b" 2100 "A1B2C3" "Ann" = (db', Some (session', player))
      ∧ Player.name player ≠ "Ann"
      ∧ Player.name player = "Ann2".
Proof.
  intros db session.
  assert (dynamoService.getSessionByJoinCode db "A1B2C3" = Some "s-1") as Hcode
    by (vm_compute; reflexivity).
  assert (dynamoService.getSession db "s-1" = Some session) as Hs
    by (vm_compute; reflexivity).
  assert ("Ann" ∈ Player.name <$> dynamoService.getSessionPlayers db "s-1") as Htaken.
  { replace (Player.name <$> dynamoService.getSessionPlayers db "s-1") with ["Ann"]
      by (vm_compute; reflexivity).
    apply list_elem_of_singleton. reflexivity. }
  split; [exact Hcode|]. split; [discriminate|]. split; [exact Hs|].
  split; [reflexivity|]. split; [exact Htaken|].
  destruct (C8_name_collision db "p-b" 2100 "A1B2C3" "Ann" "s-1" session
              Hcode ltac:(discriminate) Hs eq_refl)
    as (db' & session' & player & nameChanged & Hjoin & _ & _ & _ & _ & _ & _ & _ & _ & Hdiff).
  exists db', session', player. split; [exact Hjoin|]. split; [exact (Hdiff Htaken)|].
  assert (joinSession db "p-b" 2100 "A1B2C3" "Ann"
          = (Scenario.joined,
             Some (with_players
                     [Player.mk "p-a" "Ann" "s-1" 0 [] true 2000;
                      Player.mk "p-b" "Ann2" "s-1" 0 [] true 2100] session,
                   Player.mk "p-b" "Ann2" "s-1" 0 [] true 2100))) as Hrun
    by (vm_compute; reflexivity).
  rewrite Hrun in Hjoin. injection Hjoin as _ _ <-. reflexivity.
Defined.


(** ** What each operation writes *)

Lemma map_Forall_alter_2 {A} (P : string → A → Prop) (f : A → A) (i : string)
    (m : gmap string A) :
  map_Forall P m →
  (∀ x, m !! i = Some x → P i x → P i (f x)) →
  map_Forall P (alter f i m).
Proof.
  intros Hm Hf j y. rewrite lookup_alter_Some.
  intros [(-> & x & Hx & ->)|[_ Hy]].
  - apply Hf; [done|]. by apply Hm.
  - by apply Hm.
Qed.

(** The goal of an operation that threw: nothing was written. *)
Ltac unchanged := simpl; split; [reflexivity|left; reflexivity].

Lemma createSession_effect db draws uuid now hostId quizId :
  let db' := (createSession db draws uuid now hostId quizId).1 in
  players db' = players db
  ∧ (sessions db' = sessions db
     ∨ ∃ joinCode quiz,
         sessions db'
         = <[uuid := GameSession.mk uuid quizId hostId joinCode waiting 0 [] now None None
                       (Some quiz)]> (sessions db)).
Proof.
  unfold createSession.
  destruct (createSession_try _ _ _ _ _ _) as [[db1 session]|] eqn:Htry; [|unchanged].
  unfold createSession_try in Htry.
  destruct (dynamoService.getQuiz db quizId) as [quiz|];
    [|injection Htry as <- _; unchanged].
  destruct (joinCodeLoop db draws 0 9) as [joinCode isUnique].
  apply bind_Ok in Htry as (_ & _ & Htry). injection Htry as <- _.
  simpl. split; [done|]. right. by exists joinCode, quiz.
Qed.

Lemma joinSession_effect db uuid now joinCode playerName :
  let db' := (joinSession db uuid now joinCode playerName).1 in
  sessions db' = sessions db
  ∧ (players db' = players db
     ∨ ∃ sessionId name,
         players db'
         = <[sessionId := put_player (Player.mk uuid name sessionId 0 [] true now)
                            (dynamoService.getSessionPlayers db sessionId)]> (players db)).
Proof.
  unfold joinSession.
  destruct (joinSession_try _ _ _ _ _) as [[db1 r]|] eqn:Htry; [|unchanged].
  unfold joinSession_try in Htry. try_inv Htry. injection Htry as <- _.
  simpl. split; [done|]. right. by eexists _, _.
Qed.

Lemma startGame_effect db now sessionId hostId :
  let db' := (startGame db now sessionId hostId).1 in
  players db' = players db
  ∧ (sessions db' = sessions db
     ∨ sessions db' = alter (set_active now) sessionId (sessions db)).
Proof.
  unfold startGame.
  destruct (startGame_try _ _ _ _) as [db1|] eqn:Htry; [|unchanged].
  unfold startGame_try in Htry. try_inv Htry. injection Htry as <-.
  simpl. by auto.
Qed.

Lemma finishGame_effect db clock sessionId :
  let db' := (finishGame db clock sessionId).1 in
  players db' = players db
  ∧ (sessions db' = sessions db
     ∨ sessions db' = alter (set_finished (finishedAtNow clock)) sessionId (sessions db)).
Proof.
  unfold finishGame.
  destruct (dynamoService.getSession db sessionId) as [session|]; [|unchanged].
  simpl. rewrite saveGameResult_players, saveGameResult_sessions. by auto.
Qed.

Lemma nextQuestion_effect db clock sessionId hostId :
  let db' := (nextQuestion db clock sessionId hostId).1 in
  players db' = players db
  ∧ (sessions db' = sessions db
     ∨ sessions db' = alter (set_finished (finishedAtNow clock)) sessionId (sessions db)
     ∨ ∃ session quiz question,
         sessions db !! sessionId = Some session
         ∧ GameSession.quiz session = Some quiz
         ∧ Quiz.questions quiz !! GameSession.currentQuestionIndex session = Some question
         ∧ sessions db'
           = alter (set_currentQuestionIndex (GameSession.currentQuestionIndex session + 1))
               sessionId (sessions db)).
Proof.
  unfold nextQuestion.
  destruct (nextQuestion_try _ _ _ _) as [[db1 r]|] eqn:Htry; [|unchanged].
  unfold nextQuestion_try in Htry. try_inv Htry.
  rename a into session, a2 into quiz.
  destruct (Quiz.questions quiz !! _) as [question|] eqn:Hquestion;
    injection Htry as <- _; simpl.
  - split; [done|]. right. right. by exists session, quiz, question.
  - destruct (finishGame_effect db clock sessionId) as [Hp [Hsame|Hfin]]; by auto.
Qed.

Lemma submitAnswer_effect db clock sessionId playerId questionId selectedChoice timeToAnswer :
  let db' :=
    (submitAnswer db clock sessionId playerId questionId selectedChoice timeToAnswer).1 in
  sessions db' = sessions db
  ∧ (players db' = players db
     ∨ ∃ player answer,
         js_find (λ p, Player.id p = playerId) (dynamoService.getSessionPlayers db sessionId)
         = Some player
         ∧ js_find (λ a, PlayerAnswer.questionId a = questionId) (Player.answers player)
           = None
         ∧ players db'
           = alter (update_player playerId
                      (set_score_answers (Player.score player + PlayerAnswer.points answer)
                         (Player.answers player ++ [answer])))
               sessionId (players db)
         ∧ PlayerAnswer.questionId answer = questionId).
Proof.
  unfold submitAnswer.
  destruct (submitAnswer_try _ _ _ _ _ _ _) as [[db1 result]|] eqn:Htry; [|unchanged].
  apply submitAnswer_try_Ok in Htry
    as (session & quiz & question & player & _ & _ & _ & _ & Hp & Hnone & _ & -> & _).
  split; [done|]. right.
  match goal with |- context [Player.answers player ++ [?a]] => exists player, a end.
  split; [done|]. split; [done|]. split; [reflexivity|done].
Qed.

Lemma removePlayer_effect db sessionId playerId :
  let db' := (removePlayer db sessionId playerId).1 in
  sessions db' = sessions db
  ∧ players db' = alter (delete_player playerId) sessionId (players db).
Proof. done. Qed.


(** ** Invariants of the store *)

(** The score of a player is the sum of the points of the answers, and no
    question is answered twice. *)
Definition player_ok (p : Player.t) : Prop :=
  Player.score p = Zsum (PlayerAnswer.points <$> Player.answers p)
  ∧ NoDup (PlayerAnswer.questionId <$> Player.answers p).

Definition players_ok (db : DB) : Prop :=
  map_Forall (λ _ l, Forall player_ok l) (players db).

(** The question index of a session does not exceed the number of questions
    of its quiz. *)
Definition index_ok (s : GameSession.t) : Prop :=
  ∀ quiz, GameSession.quiz s = Some quiz →
    (GameSession.currentQuestionIndex s ≤ length (Quiz.questions quiz))%nat.

Definition sessions_ok (db : DB) : Prop :=
  map_Forall (λ _ s, index_ok s) (sessions db).

Lemma players_ok_players db sessionId :
  players_ok db → Forall player_ok (dynamoService.getSessionPlayers db sessionId).
Proof.
  intros Hok. unfold dynamoService.getSessionPlayers.
  destruct (players db !! sessionId) as [l|] eqn:E; simpl; [|constructor].
  by eapply (map_Forall_lookup_1 _ _ _ _ Hok).
Qed.

Lemma player_ok_add_answer player answer (q : Player.t) :
  player_ok player →
  js_find (λ a, PlayerAnswer.questionId a = PlayerAnswer.questionId answer)
    (Player.answers player) = None →
  player_ok (set_score_answers (Player.score player + PlayerAnswer.points answer)
               (Player.answers player ++ [answer]) q).
Proof.
  intros [Hscore Hnodup] Hnone. split; simpl.
  - rewrite fmap_app, Zsum_app, Hscore. unfold Zsum. simpl. lia.
  - rewrite fmap_app. apply NoDup_app. split; [done|]. split; [|apply NoDup_singleton].
    intros qid (a & Hqa & Ha)%list_elem_of_fmap Hlast.
    change (PlayerAnswer.questionId <$> [answer]) with [PlayerAnswer.questionId answer]
      in Hlast.
    apply list_elem_of_singleton in Hlast.
    apply js_find_None in Hnone. rewrite Forall_forall in Hnone.
    apply (Hnone a Ha). congruence.
Qed.

Lemma wf_db_run_op db op : wf_db db → wf_db (run_op db op).
Proof.
  intros Hwf. unfold wf_db in *. destruct op; simpl.
  - by destruct (createSession_effect db draws uuid now hostId quizId) as [-> _].
  - destruct (joinSession_effect db uuid now joinCode playerName)
      as [_ [->|(sessionId & name & ->)]]; [done|].
    apply map_Forall_insert_2; [|done].
    apply put_player_keys_sorted, wf_db_players, Hwf.
  - by destruct (startGame_effect db now sessionId hostId) as [-> _].
  - by destruct (nextQuestion_effect db clock sessionId hostId) as [-> _].
  - destruct (submitAnswer_effect db clock sessionId playerId questionId selectedChoice
                timeToAnswer) as [_ [->|(player & answer & _ & _ & -> & _)]]; [done|].
    apply map_Forall_alter_2; [done|]. intros l _ Hl.
    unfold keys_sorted. by rewrite update_player_ids.
  - by destruct (finishGame_effect db clock sessionId) as [-> _].
  - apply map_Forall_alter_2; [done|]. intros l _ Hl.
    by apply delete_player_keys_sorted.
Qed.

Lemma players_ok_run_op db op : players_ok db → players_ok (run_op db op).
Proof.
  intros Hok. unfold players_ok in *. destruct op; simpl.
  - by destruct (createSession_effect db draws uuid now hostId quizId) as [-> _].
  - destruct (joinSession_effect db uuid now joinCode playerName)
      as [_ [->|(sessionId & name & ->)]]; [done|].
    apply map_Forall_insert_2; [|done].
    apply Forall_put_player; [|by apply players_ok_players].
    split; [done|constructor].
  - by destruct (startGame_effect db now sessionId hostId) as [-> _].
  - by destruct (nextQuestion_effect db clock sessionId hostId) as [-> _].
  - destruct (submitAnswer_effect db clock sessionId playerId questionId selectedChoice
                timeToAnswer)
      as [_ [->|(player & answer & Hplayer & Hnone & -> & <-)]]; [done|].
    apply map_Forall_alter_2; [done|]. intros l _ Hl.
    apply Forall_update_player; [|done]. intros q _ _ _.
    apply player_ok_add_answer; [|done].
    apply js_find_Some in Hplayer as [Hin _].
    pose proof (players_ok_players db sessionId Hok) as Hall.
    rewrite Forall_forall in Hall. by apply Hall.
  - by destruct (finishGame_effect db clock sessionId) as [-> _].
  - apply map_Forall_alter_2; [done|]. intros l _ Hl.
    by apply Forall_delete_player.
Qed.

Lemma sessions_ok_run_op db op : sessions_ok db → sessions_ok (run_op db op).
Proof.
  intros Hok. unfold sessions_ok in *. destruct op; simpl.
  - destruct (createSession_effect db draws uuid now hostId quizId)
      as [_ [->|(joinCode & quiz & ->)]]; [done|].
    apply map_Forall_insert_2; [|done]. intros quiz' _. simpl. lia.
  - by destruct (joinSession_effect db uuid now joinCode playerName) as [-> _].
  - destruct (startGame_effect db now sessionId hostId) as [_ [->| ->]]; [done|].
    apply map_Forall_alter_2; [done|]. by intros s _ Hs.
  - destruct (nextQuestion_effect db clock sessionId hostId)
      as [_ [->|[->|(session & quiz & question & Hs & Hquiz & Hq & ->)]]]; [done| |].
    + apply map_Forall_alter_2; [done|]. by intros s _ Hs.
    + apply map_Forall_alter_2; [done|]. intros s Hs' _ quiz' Hquiz'.
      simplify_eq/=. apply lookup_lt_Some in Hq. lia.
  - by destruct (submitAnswer_effect db clock sessionId playerId questionId selectedChoice
                   timeToAnswer) as [-> _].
  - destruct (finishGame_effect db clock sessionId) as [_ [->| ->]]; [done|].
    apply map_Forall_alter_2; [done|]. by intros s _ Hs.
  - done.
Qed.

Lemma run_ops_invariant (I : DB → Prop) db ops :
  (∀ db op, I db → I (run_op db op)) → I db → I (run_ops db ops).
Proof.
  intros Hstep. unfold run_ops. revert db.
  induction ops as [|op ops IH]; intros db Hdb; simpl; [done|].
  by apply IH, Hstep.
Qed.

Lemma wf_db_reachable loaded quizzes ops : wf_db (run_ops (initialDB loaded quizzes) ops).
Proof. apply run_ops_invariant; [apply wf_db_run_op|apply map_Forall_empty]. Qed.

Lemma initialDB_ok loaded quizzes :
  wf_db (initialDB loaded quizzes)
  ∧ players_ok (initialDB loaded quizzes)
  ∧ sessions_ok (initialDB loaded quizzes).
Proof. split_and!; apply map_Forall_empty. Qed.

Lemma players_ok_elem db :
  players_ok db
  ↔ ∀ sessionId p, p ∈ dynamoService.getSessionPlayers db sessionId → player_ok p.
Proof.
  split.
  - intros Hok sessionId p Hp.
    pose proof (players_ok_players db sessionId Hok) as Hall.
    rewrite Forall_forall in Hall. by apply Hall.
  - intros Hall sessionId l Hl. apply Forall_forall. intros p Hp.
    apply (Hall sessionId). unfold dynamoService.getSessionPlayers. by rewrite Hl.
Qed.

Lemma getSessionPlayers_savePlayer db sessionId player :
  dynamoService.getSessionPlayers (dynamoService.savePlayer db sessionId player) sessionId
  = put_player player (dynamoService.getSessionPlayers db sessionId).
Proof.
  unfold dynamoService.getSessionPlayers at 1.
  unfold dynamoService.savePlayer, set_players. cbn [players].
  by rewrite lookup_insert_eq.
Qed.

(** ** Scores and answers of a player *)

(** C4. In every store reached from a store without sessions by any sequence
    of calls of the service (joins, submissions accepted or rejected, and
    every other operation), each player's score is the sum of the points of
    the player's answers and no two of these answers have the same question
    id; the same holds after any sequence of calls from any store in which it
    holds. A player returned by [joinSession] has score 0 and no answers, and
    is stored as such. *)
Theorem C4_score_is_sum_of_points :
  (∀ loaded quizzes ops sessionId player,
     player ∈ dynamoService.getSessionPlayers (run_ops (initialDB loaded quizzes) ops)
                sessionId →
     Player.score player = Zsum (PlayerAnswer.points <$> Player.answers player)
     ∧ NoDup (PlayerAnswer.questionId <$> Player.answers player))
  ∧ (∀ db ops,
       (∀ sessionId p, p ∈ dynamoService.getSessionPlayers db sessionId → player_ok p) →
       ∀ sessionId p,
         p ∈ dynamoService.getSessionPlayers (run_ops db ops) sessionId → player_ok p)
  ∧ (∀ db uuid now joinCode playerName db' session player,
       joinSession db uuid now joinCode playerName = (db', Some (session, player)) →
       Player.score player = 0
       ∧ Player.answers player = []
       ∧ player ∈ dynamoService.getSessionPlayers db' (Player.sessionId player)).
Proof.
  split_and!.
  - intros loaded quizzes ops sessionId player Hin.
    assert (players_ok (run_ops (initialDB loaded quizzes) ops)) as Hok.
    { apply run_ops_invariant; [apply players_ok_run_op|apply initialDB_ok]. }
    by apply (proj1 (players_ok_elem _) Hok sessionId).
  - intros db ops Hdb. apply players_ok_elem.
    apply run_ops_invariant; [apply players_ok_run_op|]. by apply players_ok_elem.
  - intros db uuid now joinCode playerName db' session player Hjoin.
    unfold joinSession in Hjoin.
    destruct (joinSession_try _ _ _ _ _) as [[db1 r]|] eqn:Htry; [|done].
    injection Hjoin as -> ->.
    unfold joinSession_try in Htry. try_inv Htry. injection Htry as <- _ <-.
    split; [done|]. split; [done|]. cbn [Player.sessionId].
    rewrite getSessionPlayers_savePlayer. apply elem_of_put_player.
Qed.

(** The second Ann of the worked game, after both answers. *)
Lemma C4_score_is_sum_of_points_witness :
  let player :=
    Player.mk "p-b" "Ann2" "s-1" 75
      [PlayerAnswer.mk "q1" 1 1800 true 75 (Some 6001)] true 2100 in
  player ∈ dynamoService.getSessionPlayers
             (run_ops (initialDB (0, 0) {[ "quiz-1" := Scenario.quiz ]}) Scenario.game) "s-1"
  ∧ Player.score player = Zsum (PlayerAnswer.points <$> Player.answers player)
  ∧ NoDup (PlayerAnswer.questionId <$> Player.answers player).
Proof.
  intros player.
  assert (player ∈ dynamoService.getSessionPlayers
            (run_ops (initialDB (0, 0) {[ "quiz-1" := Scenario.quiz ]}) Scenario.game)
            "s-1") as Hin.
  { apply list_elem_of_lookup. exists 1%nat. vm_compute. reflexivity. }
  split; [exact Hin|].
  exact (proj1 C4_score_is_sum_of_points (0, 0) {[ "quiz-1" := Scenario.quiz ]}
           Scenario.game "s-1" player Hin).
Defined.


(** ** The question index *)

Lemma nextQuestion_by_host db clock sessionId hostId session quiz :
  dynamoService.getSession db sessionId = Some session →
  GameSession.hostId session = hostId →
  GameSession.status session = active →
  GameSession.quiz session = Some quiz →
  nextQuestion db clock sessionId hostId
  = match Quiz.questions quiz !! GameSession.currentQuestionIndex session with
    | Some question =>
        (dynamoService.updateSession db sessionId
           (set_currentQuestionIndex (GameSession.currentQuestionIndex session + 1)),
         Some question)
    | None => ((finishGame db clock sessionId).1, None)
    end.
Proof.
  intros Hs Hhost Hactive Hquiz. unfold nextQuestion, nextQuestion_try.
  rewrite Hs. unfold mbind, Res_bind, orThrow, throwIf.
  rewrite (bool_decide_false (GameSession.hostId session ≠ hostId)) by auto.
  rewrite Hactive, Hquiz.
  rewrite (bool_decide_false (active ≠ active)) by auto.
  by destruct (Quiz.questions quiz !! _).
Qed.

Lemma nextQuestion_Some db clock sessionId hostId db' question :
  nextQuestion db clock sessionId hostId = (db', Some question) →
  ∃ session quiz,
    dynamoService.getSession db sessionId = Some session
    ∧ GameSession.quiz session = Some quiz
    ∧ Quiz.questions quiz !! GameSession.currentQuestionIndex session = Some question
    ∧ db' = dynamoService.updateSession db sessionId
              (set_currentQuestionIndex (GameSession.currentQuestionIndex session + 1)).
Proof.
  unfold nextQuestion.
  destruct (nextQuestion_try _ _ _ _) as [[db1 r]|] eqn:Htry; [|done].
  intros [= -> ->]. unfold nextQuestion_try in Htry. try_inv Htry.
  rename a into session, a2 into quiz. exists session, quiz.
  destruct (Quiz.questions quiz !! _) as [q|]; [|done].
  by injection Htry as <- <-.
Qed.

(** C5. A session is created with question index 0. A call of [nextQuestion]
    never lowers the index of a session and leaves its quiz as it is. A call
    that returns a question returns the one at the index the session had
    before the call, and the index stored afterwards is that index plus 1. A
    call by the host of an active session whose index has reached the number
    of questions returns no question, finishes the game and leaves the index
    as it is. In every store reached from a store without sessions, the index
    of every session is at most the number of questions of its quiz, and any
    sequence of calls keeps it so. *)
Theorem C5_question_index :
  (∀ db draws uuid now hostId quizId db' session,
     createSession db draws uuid now hostId quizId = (db', Some session) →
     GameSession.currentQuestionIndex session = 0%nat
     ∧ dynamoService.getSession db' (GameSession.id session) = Some session)
  ∧ (∀ db clock sessionId hostId session,
       dynamoService.getSession db sessionId = Some session →
       ∃ session',
         dynamoService.getSession (nextQuestion db clock sessionId hostId).1 sessionId
         = Some session'
         ∧ (GameSession.currentQuestionIndex session
            ≤ GameSession.currentQuestionIndex session')%nat
         ∧ GameSession.quiz session' = GameSession.quiz session)
  ∧ (∀ db clock sessionId hostId db' question,
       nextQuestion db clock sessionId hostId = (db', Some question) →
       ∃ session quiz session',
         dynamoService.getSession db sessionId = Some session
         ∧ GameSession.quiz session = Some quiz
         ∧ Quiz.questions quiz !! GameSession.currentQuestionIndex session = Some question
         ∧ dynamoService.getSession db' sessionId = Some session'
         ∧ GameSession.currentQuestionIndex session'
           = (GameSession.currentQuestionIndex session + 1)%nat)
  ∧ (∀ db clock sessionId session quiz,
       dynamoService.getSession db sessionId = Some session →
       GameSession.status session = active →
       GameSession.quiz session = Some quiz →
       (length (Quiz.questions quiz) ≤ GameSession.currentQuestionIndex session)%nat →
       ∃ db' session',
         nextQuestion db clock sessionId (GameSession.hostId session) = (db', None)
         ∧ dynamoService.getSession db' sessionId = Some session'
         ∧ GameSession.status session' = finished
         ∧ GameSession.currentQuestionIndex session'
           = GameSession.currentQuestionIndex session)
  ∧ (∀ loaded quizzes ops sessionId session quiz,
       dynamoService.getSession (run_ops (initialDB loaded quizzes) ops) sessionId
       = Some session →
       GameSession.quiz session = Some quiz →
       (GameSession.currentQuestionIndex session ≤ length (Quiz.questions quiz))%nat)
  ∧ (∀ db ops, sessions_ok db → sessions_ok (run_ops db ops)).
Proof.
  split_and!.
  - intros db draws uuid now hostId quizId db' session Hcreate.
    unfold createSession in Hcreate.
    destruct (createSession_try _ _ _ _ _ _) as [[db1 s]|] eqn:Htry; [|done].
    injection Hcreate as -> ->. unfold createSession_try in Htry.
    destruct (dynamoService.getQuiz db quizId) as [quiz|]; [|done].
    destruct (joinCodeLoop db draws 0 9) as [joinCode isUnique].
    apply bind_Ok in Htry as (_ & _ & Htry). injection Htry as <- <-.
    split; [done|]. unfold dynamoService.getSession. cbn [GameSession.id].
    unfold dynamoService.setJoinCode, dynamoService.saveSession, set_joinCodes,
      set_sessions. cbn [sessions GameSession.id]. by rewrite lookup_insert_eq.
  - intros db clock sessionId hostId session Hs. unfold dynamoService.getSession in *.
    destruct (nextQuestion_effect db clock sessionId hostId)
      as [_ [->|[->|(session0 & quiz & question & Hs0 & _ & _ & ->)]]].
    + by exists session.
    + rewrite lookup_alter_eq, Hs. by eexists.
    + rewrite lookup_alter_eq, Hs. simplify_eq. eexists. split; [done|]. simpl.
      split; [lia|done].
  - intros db clock sessionId hostId db' question
      (session & quiz & Hs & Hquiz & Hq & ->)%nextQuestion_Some.
    exists session, quiz, (set_currentQuestionIndex
                             (GameSession.currentQuestionIndex session + 1) session).
    split_and!; try done.
    unfold dynamoService.getSession, dynamoService.updateSession, set_sessions in *.
    cbn [sessions]. by rewrite lookup_alter_eq, Hs.
  - intros db clock sessionId session quiz Hs Hactive Hquiz Hend.
    rewrite (nextQuestion_by_host db clock sessionId _ session quiz Hs eq_refl Hactive Hquiz).
    rewrite (lookup_ge_None_2 _ _ Hend).
    destruct (finishGame_found db clock sessionId session Hs) as [_ Hget].
    eexists _, _. split; [done|]. split; [exact Hget|]. done.
  - intros loaded quizzes ops sessionId session quiz Hs Hquiz.
    assert (sessions_ok (run_ops (initialDB loaded quizzes) ops)) as Hok.
    { apply run_ops_invariant; [apply sessions_ok_run_op|apply initialDB_ok]. }
    by apply (Hok sessionId session Hs quiz).
  - intros db ops. apply run_ops_invariant, sessions_ok_run_op.
Qed.

(** The worked game: the host asks for the first question, then for the
    next one when there is none left. *)
Lemma C5_question_index_witness :
  let before := run_ops Scenario.joined [OpStartGame 3000 "s-1" "host-1"] in
  let clock := mkFinishClock 4000 4001 in
  (∃ question session quiz session',
     nextQuestion before clock "s-1" "host-1" = (Scenario.started, Some question)
     ∧ dynamoService.getSession before "s-1" = Some session
     ∧ GameSession.quiz session = Some quiz
     ∧ Quiz.questions quiz !! GameSession.currentQuestionIndex session = Some question
     ∧ dynamoService.getSession Scenario.started "s-1" = Some session'
     ∧ GameSession.currentQuestionIndex session'
       = (GameSession.currentQuestionIndex session + 1)%nat)
  ∧ (let session :=
       GameSession.mk "s-1" "quiz-1" "host-1" "A1B2C3" active 1 [] 1000 (Some 3000) None
         (Some Scenario.quiz) in
     dynamoService.getSession Scenario.answered2 "s-1" = Some session
     ∧ ∃ db' session',
         nextQuestion Scenario.answered2 (mkFinishClock 7000 7001) "s-1" "host-1"
         = (db', None)
         ∧ dynamoService.getSession db' "s-1" = Some session'
         ∧ GameSession.status session' = finished
         ∧ GameSession.currentQuestionIndex session' = 1%nat).
Proof.
  intros before clock.
  destruct C5_question_index as (_ & _ & Hserve & Hend & _). split.
  - assert (nextQuestion before clock "s-1" "host-1"
            = (Scenario.started, Some (Question.mk "q1" "Capital of France?"
                                         ["Lyon"; "Paris"; "Nice"] 1 20 100))) as Hrun
      by (vm_compute; reflexivity).
    destruct (Hserve _ _ _ _ _ _ Hrun) as (session & quiz & session' & Hfacts).
    eexists _, session, quiz, session'. split; [exact Hrun|exact Hfacts].
  - intros session.
    assert (dynamoService.getSession Scenario.answered2 "s-1" = Some session) as Hs
      by (vm_compute; reflexivity).
    split; [exact Hs|].
    exact (Hend Scenario.answered2 (mkFinishClock 7000 7001) "s-1" session Scenario.quiz
             Hs eq_refl eq_refl (le_n 1)).
Defined.


(** ** Join codes *)

Lemma substring_take (n : nat) (l : list ascii) :
  String.substring 0 n (string_of_list_ascii l) = string_of_list_ascii (take n l).
Proof.
  revert l. induction n as [|n IH]; intros [|c l]; simpl; try done.
  by rewrite IH.
Qed.

Lemma length_string_of_list_ascii (l : list ascii) :
  String.length (string_of_list_ascii l) = length l.
Proof. induction l as [|c l IH]; simpl; [done|]. by rewrite IH. Qed.

(** The code is made of the first six digits of the draw, in upper case. *)
Lemma generateJoinCode_digits (draw : Draw) :
  generateJoinCode draw
  = string_of_list_ascii ((λ d, upper_ascii (digit36 d)) <$> take 6 draw).
Proof.
  unfold generateJoinCode, toUpperCase, js_substring, toString36.
  destruct draw as [|d draw]; [done|].
  change (String.substring (2 `min` 8) (2 `max` 8 - 2 `min` 8)
            ("0." +:+ string_of_list_ascii (digit36 <$> d :: draw)))
    with (String.substring 0 6 (string_of_list_ascii (digit36 <$> d :: draw))).
  rewrite substring_take, list_ascii_of_string_of_list_ascii.
  by rewrite <-fmap_take, <-list_fmap_compose.
Qed.

(** An upper-case letter or a decimal digit. *)
Definition upper_alnum (c : ascii) : Prop :=
  let n := nat_of_ascii c in (48 ≤ n ≤ 57)%nat ∨ (65 ≤ n ≤ 90)%nat.

Lemma digit36_upper_alnum (d : nat) : (d < 36)%nat → upper_alnum (upper_ascii (digit36 d)).
Proof.
  intros Hd. unfold upper_alnum.
  do 36 (destruct d as [|d]; [vm_compute; lia|]). lia.
Qed.

(** What does hold of every code: it has as many characters as the draw has
    base-36 digits, six at most, and they are upper-case letters and digits. *)
Lemma generateJoinCode_shape (draw : Draw) :
  Forall (λ d, (d < 36)%nat) draw →
  String.length (generateJoinCode draw) = (length draw `min` 6)%nat
  ∧ Forall upper_alnum (list_ascii_of_string (generateJoinCode draw)).
Proof.
  intros Hdraw. rewrite generateJoinCode_digits. split.
  - rewrite length_string_of_list_ascii, length_fmap, length_take. lia.
  - rewrite list_ascii_of_string_of_list_ascii. apply Forall_fmap.
    apply Forall_take. eapply Forall_impl; [exact Hdraw|].
    intros d Hd. by apply digit36_upper_alnum.
Qed.

(** C7 (the code at a failing input). [Math.random()] returns 0.5, which
    [toString(36)] prints as [0.i]: the code is the single character [I]. The
    draw 0 prints as [0] and gives the empty code. *)
Theorem C7_short_join_code :
  (draw_value [18%nat] == 1 # 2)%Q
  ∧ toString36 [18%nat] = "0.i"
  ∧ generateJoinCode [18%nat] = "I"
  ∧ String.length (generateJoinCode [18%nat]) = 1%nat
  ∧ toString36 [] = "0"
  ∧ generateJoinCode [] = ""
  ∧ String.length (generateJoinCode []) = 0%nat.
Proof. split_and!; reflexivity. Qed.


(** * Further operations of the service and of the server *)

(** ** Read operations of [GameService] *)

Module gameService.

(** [getSession]: the stored session with the current players loaded. *)
Definition getSession (db : DB) (sessionId : string) : option GameSession.t :=
  match dynamoService.getSession db sessionId with
  | Some session =>
      let players := dynamoService.getSessionPlayers db sessionId in
      Some (with_players players session)
  | None => None
  end.

Definition getSessionByJoinCode (db : DB) (joinCode : string) : option GameSession.t :=
  match truthy (dynamoService.getSessionByJoinCode db joinCode) with
  | None => None
  | Some sessionId => getSession db sessionId
  end.

Definition getSessionPlayers (db : DB) (sessionId : string) : list Player.t :=
  dynamoService.getSessionPlayers db sessionId.

(** [getSessionResults]: the saved game result when there is one, rebuilt
    into a session; the live session and leaderboard otherwise. *)
Definition getSessionResults (db : DB) (sessionId : string)
    : option (list LeaderboardEntry.t * GameSession.t) :=
  match dynamoService.getGameResult db sessionId with
  | Some savedGameResult =>
      let leaderboard :=
        (λ entry, LeaderboardEntry.mk (LeaderboardEntry.playerId entry)
                    (LeaderboardEntry.playerName entry) (LeaderboardEntry.score entry)
                    (LeaderboardEntry.rank entry))
          <$> GameResult.leaderboard savedGameResult in
      let completedAt := GameResult.completedAt savedGameResult in
      let sessionData :=
        GameSession.mk sessionId (GameResult.quizId savedGameResult)
          (GameResult.hostId savedGameResult) "FINISHED" finished
          (Z.to_nat (GameResult.totalQuestions savedGameResult))
          ((λ entry, Player.mk (LeaderboardEntry.playerId entry)
                       (LeaderboardEntry.playerName entry) sessionId
                       (LeaderboardEntry.score entry) [] false completedAt)
             <$> GameResult.leaderboard savedGameResult)
          completedAt None (Some completedAt)
          (Some (Quiz.mk (GameResult.quizId savedGameResult)
                   (GameResult.quizTitle savedGameResult) ""
                   (GameResult.hostId savedGameResult) [] completedAt completedAt)) in
      Some (leaderboard, sessionData)
  | None =>
      match dynamoService.getSession db sessionId with
      | None => None
      | Some session =>
          let players := dynamoService.getSessionPlayers db sessionId in
          let session := with_players players session in
          let leaderboard := getLeaderboard db sessionId in
          Some (leaderboard, session)
      end
  end.

End gameService.

(** ** Further message handlers ([server.ts]) *)

(** [String.prototype.includes]. *)
Definition js_includes (needle s : string) : bool :=
  bool_decide (is_Some (String.index 0 needle s)).

Module AnswerStat.
Record t := mk {
  choiceIndex : Z;
  choiceText : string;
  count : Z;
  isCorrect : bool
}.
End AnswerStat.

(** The payload of [answer_revealed]. *)
Module Revealed.
Record t := mk {
  question : Question.t;
  correctAnswer : Z;
  correctAnswerText : option string;
  answerStats : list AnswerStat.t;
  correctCount : Z;
  totalAnswers : Z;
  leaderboard : list LeaderboardEntry.t
}.
End Revealed.

Module messageHandlers.

Inductive Content :=
  | session_created (session : GameSession.t)
  | game_started (question : Question.t) (questionIndex : Z) (timeLimit : Z)
  | answer_submitted (result : SubmitResult.t)
  | player_answered (playerId playerName : string) (hasAnswered : bool)
  | answer_revealed (result : Revealed.t)
  | session_results (results : option (list LeaderboardEntry.t * GameSession.t))
  | error (message code : string) (details : option string).

Definition Sent := list (server.Recipient * Content).

(** The [catch] of [host_join]: the error code is chosen from the text of the
    error message. *)
Definition host_join_error (quizId : option string) (message : string) : Content :=
  let '(errorMessage, errorCode) :=
    if js_includes "Quiz" message && js_includes "not found" message
    then ("Quiz " +:+ default "undefined" quizId +:+ " not found", "QUIZ_NOT_FOUND")
    else if js_includes "Missing" message
    then ("Missing required parameters", "MISSING_PARAMETERS")
    else ("Failed to create session", "SESSION_CREATE_ERROR") in
  error errorMessage errorCode (Some message).

(** The body of [host_join] from its [try] on. [hostId] and [quizId] are the
    fields of [message.content], [None] when a field is missing. *)
Definition host_join_try (db : DB) (draws : nat → Draw) (uuid : string) (now : Z)
    (hostId quizId : option string) : DB * Sent :=
  match truthy hostId, truthy quizId with
  | Some hostId', Some quizId' =>
      match createSession db draws uuid now hostId' quizId' with
      | (db, Some session) => (db, [(server.sender, session_created session)])
      | (db, None) => (db, [(server.sender, host_join_error quizId "Failed to create session")])
      end
  | _, _ => (db, [(server.sender, host_join_error quizId "Missing hostId or quizId")])
  end.

(** [content] is [message.content], [None] when the message has none. The
    handler destructures it before its [try]: on a message without content
    this throws a [TypeError] out of the handler, with the message
    [typeError] that the engine words. *)
Definition host_join (db : DB) (draws : nat → Draw) (uuid : string) (now : Z)
    (typeError : string) (content : option (option string * option string))
    : Res (DB * Sent) :=
  match content with
  | None => Throw typeError
  | Some (hostId, quizId) => Ok (host_join_try db draws uuid now hostId quizId)
  end.

(** The listener [on('message')] of a connection on a parsed message of type
    [host_join]: what the handler throws is answered by the [catch] of the
    listener. *)
Definition on_message_host_join (db : DB) (draws : nat → Draw) (uuid : string) (now : Z)
    (typeError : string) (content : option (option string * option string)) : DB * Sent :=
  match host_join db draws uuid now typeError content with
  | Ok outcome => outcome
  | Throw message =>
      (db, [(server.sender,
             error "Invalid message format" "INVALID_MESSAGE_FORMAT" (Some message))])
  end.

(** [now] is the clock reading of [startGame], [clock] those of the
    [nextQuestion] that follows. *)
Definition start_game (db : DB) (now : Z) (clock : FinishClock) (isHost : bool)
    (sessionId playerId : string) : DB * Sent :=
  if negb isHost then
    (db, [(server.sender, error "Only host can start game" "UNAUTHORIZED" None)])
  else
    match startGame db now sessionId playerId with
    | (db, false) =>
        (db, [(server.sender, error "Failed to start game" "GAME_START_ERROR" None)])
    | (db, true) =>
        match nextQuestion db clock sessionId playerId with
        | (db, None) =>
            (db, [(server.sender, error "Failed to start game" "GAME_START_ERROR" None)])
        | (db, Some question) =>
            (db, [(server.everyone sessionId,
                   game_started question 1 (Question.timeLimit question))])
        end
    end.

Definition submit_answer (db : DB) (clock : SubmitClock)
    (sessionId playerId questionId : string) (selectedChoice timeToAnswer : Z)
    : DB * Sent :=
  match submitAnswer db clock sessionId playerId questionId selectedChoice timeToAnswer with
  | (db, None) =>
      (db, [(server.sender, error "Failed to submit answer" "SUBMIT_ANSWER_ERROR"
                              (Some "Failed to submit answer"))])
  | (db, Some result) =>
      (db, [(server.sender, answer_submitted result);
            (server.host sessionId, player_answered playerId "Player" true)])
  end.

(** [Math.max(0, (session.currentQuestionIndex || 1) - 1)] *)
Definition revealedIndex (currentQuestionIndex : nat) : nat :=
  0 `max` ((if bool_decide (currentQuestionIndex = 0%nat) then 1 else currentQuestionIndex) - 1).

Definition reveal_answer_try (db : DB) (sessionId : string) : Res Revealed.t :=
  session ← orThrow (gameService.getSession db sessionId) "Session not found";
  let currentQuestionIndex := revealedIndex (GameSession.currentQuestionIndex session) in
  currentQuestion ←
    orThrow (quiz ← GameSession.quiz session; Quiz.questions quiz !! currentQuestionIndex)
      "Current question not found";
  let players := gameService.getSessionPlayers db sessionId in
  let questionAnswers :=
    omap (λ player,
      js_find (λ answer, PlayerAnswer.questionId answer = Question.id currentQuestion)
        (Player.answers player)) players in
  let correctAnswers :=
    filter (λ answer, PlayerAnswer.isCorrect answer = true) questionAnswers in
  let answerStats :=
    js_mapi (λ choice index,
      AnswerStat.mk (Z.of_nat index) choice
        (Z.of_nat (length (filter (λ answer,
                      PlayerAnswer.selectedChoice answer = Z.of_nat index) questionAnswers)))
        (bool_decide (Z.of_nat index = Question.correctAnswer currentQuestion)))
      (Question.choices currentQuestion) in
  let leaderboard := getLeaderboard db sessionId in
  let correctAnswer := Question.correctAnswer currentQuestion in
  Ok (Revealed.mk currentQuestion correctAnswer
        (if 0 <=? correctAnswer
         then Question.choices currentQuestion !! Z.to_nat correctAnswer else None)
        answerStats (Z.of_nat (length correctAnswers)) (Z.of_nat (length questionAnswers))
        leaderboard).

(** The handler reads the store and writes nothing. *)
Definition reveal_answer (db : DB) (isHost : bool) (sessionId : string) : Sent :=
  if negb isHost then
    [(server.sender, error "Only host can reveal answers" "UNAUTHORIZED" None)]
  else
    match reveal_answer_try db sessionId with
    | Ok result => [(server.everyone sessionId, answer_revealed result)]
    | Throw message =>
        [(server.sender, error "Failed to reveal answer" "REVEAL_ANSWER_ERROR" (Some message))]
    end.

(** [sessionId] is [message.content.sessionId]. *)
Definition get_session_results (db : DB) (sessionId : string) : Sent :=
  [(server.sender, session_results (gameService.getSessionResults db sessionId))].

End messageHandlers.

(** ** Successive calls of [nextQuestion] by the host

    One call per clock of the list; the answers of the calls in order. *)
Fixpoint serve (db : DB) (clocks : list FinishClock) (sessionId hostId : string)
    : DB * list (option Question.t) :=
  match clocks with
  | [] => (db, [])
  | clock :: clocks =>
      let '(db, question) := nextQuestion db clock sessionId hostId in
      let '(db, questions) := serve db clocks sessionId hostId in
      (db, question :: questions)
  end.

(** ** The order of the session states *)

Definition status_rank (s : Status) : nat :=
  match s with
  | waiting => 0
  | active => 1
  | finished => 2
  end.

(** The operation does not create a session under the id [sessionId]. *)
Definition keeps_session (sessionId : string) (op : Op) : Prop :=
  match op with
  | OpCreateSession _ uuid _ _ _ => uuid ≠ sessionId
  | _ => True
  end.

(** No session is reached through the join code. *)
Definition free_code (db : DB) (joinCode : string) : Prop :=
  truthy (dynamoService.getSessionByJoinCode db joinCode) = None.


(** * Further properties *)

(** ** The range of the points *)

(** The literal [0.3] is the binary64 number nearest to three tenths. *)
Lemma double_0_3_nearest :
  ((3 # 10) - (1 # 36028797018963968) <= double_value double_0_3)%Q
  ∧ (double_value double_0_3 <= 3 # 10)%Q
  ∧ 2 ^ 55 = 36028797018963968
  ∧ 2 ^ 52 ≤ 5404319552844595 < 2 ^ 53.
Proof. split_and!; [vm_compute; discriminate|vm_compute; discriminate|reflexivity|lia|lia]. Qed.

(** The formula of the scoring block evaluated exactly, in the rationals. *)
Definition exactPoints (basePoints rank totalCorrect : Z) : Z :=
  if totalCorrect =? 1 then basePoints
  else Z.max
         (js_round (inject_Z basePoints
                    * (1 - (inject_Z (rank - 1) / inject_Z totalCorrect) * (1 # 2)))%Q)
         (js_round (inject_Z basePoints * (3 # 10))%Q).

(** [Math.round(basePoints * rankPercentage)] *)
Definition roundedPoints (basePoints rank totalCorrect : Z) : Z :=
  Math_round (double_mul (double_of_Z basePoints) (rankPercentage rank totalCorrect)).

(** The facts about the ranks 1 to [totalCorrect] for given base points,
    decided by evaluating the scoring block at each rank. *)
Definition points_row_ok (basePoints totalCorrect : Z) : bool :=
  let floor := minPoints basePoints in
  let row :=
    (λ rank, (rank, roundedPoints basePoints rank totalCorrect,
              exactPoints basePoints rank totalCorrect)) <$> seqZ 1 totalCorrect in
  (floor <=? basePoints)
  && forallb (λ entry,
       let '(rank, points, exact) := entry in
       (floor <=? points) && (points <=? basePoints)
       && implb (rank =? 1) (points =? basePoints)
       && (exact - 1 <=? points) && (points <=? exact)
       && forallb (λ later,
            let '(rank', points', _) := later in
            implb (rank <=? rank') (points' <=? points)) row) row.

Definition points_table_ok (maxPoints maxCorrect : Z) : bool :=
  forallb (λ basePoints,
    forallb (λ totalCorrect, points_row_ok basePoints totalCorrect) (seqZ 2 (maxCorrect - 1)))
    (seqZ 0 (maxPoints + 1)).

Lemma points_table_checked : points_table_ok 250 12 = true.
Proof. vm_compute. reflexivity. Qed.

Lemma forallb_elem_of {A} (f : A → bool) (l : list A) (x : A) :
  forallb f l = true → x ∈ l → f x = true.
Proof.
  intros Hall Hx. apply (proj1 (forallb_forall f l) Hall). by apply list_elem_of_In.
Qed.

Lemma points_table_row (maxPoints maxCorrect basePoints totalCorrect : Z) :
  points_table_ok maxPoints maxCorrect = true →
  0 ≤ basePoints ≤ maxPoints →
  2 ≤ totalCorrect ≤ maxCorrect →
  points_row_ok basePoints totalCorrect = true.
Proof.
  intros Htable Hb Hn. unfold points_table_ok in Htable.
  assert (basePoints ∈ seqZ 0 (maxPoints + 1)) as Hbin by (apply elem_of_seqZ; lia).
  pose proof (forallb_elem_of _ _ _ Htable Hbin) as Hrows. cbv beta in Hrows.
  apply (forallb_elem_of _ _ _ Hrows). apply elem_of_seqZ. lia.
Qed.

Lemma points_row_entry (basePoints totalCorrect rank : Z) :
  points_row_ok basePoints totalCorrect = true →
  1 ≤ rank ≤ totalCorrect →
  minPoints basePoints ≤ roundedPoints basePoints rank totalCorrect ≤ basePoints
  ∧ (rank = 1 → roundedPoints basePoints rank totalCorrect = basePoints)
  ∧ exactPoints basePoints rank totalCorrect - 1
    ≤ roundedPoints basePoints rank totalCorrect
    ≤ exactPoints basePoints rank totalCorrect
  ∧ ∀ later, rank ≤ later ≤ totalCorrect →
      roundedPoints basePoints later totalCorrect
      ≤ roundedPoints basePoints rank totalCorrect.
Proof.
  intros Hrow Hrank. unfold points_row_ok in Hrow.
  apply andb_true_iff in Hrow as [_ Hrow].
  set (row := (λ rank, (rank, roundedPoints basePoints rank totalCorrect,
                        exactPoints basePoints rank totalCorrect))
              <$> seqZ 1 totalCorrect) in Hrow.
  assert (∀ r, 1 ≤ r ≤ totalCorrect →
            (r, roundedPoints basePoints r totalCorrect,
             exactPoints basePoints r totalCorrect) ∈ row) as Hin.
  { intros r Hr. apply list_elem_of_fmap. exists r. split; [done|].
    apply elem_of_seqZ. lia. }
  pose proof (forallb_elem_of _ _ _ Hrow (Hin rank Hrank)) as Hentry.
  cbv beta iota in Hentry. rewrite !andb_true_iff in Hentry.
  destruct Hentry as (((((Hlo & Hhi) & Hfirst) & Hbelow) & Habove) & Hpairs).
  apply Z.leb_le in Hlo, Hhi, Hbelow, Habove.
  split; [lia|]. split; [|split; [lia|]].
  - intros ->. simpl in Hfirst. by apply Z.eqb_eq.
  - intros later Hlater.
    pose proof (forallb_elem_of _ _ _ Hpairs (Hin later ltac:(lia))) as Hpair.
    cbv beta iota in Hpair.
    rewrite (proj2 (Z.leb_le rank later)) in Hpair by lia.
    by apply Z.leb_le.
Qed.

(** X1. For base points from 0 to 250 and up to 12 correct answers, with a
    rank between 1 and the number of correct answers: the points lie between
    the 30 percent minimum and the base points, the first rank gets the base
    points, a later rank never gets more than an earlier one, the 30 percent
    minimum never decides, and the points are those of the formula evaluated
    exactly or one less. *)
Theorem X1_points_range (basePoints rank totalCorrect : Z) :
  0 ≤ basePoints ≤ 250 →
  1 ≤ rank ≤ totalCorrect →
  totalCorrect ≤ 12 →
  minPoints basePoints ≤ scorePoints basePoints rank totalCorrect ≤ basePoints
  ∧ scorePoints basePoints 1 totalCorrect = basePoints
  ∧ (∀ later, rank ≤ later ≤ totalCorrect →
       scorePoints basePoints later totalCorrect
       ≤ scorePoints basePoints rank totalCorrect)
  ∧ (totalCorrect ≠ 1 →
     scorePoints basePoints rank totalCorrect
     = Math_round (double_mul (double_of_Z basePoints) (rankPercentage rank totalCorrect)))
  ∧ exactPoints basePoints rank totalCorrect - 1
    ≤ scorePoints basePoints rank totalCorrect
    ≤ exactPoints basePoints rank totalCorrect.
Proof.
  intros Hb Hr Hn.
  assert (points_row_ok basePoints (Z.max totalCorrect 2) = true) as Hrow.
  { apply (points_table_row 250 12); [exact points_table_checked|lia|lia]. }
  destruct (decide (totalCorrect = 1)) as [->|Hmany].
  - assert (rank = 1) as -> by lia.
    destruct (points_row_entry basePoints 2 1 Hrow ltac:(lia)) as ([Hlo Hhi] & _).
    unfold scorePoints, exactPoints. simpl.
    split_and!; [lia|lia|done| |done|lia|lia].
    intros later Hlater. lia.
  - rewrite Z.max_l in Hrow by lia.
    assert (∀ r, 1 ≤ r ≤ totalCorrect →
              scorePoints basePoints r totalCorrect
              = roundedPoints basePoints r totalCorrect) as Hscore.
    { intros r Hr'. unfold scorePoints.
      destruct (Z.eqb_spec totalCorrect 1); [done|].
      destruct (points_row_entry basePoints totalCorrect r Hrow Hr') as ([Hlo _] & _).
      fold (roundedPoints basePoints r totalCorrect). lia. }
    destruct (points_row_entry basePoints totalCorrect rank Hrow Hr)
      as (Hrange & _ & Hexact & Hlater).
    destruct (points_row_entry basePoints totalCorrect 1 Hrow ltac:(lia))
      as (_ & Hfirst & _).
    rewrite !Hscore by lia.
    split; [lia|]. split; [by apply Hfirst|].
    split; [intros later Hl; rewrite Hscore by lia; by apply Hlater|].
    split; [done|lia].
Qed.

(** The third of five correct answers on 150 base points. *)
Lemma X1_points_range_witness :
  0 ≤ 150 ≤ 250 ∧ 1 ≤ 3 ≤ 5 ∧ 5 ≤ 12
  ∧ minPoints 150 ≤ scorePoints 150 3 5 ≤ 150
  ∧ scorePoints 150 1 5 = 150
  ∧ exactPoints 150 3 5 - 1 ≤ scorePoints 150 3 5 ≤ exactPoints 150 3 5.
Proof.
  assert (0 ≤ 150 ≤ 250) as Hb by lia.
  assert (1 ≤ 3 ≤ 5) as Hr by lia.
  assert (5 ≤ 12) as Hn by lia.
  split; [exact Hb|]. split; [exact Hr|]. split; [exact Hn|].
  destruct (X1_points_range 150 3 5 Hb Hr Hn) as (Hrange & Hfirst & _ & _ & Hexact).
  split; [exact Hrange|]. split; [exact Hfirst|exact Hexact].
Defined.


(** ** Ranks when the clock does not run backwards *)

Section js_sort_last.
Context {A : Type} (cmp : A → A → Z) (key : A → Z).
Context (cmp_key : ∀ x y, cmp x y ≤ 0 ↔ key x ≤ key y).

Lemma js_sort_insert_snoc a s x :
  key a ≤ key x → js_sort_insert cmp a (s ++ [x]) = js_sort_insert cmp a s ++ [x].
Proof using cmp_key.
  intros Hax. induction s as [|y s IH]; simpl.
  - destruct (Z.leb_spec (cmp a x) 0) as [_|Hgt]; [done|].
    pose proof (cmp_key a x). lia.
  - destruct (cmp a y <=? 0); [done|]. by rewrite IH.
Qed.

(** An element that is pushed last and has the largest key stays last. *)
Lemma js_sort_snoc l x :
  Forall (λ a, key a ≤ key x) l → js_sort cmp (l ++ [x]) = js_sort cmp l ++ [x].
Proof using cmp_key.
  induction 1 as [|a l Ha Hl IH]; simpl; [done|].
  by rewrite IH, js_sort_insert_snoc.
Qed.
End js_sort_last.

(** X2. When no recorded correct answer to the question carries a timestamp
    later than the clock reading of the current correct submission, the
    current submission is ranked last: its rank equals the number of correct
    answers, the recorded ones plus one, and its points are those of that
    rank. *)
Theorem X2_rank_is_totalCorrect db clock sessionId playerId questionId selectedChoice
    timeToAnswer db' result :
  wf_db db →
  submitAnswer db clock sessionId playerId questionId selectedChoice timeToAnswer
    = (db', Some result) →
  SubmitResult.isCorrect result = true →
  let recorded :=
    collectCorrect clock questionId (dynamoService.getSessionPlayers db sessionId) in
  Forall (λ e, RankEntry.submittedAt e ≤ currentSubmissionTime clock) recorded →
  let n := Z.of_nat (length recorded) + 1 in
  SubmitResult.rank result = Some n
  ∧ SubmitResult.totalCorrect result = Some n
  ∧ ∃ session quiz question,
      dynamoService.getSession db sessionId = Some session
      ∧ GameSession.quiz session = Some quiz
      ∧ js_find (λ q, Question.id q = questionId) (Quiz.questions quiz) = Some question
      ∧ SubmitResult.points result = scorePoints (Question.points question) n n.
Proof.
  intros Hwf Hsubmit Hcorrect recorded Hclock n.
  unfold submitAnswer in Hsubmit.
  destruct (submitAnswer_try _ _ _ _ _ _ _) as [[db1 result1]|] eqn:Htry; [|done].
  simplify_eq.
  apply submitAnswer_try_Ok in Htry
    as (session & quiz & question & player & Hs & _ & Hquiz & Hq & Hp & Hnone & _ & _ & ->).
  simpl in Hcorrect. rewrite Hcorrect. simpl.
  destruct (js_find_Some _ _ _ Hp) as [_ <-].
  pose proof (collectCorrect_other clock questionId _ _ (wf_db_players db sessionId Hwf)
                Hp Hnone) as Hother.
  fold recorded in Hother.
  assert (correctAnswersForQuestion clock (dynamoService.getSessionPlayers db sessionId)
            (Player.id player) (Player.name player) questionId timeToAnswer
          = js_sort bySubmittedAt recorded
            ++ [RankEntry.mk (Player.id player) (Player.name player)
                  (currentSubmissionTime clock) timeToAnswer]) as Hordered.
  { unfold correctAnswersForQuestion.
    by apply (js_sort_snoc bySubmittedAt RankEntry.submittedAt bySubmittedAt_key). }
  assert (js_findIndex (λ a, RankEntry.playerId a = Player.id player)
            (correctAnswersForQuestion clock (dynamoService.getSessionPlayers db sessionId)
               (Player.id player) (Player.name player) questionId timeToAnswer)
          = Z.of_nat (length recorded)) as Hindex.
  { rewrite Hordered. unfold js_findIndex. rewrite list_find_app_r.
    - simpl. rewrite decide_True by done. simpl. rewrite js_sort_length. lia.
    - apply list_find_None. by rewrite js_sort_perm. }
  rewrite Hindex, Hordered, length_app, js_sort_length, Nat2Z.inj_add.
  split; [done|]. split; [done|]. by exists session, quiz, question.
Qed.

Lemma X2_rank_is_totalCorrect_witness :
  let result := SubmitResult.mk true 75 "q1" (Some 2) (Some 2) in
  let recorded :=
    collectCorrect Scenario.clock2 "q1"
      (dynamoService.getSessionPlayers Scenario.answered1 "s-1") in
  wf_db Scenario.answered1
  ∧ submitAnswer Scenario.answered1 Scenario.clock2 "s-1" "p-b" "q1" 1 1800
    = (Scenario.answered2, Some result)
  ∧ SubmitResult.isCorrect result = true
  ∧ Forall (λ e, RankEntry.submittedAt e ≤ currentSubmissionTime Scenario.clock2) recorded
  ∧ SubmitResult.rank result = Some (Z.of_nat (length recorded) + 1).
Proof.
  intros result recorded.
  assert (wf_db Scenario.answered1) as Hwf
    by (apply (bool_decide_unpack _); vm_compute; exact I).
  assert (submitAnswer Scenario.answered1 Scenario.clock2 "s-1" "p-b" "q1" 1 1800
          = (Scenario.answered2, Some result)) as Hsubmit
    by (vm_compute; reflexivity).
  assert (Forall (λ e, RankEntry.submittedAt e ≤ currentSubmissionTime Scenario.clock2)
            recorded) as Hclock.
  { replace recorded with [RankEntry.mk "p-a" "Ann" 5001 800] by (vm_compute; reflexivity).
    repeat constructor. vm_compute. discriminate. }
  split; [exact Hwf|]. split; [exact Hsubmit|]. split; [reflexivity|].
  split; [exact Hclock|].
  exact (proj1 (X2_rank_is_totalCorrect _ _ _ _ _ _ _ _ _ Hwf Hsubmit eq_refl Hclock)).
Defined.


(** ** Which calls are accepted *)

Lemma truthy_Some (s : option string) (x : string) :
  truthy s = Some x ↔ s = Some x ∧ x ≠ "".
Proof.
  destruct s as [[|a s]|]; simpl; split; try done.
  - by intros [[= <-] ?].
  - by intros [= <-].
  - by intros [? _].
  - by intros [? _].
Qed.

Lemma joinSession_Some db uuid now joinCode playerName db' session' player :
  joinSession db uuid now joinCode playerName = (db', Some (session', player)) →
  ∃ sessionId session,
    truthy (dynamoService.getSessionByJoinCode db joinCode) = Some sessionId
    ∧ dynamoService.getSession db sessionId = Some session
    ∧ GameSession.status session = waiting
    ∧ player = Player.mk uuid
                 (uniquePlayerName (dynamoService.getSessionPlayers db sessionId) playerName)
                 sessionId 0 [] true now
    ∧ db' = dynamoService.savePlayer db sessionId player.
Proof.
  unfold joinSession.
  destruct (joinSession_try _ _ _ _ _) as [[db1 r]|] eqn:Htry; [|done].
  intros [= -> ->]. unfold joinSession_try in Htry. try_inv Htry.
  apply (proj1 (bool_decide_ne_false _ _)) in Hstep1.
  injection Htry as <- _ <-. by exists a, a0.
Qed.

Lemma startGame_true db now sessionId hostId db' :
  startGame db now sessionId hostId = (db', true) →
  ∃ session,
    dynamoService.getSession db sessionId = Some session
    ∧ GameSession.hostId session = hostId
    ∧ GameSession.status session = waiting
    ∧ dynamoService.getSessionPlayers db sessionId ≠ []
    ∧ db' = dynamoService.updateSession db sessionId (set_active now).
Proof.
  unfold startGame.
  destruct (startGame_try _ _ _ _) as [db1|] eqn:Htry; [|done].
  intros [= ->]. unfold startGame_try in Htry. try_inv Htry.
  apply (proj1 (bool_decide_ne_false _ _)) in Hstep0, Hstep1.
  apply bool_decide_eq_false in Hstep2.
  injection Htry as <-. exists a. split_and!; try done.
  intros Hnil. apply Hstep2. by rewrite Hnil.
Qed.

Lemma startGame_ok db now sessionId session :
  dynamoService.getSession db sessionId = Some session →
  GameSession.status session = waiting →
  dynamoService.getSessionPlayers db sessionId ≠ [] →
  startGame db now sessionId (GameSession.hostId session)
  = (dynamoService.updateSession db sessionId (set_active now), true).
Proof.
  intros Hs Hwaiting Hplayers. unfold startGame, startGame_try.
  rewrite Hs. unfold mbind, Res_bind, orThrow, throwIf.
  rewrite (bool_decide_false (GameSession.hostId session ≠ GameSession.hostId session))
    by auto.
  rewrite Hwaiting. rewrite (bool_decide_false (waiting ≠ waiting)) by auto.
  rewrite bool_decide_false; [done|].
  by destruct (dynamoService.getSessionPlayers db sessionId).
Qed.

(** X3. [startGame] returns [true] exactly when the session exists, the
    caller's id is the session's host id, the status is [waiting] and at
    least one player has joined; it then stores the session as [active] with
    the start time of the call and nothing else changes. In every other case
    it returns [false] and the store is unchanged. *)
Theorem X3_startGame_accepts db now sessionId hostId :
  let outcome := startGame db now sessionId hostId in
  (outcome.2 = true
   ↔ ∃ session,
       dynamoService.getSession db sessionId = Some session
       ∧ GameSession.hostId session = hostId
       ∧ GameSession.status session = waiting
       ∧ dynamoService.getSessionPlayers db sessionId ≠ [])
  ∧ (outcome.2 = false → outcome.1 = db)
  ∧ (∀ session,
       outcome.2 = true →
       dynamoService.getSession db sessionId = Some session →
       dynamoService.getSession outcome.1 sessionId = Some (set_active now session)
       ∧ players outcome.1 = players db
       ∧ ∀ other, other ≠ sessionId →
           dynamoService.getSession outcome.1 other = dynamoService.getSession db other).
Proof.
  intros outcome. subst outcome. split_and!.
  - split.
    + destruct (startGame db now sessionId hostId) as [db' b] eqn:Hrun. simpl.
      intros ->. apply startGame_true in Hrun as (session & ? & ? & ? & ? & _).
      by exists session.
    + intros (session & Hs & <- & Hwaiting & Hplayers).
      by rewrite (startGame_ok db now sessionId session Hs Hwaiting Hplayers).
  - unfold startGame. by destruct (startGame_try _ _ _ _).
  - intros session Htrue Hs.
    destruct (startGame db now sessionId hostId) as [db' b] eqn:Hrun. simpl in *. subst b.
    apply startGame_true in Hrun as (session0 & Hs0 & _ & _ & _ & ->).
    unfold dynamoService.getSession, dynamoService.updateSession, set_sessions in *.
    cbn [sessions players]. split_and!.
    + by rewrite lookup_alter_eq, Hs.
    + done.
    + intros other Hne. by rewrite lookup_alter_ne.
Qed.

Lemma X3_startGame_accepts_witness :
  let session :=
    GameSession.mk "s-1" "quiz-1" "host-1" "A1B2C3" waiting 0 [] 1000 None None
      (Some Scenario.quiz) in
  let outcome := startGame Scenario.joined 3000 "s-1" "host-1" in
  outcome.2 = true
  ∧ dynamoService.getSession Scenario.joined "s-1" = Some session
  ∧ dynamoService.getSession outcome.1 "s-1" = Some (set_active 3000 session).
Proof.
  intros session outcome.
  assert (outcome.2 = true) as Htrue by (vm_compute; reflexivity).
  assert (dynamoService.getSession Scenario.joined "s-1" = Some session) as Hs
    by (vm_compute; reflexivity).
  split; [exact Htrue|]. split; [exact Hs|].
  destruct (X3_startGame_accepts Scenario.joined 3000 "s-1" "host-1") as (_ & _ & Heffect).
  exact (proj1 (Heffect session Htrue Hs)).
Defined.

Lemma js_find_cons {A} (P : A → Prop) `{∀ x, Decision (P x)} (x : A) (l : list A) :
  js_find P (x :: l) = if decide (P x) then Some x else js_find P l.
Proof.
  unfold js_find. simpl. destruct (decide (P x)); [done|].
  by destruct (list_find P l) as [[i y]|].
Qed.

Lemma put_player_find p l :
  js_find (λ q, Player.id q = Player.id p) (put_player p l) = Some p.
Proof.
  induction l as [|q r IH]; simpl.
  - by rewrite js_find_cons, decide_True.
  - destruct (String_as_OT.compare_spec (Player.id p) (Player.id q)) as [Heq|Hlt|Hgt].
    + by rewrite js_find_cons, decide_True.
    + by rewrite js_find_cons, decide_True.
    + rewrite js_find_cons, decide_False; [done|].
      intros Heq. rewrite Heq in Hgt.
      by apply (StrictOrder_Irreflexive (R := String_as_OT.lt)) in Hgt.
Qed.

Lemma put_player_keeps p q l :
  q ∈ l → Player.id q ≠ Player.id p → q ∈ put_player p l.
Proof.
  intros Hq Hne. induction l as [|x r IH]; [by apply elem_of_nil in Hq|]. simpl.
  destruct (String_as_OT.compare_spec (Player.id p) (Player.id x)) as [Heq|Hlt|Hgt].
  - apply elem_of_cons in Hq as [->|Hq]; [congruence|]. by apply list_elem_of_further.
  - by apply list_elem_of_further.
  - apply elem_of_cons in Hq as [->|Hq]; [apply list_elem_of_here|].
    apply list_elem_of_further. by apply IH.
Qed.

Lemma getSessionPlayers_savePlayer_ne db sessionId other player :
  other ≠ sessionId →
  dynamoService.getSessionPlayers (dynamoService.savePlayer db sessionId player) other
  = dynamoService.getSessionPlayers db other.
Proof.
  intros Hne. unfold dynamoService.getSessionPlayers at 1.
  unfold dynamoService.savePlayer, set_players. cbn [players].
  by rewrite lookup_insert_ne.
Qed.

(** X4. [joinSession] admits a player exactly when the join code leads to a
    stored session whose status is [waiting]; otherwise it returns [null] and
    writes nothing. An admitted player is online, carries the new id, has
    joined at the time of the call and is afterwards found under that id in
    the session; the players already there under other ids stay, the players
    of other sessions and all sessions are untouched, and the session returned
    to the caller lists the previous players followed by the new one. *)
Theorem X4_joinSession_accepts db uuid now joinCode playerName :
  let outcome := joinSession db uuid now joinCode playerName in
  (is_Some outcome.2
   ↔ ∃ sessionId session,
       truthy (dynamoService.getSessionByJoinCode db joinCode) = Some sessionId
       ∧ dynamoService.getSession db sessionId = Some session
       ∧ GameSession.status session = waiting)
  ∧ (outcome.2 = None → outcome.1 = db)
  ∧ (∀ session' player,
       outcome.2 = Some (session', player) →
       let sessionId := Player.sessionId player in
       truthy (dynamoService.getSessionByJoinCode db joinCode) = Some sessionId
       ∧ Player.id player = uuid
       ∧ Player.isOnline player = true
       ∧ Player.joinedAt player = now
       ∧ js_find (λ p, Player.id p = uuid)
           (dynamoService.getSessionPlayers outcome.1 sessionId) = Some player
       ∧ (∀ q, q ∈ dynamoService.getSessionPlayers db sessionId → Player.id q ≠ uuid →
            q ∈ dynamoService.getSessionPlayers outcome.1 sessionId)
       ∧ (∀ other, other ≠ sessionId →
            dynamoService.getSessionPlayers outcome.1 other
            = dynamoService.getSessionPlayers db other)
       ∧ sessions outcome.1 = sessions db
       ∧ GameSession.players session'
         = dynamoService.getSessionPlayers db sessionId ++ [player]).
Proof.
  intros outcome. subst outcome. split_and!.
  - split.
    + destruct (joinSession db uuid now joinCode playerName) as [db' [[s' p]|]] eqn:Hrun;
        simpl; [|by intros [? ?]]. intros _.
      apply joinSession_Some in Hrun as (sessionId & session & ? & ? & ? & _).
      by exists sessionId, session.
    + intros (sessionId & session & [Hcode Hne]%truthy_Some & Hs & Hwaiting).
      by rewrite (joinSession_waiting _ _ _ _ _ _ _ Hcode Hne Hs Hwaiting).
  - unfold joinSession. by destruct (joinSession_try _ _ _ _ _) as [[db1 r]|].
  - intros session' player Hsome.
    destruct (joinSession db uuid now joinCode playerName) as [db' r] eqn:Hrun.
    simpl in Hsome. subst r.
    pose proof Hrun as Hrun'.
    apply joinSession_Some in Hrun' as (sessionId & session & Hcode & Hs & Hwaiting & Hp & ->).
    destruct (proj1 (truthy_Some _ _) Hcode) as [Hcode' Hne].
    rewrite (joinSession_waiting _ _ _ _ _ _ _ Hcode' Hne Hs Hwaiting) in Hrun.
    injection Hrun as _ <- _. subst player. cbn [fst Player.sessionId Player.id].
    split_and!; try done.
    + rewrite getSessionPlayers_savePlayer.
      apply (put_player_find (Player.mk uuid _ sessionId 0 [] true now)).
    + intros q Hq Hne'. rewrite getSessionPlayers_savePlayer. by apply put_player_keeps.
    + intros other Hother. by apply getSessionPlayers_savePlayer_ne.
Qed.

Lemma X4_joinSession_accepts_witness :
  let outcome := joinSession Scenario.created "p-a" 2000 "A1B2C3" "Ann" in
  let player := Player.mk "p-a" "Ann" "s-1" 0 [] true 2000 in
  (∃ session', outcome.2 = Some (session', player))
  ∧ js_find (λ p, Player.id p = "p-a")
      (dynamoService.getSessionPlayers outcome.1 (Player.sessionId player)) = Some player.
Proof.
  intros outcome player.
  assert (outcome.2
          = Some (with_players [player]
                    (GameSession.mk "s-1" "quiz-1" "host-1" "A1B2C3" waiting 0 [] 1000 None
                       None (Some Scenario.quiz)), player)) as Hsome
    by (vm_compute; reflexivity).
  split; [by eexists|].
  destruct (X4_joinSession_accepts Scenario.created "p-a" 2000 "A1B2C3" "Ann")
    as (_ & _ & Heffect).
  destruct (Heffect _ player Hsome) as (_ & _ & _ & _ & Hfind & _).
  exact Hfind.
Defined.

Lemma update_player_find playerId wanted f l :
  (∀ q, Player.id (f q) = Player.id q) →
  js_find (λ p, Player.id p = wanted) (update_player playerId f l)
  = (λ q, if decide (Player.id q = playerId) then f q else q)
      <$> js_find (λ p, Player.id p = wanted) l.
Proof.
  intros Hf. induction l as [|q r IH]; [done|].
  unfold update_player in *. rewrite fmap_cons, !js_find_cons, IH.
  assert (Player.id (if decide (Player.id q = playerId) then f q else q) = Player.id q)
    as -> by (by case_decide).
  by case_decide.
Qed.

Lemma getSessionPlayers_updatePlayer db sessionId playerId f :
  dynamoService.getSessionPlayers (dynamoService.updatePlayer db sessionId playerId f)
    sessionId
  = update_player playerId f (dynamoService.getSessionPlayers db sessionId).
Proof.
  unfold dynamoService.getSessionPlayers, dynamoService.updatePlayer, set_players.
  cbn [players]. rewrite lookup_alter_eq. by destruct (players db !! sessionId).
Qed.

Lemma getSessionPlayers_updatePlayer_ne db sessionId other playerId f :
  other ≠ sessionId →
  dynamoService.getSessionPlayers (dynamoService.updatePlayer db sessionId playerId f) other
  = dynamoService.getSessionPlayers db other.
Proof.
  intros Hne. unfold dynamoService.getSessionPlayers, dynamoService.updatePlayer, set_players.
  cbn [players]. by rewrite lookup_alter_ne.
Qed.

Lemma submitAnswer_accepted db clock sessionId playerId questionId selectedChoice timeToAnswer
    session quiz question player :
  dynamoService.getSession db sessionId = Some session →
  GameSession.status session = active →
  GameSession.quiz session = Some quiz →
  js_find (λ q, Question.id q = questionId) (Quiz.questions quiz) = Some question →
  js_find (λ p, Player.id p = playerId) (dynamoService.getSessionPlayers db sessionId)
    = Some player →
  js_find (λ a, PlayerAnswer.questionId a = questionId) (Player.answers player) = None →
  0 ≤ selectedChoice < Z.of_nat (length (Question.choices question)) →
  is_Some (submitAnswer db clock sessionId playerId questionId selectedChoice timeToAnswer).2.
Proof.
  intros Hs Hactive Hquiz Hq Hp Hnone Hchoice.
  unfold submitAnswer, submitAnswer_try.
  rewrite Hs. unfold mbind, Res_bind, orThrow, throwIf.
  rewrite Hactive, Hquiz, Hq, Hp, Hnone.
  rewrite (bool_decide_false (active ≠ active)) by auto.
  rewrite (bool_decide_false (is_Some None)) by (by intros [? ?]).
  assert ((selectedChoice <? 0)
          || (selectedChoice >=? Z.of_nat (length (Question.choices question))) = false)
    as ->.
  { apply orb_false_iff. split; [apply Z.ltb_ge; lia|].
    rewrite Z.geb_leb. apply Z.leb_gt. lia. }
  by destruct (selectedChoice =? Question.correctAnswer question).
Qed.

(** X5. For a choice that is an integer, [submitAnswer] accepts a submission
    exactly when the session is stored and active, the question belongs to
    its quiz, the player is in the session and has no answer to the question
    yet, and the choice is at least 0 and less than the number of the
    question's choices; otherwise it returns [null] and writes nothing. (The
    code tests the range only; whether the number is an integer it does not
    test.)
    An accepted answer is correct exactly when the choice is the question's
    correct answer; a wrong answer gets 0 points and no rank. The answer is
    appended to the answers of the player and its points are added to the
    score, every other player and every session is untouched, and any later
    submission of the player for the same question is rejected, also after a
    wrong answer. *)
Theorem X5_submitAnswer_accepts db clock sessionId playerId questionId selectedChoice
    timeToAnswer :
  let outcome :=
    submitAnswer db clock sessionId playerId questionId selectedChoice timeToAnswer in
  (is_Some outcome.2
   ↔ ∃ session quiz question player,
       dynamoService.getSession db sessionId = Some session
       ∧ GameSession.status session = active
       ∧ GameSession.quiz session = Some quiz
       ∧ js_find (λ q, Question.id q = questionId) (Quiz.questions quiz) = Some question
       ∧ js_find (λ p, Player.id p = playerId)
           (dynamoService.getSessionPlayers db sessionId) = Some player
       ∧ js_find (λ a, PlayerAnswer.questionId a = questionId) (Player.answers player)
         = None
       ∧ 0 ≤ selectedChoice < Z.of_nat (length (Question.choices question)))
  ∧ (outcome.2 = None → outcome.1 = db)
  ∧ (∀ result session quiz question player,
       outcome.2 = Some result →
       dynamoService.getSession db sessionId = Some session →
       GameSession.quiz session = Some quiz →
       js_find (λ q, Question.id q = questionId) (Quiz.questions quiz) = Some question →
       js_find (λ p, Player.id p = playerId)
         (dynamoService.getSessionPlayers db sessionId) = Some player →
       let answer :=
         PlayerAnswer.mk questionId selectedChoice timeToAnswer
           (SubmitResult.isCorrect result) (SubmitResult.points result)
           (Some (answerSubmittedAt clock)) in
       SubmitResult.isCorrect result = (selectedChoice =? Question.correctAnswer question)
       ∧ (SubmitResult.isCorrect result = false →
          SubmitResult.points result = 0
          ∧ SubmitResult.rank result = None
          ∧ SubmitResult.totalCorrect result = None)
       ∧ js_find (λ p, Player.id p = playerId)
           (dynamoService.getSessionPlayers outcome.1 sessionId)
         = Some (add_answer answer (SubmitResult.points result) player)
       ∧ (∀ other, other ≠ playerId →
            js_find (λ p, Player.id p = other)
              (dynamoService.getSessionPlayers outcome.1 sessionId)
            = js_find (λ p, Player.id p = other)
                (dynamoService.getSessionPlayers db sessionId))
       ∧ (∀ other, other ≠ sessionId →
            dynamoService.getSessionPlayers outcome.1 other
            = dynamoService.getSessionPlayers db other)
       ∧ sessions outcome.1 = sessions db
       ∧ (∀ clock' selectedChoice' timeToAnswer',
            submitAnswer outcome.1 clock' sessionId playerId questionId selectedChoice'
              timeToAnswer' = (outcome.1, None))).
Proof.
  intros outcome. subst outcome. split_and!.
  - split.
    + unfold submitAnswer.
      destruct (submitAnswer_try _ _ _ _ _ _ _) as [[db1 r]|] eqn:Htry; simpl;
        [|by intros [? ?]]. intros _.
      apply submitAnswer_try_Ok in Htry
        as (session & quiz & question & player & ? & ? & ? & ? & ? & ? & ? & _).
      by exists session, quiz, question, player.
    + intros (session & quiz & question & player & ? & ? & ? & ? & ? & ? & ?).
      by eapply submitAnswer_accepted.
  - unfold submitAnswer. by destruct (submitAnswer_try _ _ _ _ _ _ _) as [[db1 r]|].
  - intros result session quiz question player Hsome Hs Hquiz Hq Hp answer.
    unfold submitAnswer in *.
    destruct (submitAnswer_try _ _ _ _ _ _ _) as [[db1 r]|] eqn:Htry; [|done].
    simpl in Hsome. injection Hsome as ->. cbn [fst].
    apply submitAnswer_try_Ok in Htry
      as (session0 & quiz0 & question0 & player0 & Hs0 & _ & Hquiz0 & Hq0 & Hp0 & Hnone
          & _ & Hdb & Hresult).
    rewrite Hs in Hs0. injection Hs0 as <-.
    rewrite Hquiz in Hquiz0. injection Hquiz0 as <-.
    rewrite Hq in Hq0. injection Hq0 as <-.
    rewrite Hp in Hp0. injection Hp0 as <-.
    match type of Hresult with
    | _ = SubmitResult.mk _ ?pts _ _ _ => set (points := pts) in *
    end.
    subst answer db1 result.
    cbn [SubmitResult.isCorrect SubmitResult.points SubmitResult.rank
         SubmitResult.totalCorrect].
    assert (js_find (λ p, Player.id p = playerId)
              (dynamoService.getSessionPlayers
                 (dynamoService.updatePlayer db sessionId playerId
                    (set_score_answers (Player.score player + points)
                       (Player.answers player
                        ++ [PlayerAnswer.mk questionId selectedChoice timeToAnswer
                              (selectedChoice =? Question.correctAnswer question) points
                              (Some (answerSubmittedAt clock))]))) sessionId)
            = Some (add_answer
                      (PlayerAnswer.mk questionId selectedChoice timeToAnswer
                         (selectedChoice =? Question.correctAnswer question) points
                         (Some (answerSubmittedAt clock))) points player)) as Hfound.
    { rewrite getSessionPlayers_updatePlayer.
      rewrite (update_player_find playerId playerId (set_score_answers _ _) _
                 (λ _, eq_refl)), Hp. simpl.
      destruct (js_find_Some _ _ _ Hp) as [_ Hpid]. by rewrite decide_True. }
    split_and!.
    + done.
    + subst points. by destruct (selectedChoice =? Question.correctAnswer question).
    + exact Hfound.
    + intros other Hother. rewrite getSessionPlayers_updatePlayer.
      rewrite (update_player_find playerId other (set_score_answers _ _) _ (λ _, eq_refl)).
      destruct (js_find (λ p, Player.id p = other) _) as [q|] eqn:Hfind; [|done]. simpl.
      destruct (js_find_Some _ _ _ Hfind) as [_ Hq']. rewrite decide_False; congruence.
    + intros other Hother. by apply getSessionPlayers_updatePlayer_ne.
    + done.
    + intros clock' selectedChoice' timeToAnswer'.
      destruct (submitAnswer_try _ clock' sessionId playerId questionId selectedChoice'
                  timeToAnswer') as [[db2 r2]|] eqn:Htry2; [|done].
      apply submitAnswer_try_Ok in Htry2
        as (_ & _ & _ & player2 & _ & _ & _ & _ & Hp2 & Hnone2 & _).
      rewrite Hfound in Hp2. injection Hp2 as <-.
      apply js_find_None in Hnone2. simpl in Hnone2.
      rewrite Forall_app, Forall_singleton in Hnone2. destruct Hnone2 as [_ Hlast].
      exfalso. exact (Hlast eq_refl).
Qed.

(** The first Ann of the worked game gives a wrong answer, then the right one. *)
Lemma X5_submitAnswer_accepts_witness :
  let outcome := submitAnswer Scenario.started Scenario.clock1 "s-1" "p-a" "q1" 0 800 in
  let result := SubmitResult.mk false 0 "q1" None None in
  outcome.2 = Some result
  ∧ SubmitResult.points result = 0
  ∧ submitAnswer outcome.1 Scenario.clock2 "s-1" "p-a" "q1" 1 900 = (outcome.1, None).
Proof.
  intros outcome result.
  assert (outcome.2 = Some result) as Hsome by (vm_compute; reflexivity).
  split; [exact Hsome|].
  destruct (X5_submitAnswer_accepts Scenario.started Scenario.clock1 "s-1" "p-a" "q1" 0 800)
    as (_ & _ & Heffect).
  destruct (Heffect result
              (GameSession.mk "s-1" "quiz-1" "host-1" "A1B2C3" active 1 [] 1000 (Some 3000)
                 None (Some Scenario.quiz))
              Scenario.quiz
              (Question.mk "q1" "Capital of France?" ["Lyon"; "Paris"; "Nice"] 1 20 100)
              (Player.mk "p-a" "Ann" "s-1" 0 [] true 2000)
              Hsome
              ltac:(vm_compute; reflexivity) eq_refl
              ltac:(vm_compute; reflexivity) ltac:(vm_compute; reflexivity))
    as (_ & Hwrong & _ & _ & _ & _ & Hagain).
  split; [exact (proj1 (Hwrong eq_refl))|]. exact (Hagain Scenario.clock2 1 900).
Defined.


(** ** The life of a session *)

(** X6. Once a session is finished, nobody can join it through its join code,
    it cannot be started, no question is served and no answer is accepted:
    each of these calls fails and leaves the store as it is. *)
Theorem X6_finished_is_terminal db sessionId session :
  dynamoService.getSession db sessionId = Some session →
  GameSession.status session = finished →
  (∀ uuid now joinCode playerName,
     dynamoService.getSessionByJoinCode db joinCode = Some sessionId →
     joinSession db uuid now joinCode playerName = (db, None))
  ∧ (∀ now hostId, startGame db now sessionId hostId = (db, false))
  ∧ (∀ clock hostId, nextQuestion db clock sessionId hostId = (db, None))
  ∧ (∀ clock playerId questionId selectedChoice timeToAnswer,
       submitAnswer db clock sessionId playerId questionId selectedChoice timeToAnswer
       = (db, None)).
Proof.
  intros Hs Hfinished. split_and!.
  - intros uuid now joinCode playerName Hcode.
    destruct (joinSession db uuid now joinCode playerName) as [db' [[s' p]|]] eqn:Hrun.
    + apply joinSession_Some in Hrun
        as (sessionId' & session' & [Hcode' _]%truthy_Some & Hs' & Hwaiting & _).
      congruence.
    + unfold joinSession in Hrun.
      destruct (joinSession_try _ _ _ _ _) as [[db1 r]|]; by simplify_eq.
  - intros now hostId.
    destruct (startGame db now sessionId hostId) as [db' [|]] eqn:Hrun.
    + apply startGame_true in Hrun as (session' & Hs' & _ & Hwaiting & _). congruence.
    + unfold startGame in Hrun. destruct (startGame_try _ _ _ _); by simplify_eq.
  - intros clock hostId. unfold nextQuestion, nextQuestion_try.
    rewrite Hs. unfold mbind, Res_bind, orThrow, throwIf.
    destruct (bool_decide (GameSession.hostId session ≠ hostId)); [done|].
    rewrite Hfinished. by rewrite (bool_decide_true (finished ≠ active)).
  - intros clock playerId questionId selectedChoice timeToAnswer.
    unfold submitAnswer.
    destruct (submitAnswer_try _ _ _ _ _ _ _) as [[db1 r]|] eqn:Htry; [|done].
    apply submitAnswer_try_Ok in Htry as (session' & ? & ? & ? & Hs' & Hactive & _).
    congruence.
Qed.

Lemma X6_finished_is_terminal_witness :
  let session :=
    GameSession.mk "s-1" "quiz-1" "host-1" "A1B2C3" finished 1 [] 1000 (Some 3000)
      (Some 9000) (Some Scenario.quiz) in
  dynamoService.getSession Scenario.ended "s-1" = Some session
  ∧ GameSession.status session = finished
  ∧ dynamoService.getSessionByJoinCode Scenario.ended "A1B2C3" = Some "s-1"
  ∧ joinSession Scenario.ended "p-c" 9900 "A1B2C3" "Bob" = (Scenario.ended, None)
  ∧ nextQuestion Scenario.ended (mkFinishClock 9900 9901) "s-1" "host-1"
    = (Scenario.ended, None).
Proof.
  intros session.
  assert (dynamoService.getSession Scenario.ended "s-1" = Some session) as Hs
    by (vm_compute; reflexivity).
  assert (dynamoService.getSessionByJoinCode Scenario.ended "A1B2C3" = Some "s-1") as Hcode
    by (vm_compute; reflexivity).
  destruct (X6_finished_is_terminal Scenario.ended "s-1" session Hs eq_refl)
    as (Hjoin & _ & Hnext & _).
  split; [exact Hs|]. split; [reflexivity|]. split; [exact Hcode|].
  split; [exact (Hjoin "p-c" 9900 "A1B2C3" "Bob" Hcode)|].
  exact (Hnext (mkFinishClock 9900 9901) "host-1").
Defined.

(** The fields of a session that no operation changes. *)
Definition session_core (s : GameSession.t)
    : string * string * string * string * Z * option Quiz.t :=
  (GameSession.id s, GameSession.quizId s, GameSession.hostId s, GameSession.joinCode s,
   GameSession.createdAt s, GameSession.quiz s).

(** The later session continues the earlier one. *)
Definition session_continues (s s' : GameSession.t) : Prop :=
  (status_rank (GameSession.status s) ≤ status_rank (GameSession.status s'))%nat
  ∧ (GameSession.currentQuestionIndex s ≤ GameSession.currentQuestionIndex s')%nat
  ∧ session_core s' = session_core s.

Lemma session_continues_refl s : session_continues s s.
Proof. by split_and!. Qed.

Lemma session_continues_trans s1 s2 s3 :
  session_continues s1 s2 → session_continues s2 s3 → session_continues s1 s3.
Proof.
  intros (? & ? & ?) (? & ? & ?). split_and!; [lia|lia|congruence].
Qed.

Lemma run_op_session db op sessionId session :
  keeps_session sessionId op →
  sessions db !! sessionId = Some session →
  ∃ session',
    sessions (run_op db op) !! sessionId = Some session'
    ∧ session_continues session session'.
Proof.
  intros Hkeeps Hs.
  assert (∀ f, session_continues session (f session) →
            ∀ other, ∃ session',
              alter f other (sessions db) !! sessionId = Some session'
              ∧ session_continues session session') as Halter.
  { intros f Hf other. destruct (decide (other = sessionId)) as [->|Hne].
    - rewrite lookup_alter_eq, Hs. by eexists.
    - rewrite lookup_alter_ne, Hs by done. eauto using session_continues_refl. }
  destruct op; simpl in *.
  - destruct (createSession_effect db draws uuid now hostId quizId)
      as [_ [->|(joinCode & quiz & ->)]].
    + eauto using session_continues_refl.
    + rewrite lookup_insert_ne by done. eauto using session_continues_refl.
  - destruct (joinSession_effect db uuid now joinCode playerName) as [-> _].
    eauto using session_continues_refl.
  - destruct (startGame db now sessionId0 hostId) as [db' [|]] eqn:Hrun; simpl.
    + apply startGame_true in Hrun as (session0 & Hs0 & _ & Hwaiting & _ & ->).
      unfold dynamoService.updateSession, set_sessions. cbn [sessions].
      destruct (decide (sessionId0 = sessionId)) as [->|Hne].
      * rewrite lookup_alter_eq, Hs. eexists. split; [done|].
        unfold dynamoService.getSession in Hs0. simplify_eq.
        split_and!; simpl; [rewrite Hwaiting; simpl; lia|lia|done].
      * rewrite lookup_alter_ne, Hs by done. eauto using session_continues_refl.
    + unfold startGame in Hrun. destruct (startGame_try _ _ _ _); simplify_eq.
      eauto using session_continues_refl.
  - destruct (nextQuestion_effect db clock sessionId0 hostId)
      as [_ [->|[->|(session0 & quiz & question & Hs0 & _ & _ & ->)]]].
    + eauto using session_continues_refl.
    + apply Halter. split_and!; simpl; [destruct (GameSession.status session); simpl; lia|lia|done].
    + destruct (decide (sessionId0 = sessionId)) as [->|Hne].
      * rewrite lookup_alter_eq, Hs. eexists. split; [done|]. simplify_eq.
        split_and!; simpl; [lia|lia|done].
      * rewrite lookup_alter_ne, Hs by done. eauto using session_continues_refl.
  - destruct (submitAnswer_effect db clock sessionId0 playerId questionId selectedChoice
                timeToAnswer) as [-> _].
    eauto using session_continues_refl.
  - destruct (finishGame_effect db clock sessionId0) as [_ [->| ->]].
    + eauto using session_continues_refl.
    + apply Halter. split_and!; simpl; [destruct (GameSession.status session); simpl; lia|lia|done].
  - eauto using session_continues_refl.
Qed.

(** X7. A stored session is never deleted, and as long as no session is
    created again under its id, no sequence of calls moves its status
    backwards in the order waiting, active, finished, lowers its question
    index, or changes its id, quiz id, host id, join code, creation time or
    quiz. *)
Theorem X7_session_only_moves_forward db ops sessionId session :
  Forall (keeps_session sessionId) ops →
  dynamoService.getSession db sessionId = Some session →
  ∃ session',
    dynamoService.getSession (run_ops db ops) sessionId = Some session'
    ∧ (status_rank (GameSession.status session)
       ≤ status_rank (GameSession.status session'))%nat
    ∧ (GameSession.currentQuestionIndex session
       ≤ GameSession.currentQuestionIndex session')%nat
    ∧ session_core session' = session_core session.
Proof.
  unfold dynamoService.getSession, run_ops. intros Hops. revert db session.
  induction Hops as [|op ops Hop Hops IH]; intros db session Hs; simpl.
  - exists session. by split_and!.
  - destruct (run_op_session db op sessionId session Hop Hs) as (session1 & Hs1 & Hc1).
    destruct (IH _ _ Hs1) as (session2 & Hs2 & Hc2).
    exists session2. split; [done|].
    by apply (session_continues_trans session session1 session2).
Qed.

Lemma X7_session_only_moves_forward_witness :
  let session :=
    GameSession.mk "s-1" "quiz-1" "host-1" "A1B2C3" waiting 0 [] 1000 None None
      (Some Scenario.quiz) in
  let ops :=
    [OpStartGame 3000 "s-1" "host-1";
     OpNextQuestion (mkFinishClock 4000 4001) "s-1" "host-1";
     OpFinishGame (mkFinishClock 9000 9001) "s-1"] in
  Forall (keeps_session "s-1") ops
  ∧ dynamoService.getSession Scenario.joined "s-1" = Some session
  ∧ ∃ session',
      dynamoService.getSession (run_ops Scenario.joined ops) "s-1" = Some session'
      ∧ (status_rank (GameSession.status session)
         ≤ status_rank (GameSession.status session'))%nat
      ∧ (GameSession.currentQuestionIndex session
         ≤ GameSession.currentQuestionIndex session')%nat
      ∧ session_core session' = session_core session.
Proof.
  intros session ops.
  assert (Forall (keeps_session "s-1") ops) as Hops by (repeat constructor).
  assert (dynamoService.getSession Scenario.joined "s-1" = Some session) as Hs
    by (vm_compute; reflexivity).
  split; [exact Hops|]. split; [exact Hs|].
  exact (X7_session_only_moves_forward Scenario.joined ops "s-1" session Hops Hs).
Defined.

Lemma set_currentQuestionIndex_same s :
  set_currentQuestionIndex (GameSession.currentQuestionIndex s) s = s.
Proof. by destruct s. Qed.

Lemma serve_spec clocks : ∀ db sessionId session quiz,
  dynamoService.getSession db sessionId = Some session →
  GameSession.status session = active →
  GameSession.quiz session = Some quiz →
  (GameSession.currentQuestionIndex session + length clocks
   ≤ length (Quiz.questions quiz))%nat →
  let outcome := serve db clocks sessionId (GameSession.hostId session) in
  outcome.2
  = Some <$> take (length clocks)
               (drop (GameSession.currentQuestionIndex session) (Quiz.questions quiz))
  ∧ dynamoService.getSession outcome.1 sessionId
    = Some (set_currentQuestionIndex
              (GameSession.currentQuestionIndex session + length clocks) session)
  ∧ players outcome.1 = players db
  ∧ savedResults outcome.1 = savedResults db.
Proof.
  induction clocks as [|clock clocks IH]; intros db sessionId session quiz Hs Hactive Hquiz Hlen.
  - simpl. rewrite Nat.add_0_r, set_currentQuestionIndex_same. by split_and!.
  - simpl in Hlen. cbn [serve].
    destruct (lookup_lt_is_Some_2 (Quiz.questions quiz)
                (GameSession.currentQuestionIndex session)) as [question Hquestion]; [lia|].
    rewrite (nextQuestion_by_host db clock sessionId _ session quiz Hs eq_refl Hactive Hquiz).
    rewrite Hquestion.
    set (next := set_currentQuestionIndex (GameSession.currentQuestionIndex session + 1) session).
    set (db1 := dynamoService.updateSession db sessionId _).
    assert (dynamoService.getSession db1 sessionId = Some next) as Hs1.
    { unfold dynamoService.getSession in *. subst db1. simpl.
      by rewrite lookup_alter_eq, Hs. }
    destruct (IH db1 sessionId next quiz Hs1 Hactive Hquiz) as (Hserved & Hsession & Hplayers & Hsaved).
    { subst next. simpl. lia. }
    change (GameSession.hostId next) with (GameSession.hostId session) in *.
    destruct (serve db1 clocks sessionId (GameSession.hostId session)) as [db2 served].
    simpl in *. split_and!.
    + rewrite Hserved. rewrite (drop_S _ _ _ Hquestion). simpl.
      by rewrite Nat.add_1_r.
    + rewrite Hsession. f_equal. subst next. unfold set_currentQuestionIndex. simpl.
      f_equal. lia.
    + by rewrite Hplayers.
    + by rewrite Hsaved.
Qed.

(** X8. When the host of an active session asks for the next question [k]
    times and at least [k] questions are left, the calls return the
    questions of the quiz in order, starting at the current index, and
    advance the index by [k] without touching any player or saving a result.
    When no question is left after them, the call that follows returns
    [null], and stores the session as finished together with one game
    result. *)
Theorem X8_questions_served_in_order db clocks sessionId session quiz :
  dynamoService.getSession db sessionId = Some session →
  GameSession.status session = active →
  GameSession.quiz session = Some quiz →
  (GameSession.currentQuestionIndex session + length clocks
   ≤ length (Quiz.questions quiz))%nat →
  let outcome := serve db clocks sessionId (GameSession.hostId session) in
  let reached :=
    set_currentQuestionIndex (GameSession.currentQuestionIndex session + length clocks)
      session in
  outcome.2
  = Some <$> take (length clocks)
               (drop (GameSession.currentQuestionIndex session) (Quiz.questions quiz))
  ∧ dynamoService.getSession outcome.1 sessionId = Some reached
  ∧ players outcome.1 = players db
  ∧ savedResults outcome.1 = savedResults db
  ∧ ((GameSession.currentQuestionIndex session + length clocks
      = length (Quiz.questions quiz))%nat →
     ∀ clock,
       let last := nextQuestion outcome.1 clock sessionId (GameSession.hostId session) in
       last.2 = None
       ∧ dynamoService.getSession last.1 sessionId
         = Some (set_finished (finishedAtNow clock) reached)
       ∧ length (savedResults last.1) = S (length (savedResults db))).
Proof.
  intros Hs Hactive Hquiz Hlen outcome reached.
  destruct (serve_spec clocks db sessionId session quiz Hs Hactive Hquiz Hlen)
    as (Hserved & Hsession & Hplayers & Hsaved).
  fold outcome in Hserved, Hsession, Hplayers, Hsaved. fold reached in Hsession.
  split_and!; [done..|].
  intros Hend clock last. subst last.
  pose proof (nextQuestion_by_host outcome.1 clock sessionId _ reached quiz Hsession eq_refl
                Hactive Hquiz) as Hnext.
  change (GameSession.hostId reached) with (GameSession.hostId session) in Hnext.
  rewrite Hnext.
  rewrite (lookup_ge_None_2 (Quiz.questions quiz) (GameSession.currentQuestionIndex reached))
    by (subst reached; simpl; lia).
  destruct (finishGame_found outcome.1 clock sessionId reached Hsession) as [_ Hfinished].
  destruct (finishGame_saved outcome.1 clock sessionId reached quiz Hsession Hquiz)
    as (Hlog & _).
  cbn [fst snd]. split_and!; [done|done|].
  rewrite Hlog, length_app, Hsaved. simpl. lia.
Qed.

Lemma X8_questions_served_in_order_witness :
  let db := run_op Scenario.joined (OpStartGame 3000 "s-1" "host-1") in
  let session :=
    GameSession.mk "s-1" "quiz-1" "host-1" "A1B2C3" active 0 [] 1000 (Some 3000) None
      (Some Scenario.quiz) in
  let clocks := [mkFinishClock 4000 4001] in
  dynamoService.getSession db "s-1" = Some session
  ∧ (serve db clocks "s-1" "host-1").2 = Some <$> take 1 (Quiz.questions Scenario.quiz).
Proof.
  intros db session clocks.
  assert (dynamoService.getSession db "s-1" = Some session) as Hs
    by (vm_compute; reflexivity).
  assert (0 + length clocks ≤ length (Quiz.questions Scenario.quiz))%nat as Hlen
    by (vm_compute; lia).
  split; [exact Hs|].
  exact (proj1 (X8_questions_served_in_order db clocks "s-1" session Scenario.quiz Hs
                  eq_refl eq_refl Hlen)).
Defined.

(** ** The join code of a new session *)

Lemma free_code_dec db joinCode :
  bool_decide (truthy (dynamoService.getSessionByJoinCode db joinCode) = None) = true
  ↔ free_code db joinCode.
Proof. unfold free_code. by rewrite bool_decide_eq_true. Qed.

Lemma joinCodeLoop_first db draws remaining : ∀ attempts k,
  (k ≤ remaining)%nat →
  free_code db (generateJoinCode (draws (attempts + k)%nat)) →
  (∀ j, (j < k)%nat → ¬ free_code db (generateJoinCode (draws (attempts + j)%nat))) →
  joinCodeLoop db draws attempts remaining
  = (generateJoinCode (draws (attempts + k)%nat), true).
Proof.
  induction remaining as [|remaining IH]; intros attempts k Hk Hfree Hbefore.
  - assert (k = 0%nat) as -> by lia. rewrite Nat.add_0_r in *. simpl.
    by rewrite (proj2 (free_code_dec _ _) Hfree).
  - cbn [joinCodeLoop]. destruct k as [|k].
    + rewrite Nat.add_0_r in *. by rewrite (proj2 (free_code_dec _ _) Hfree).
    + rewrite bool_decide_false by (specialize (Hbefore 0%nat); rewrite Nat.add_0_r in Hbefore;
                                    apply Hbefore; lia).
      simpl. rewrite <- Nat.add_succ_comm in *. apply IH; [lia|done|].
      intros j Hj. specialize (Hbefore (S j)). rewrite <- Nat.add_succ_comm in Hbefore.
      apply Hbefore. lia.
Qed.

Lemma joinCodeLoop_false db draws remaining : ∀ attempts joinCode,
  joinCodeLoop db draws attempts remaining = (joinCode, false)
  ↔ joinCode = generateJoinCode (draws (attempts + remaining)%nat)
    ∧ ∀ j, (j ≤ remaining)%nat →
        ¬ free_code db (generateJoinCode (draws (attempts + j)%nat)).
Proof.
  induction remaining as [|remaining IH]; intros attempts joinCode.
  - simpl. rewrite Nat.add_0_r. split.
    + intros [= <- Hfalse]. split; [done|]. intros j Hj.
      assert (j = 0%nat) as -> by lia. rewrite Nat.add_0_r.
      by apply bool_decide_eq_false in Hfalse.
    + intros [-> Hnone]. f_equal. apply bool_decide_eq_false.
      specialize (Hnone 0%nat). rewrite Nat.add_0_r in Hnone. apply Hnone. lia.
  - cbn [joinCodeLoop].
    destruct (bool_decide (truthy (dynamoService.getSessionByJoinCode db
                (generateJoinCode (draws attempts))) = None)) eqn:Hunique; simpl.
    + split; [done|]. intros [_ Hnone]. apply free_code_dec in Hunique.
      specialize (Hnone 0%nat). rewrite Nat.add_0_r in Hnone. destruct Hnone; [lia|done].
    + rewrite IH, <- Nat.add_succ_comm. apply bool_decide_eq_false in Hunique.
      split; intros [-> Hnone]; (split; [done|]).
      * intros [|j] Hj; [by rewrite Nat.add_0_r|].
        rewrite <- Nat.add_succ_comm. apply Hnone. lia.
      * intros j Hj. specialize (Hnone (S j)). rewrite <- Nat.add_succ_comm in Hnone.
        apply Hnone. lia.
Qed.

(** X9. For a stored quiz, [createSession] takes the first of its at most
    ten generated join codes that leads to no session: it stores a waiting
    session with question index 0 and no players under the new id, with that
    code, and maps the code to the new id; no player is touched. Codes
    generated after the first free one are not looked at. *)
Theorem X9_createSession_first_free_code db draws uuid now hostId quizId quiz k :
  dynamoService.getQuiz db quizId = Some quiz →
  (k < 10)%nat →
  free_code db (generateJoinCode (draws k)) →
  (∀ j, (j < k)%nat → ¬ free_code db (generateJoinCode (draws j))) →
  let joinCode := generateJoinCode (draws k) in
  let session :=
    GameSession.mk uuid quizId hostId joinCode waiting 0 [] now None None (Some quiz) in
  let outcome := createSession db draws uuid now hostId quizId in
  outcome.2 = Some session
  ∧ dynamoService.getSession outcome.1 uuid = Some session
  ∧ dynamoService.getSessionByJoinCode outcome.1 joinCode = Some uuid
  ∧ (∀ other, other ≠ uuid →
       dynamoService.getSession outcome.1 other = dynamoService.getSession db other)
  ∧ (∀ other, other ≠ joinCode →
       dynamoService.getSessionByJoinCode outcome.1 other
       = dynamoService.getSessionByJoinCode db other)
  ∧ players outcome.1 = players db
  ∧ savedResults outcome.1 = savedResults db.
Proof.
  intros Hquiz Hk Hfree Hbefore joinCode session outcome.
  subst outcome. unfold createSession, createSession_try. rewrite Hquiz.
  rewrite (joinCodeLoop_first db draws 9 0 k) by (done || lia).
  simpl. unfold dynamoService.getSession, dynamoService.getSessionByJoinCode. simpl.
  split_and!; try done.
  - by rewrite lookup_insert_eq.
  - by rewrite lookup_insert_eq.
  - intros other Hother. by rewrite lookup_insert_ne.
  - intros other Hother. by rewrite lookup_insert_ne.
Qed.

Lemma X9_createSession_first_free_code_witness :
  let draws : nat → Draw :=
    λ n, match n with O => [10; 1; 11; 2; 12; 3]%nat | _ => [1; 2; 3; 4; 5; 6]%nat end in
  let session :=
    GameSession.mk "s-2" "quiz-1" "host-2" "123456" waiting 0 [] 9500 None None
      (Some Scenario.quiz) in
  generateJoinCode (draws 0%nat) = "A1B2C3"
  ∧ ¬ free_code Scenario.ended "A1B2C3"
  ∧ (createSession Scenario.ended draws "s-2" 9500 "host-2" "quiz-1").2 = Some session.
Proof.
  intros draws session.
  assert (dynamoService.getQuiz Scenario.ended "quiz-1" = Some Scenario.quiz) as Hquiz
    by (vm_compute; reflexivity).
  assert (free_code Scenario.ended (generateJoinCode (draws 1%nat))) as Hfree
    by (vm_compute; reflexivity).
  assert (¬ free_code Scenario.ended "A1B2C3") as Htaken by (vm_compute; discriminate).
  assert (∀ j, (j < 1)%nat → ¬ free_code Scenario.ended (generateJoinCode (draws j)))
    as Hbefore.
  { intros j Hj. assert (j = 0%nat) as -> by lia. exact Htaken. }
  split; [vm_compute; reflexivity|]. split; [exact Htaken|].
  exact (proj1 (X9_createSession_first_free_code Scenario.ended draws "s-2" 9500 "host-2"
                  "quiz-1" Scenario.quiz 1 Hquiz ltac:(lia) Hfree Hbefore)).
Defined.

(** X10. [createSession] returns [null] exactly when the quiz is not stored
    or each of the ten generated join codes already leads to a session; it
    then writes nothing. An eleventh code is never generated. *)
Theorem X10_createSession_fails db draws uuid now hostId quizId :
  let outcome := createSession db draws uuid now hostId quizId in
  (outcome.2 = None
   ↔ dynamoService.getQuiz db quizId = None
     ∨ ∀ j, (j < 10)%nat → ¬ free_code db (generateJoinCode (draws j)))
  ∧ (outcome.2 = None → outcome.1 = db).
Proof.
  intros outcome. subst outcome. unfold createSession, createSession_try.
  destruct (dynamoService.getQuiz db quizId) as [quiz|];
    [|simpl; split; [split; [by left|done]|done]].
  destruct (joinCodeLoop db draws 0 9) as [joinCode [|]] eqn:Hloop; simpl.
  - split; [|done]. split; [done|]. intros [?|Hnone]; [done|]. exfalso.
    assert (joinCodeLoop db draws 0 9 = (generateJoinCode (draws (0 + 9)%nat), false))
      as Hfalse.
    { apply joinCodeLoop_false. split; [done|]. intros j Hj. apply Hnone. lia. }
    congruence.
  - split; [|done]. split; [|done]. intros _. right.
    apply joinCodeLoop_false in Hloop as [_ Hnone].
    intros j Hj. apply (Hnone j). lia.
Qed.

Lemma X10_createSession_fails_witness :
  let outcome := createSession Scenario.ended Scenario.draws "s-2" 9500 "host-2" "quiz-9" in
  dynamoService.getQuiz Scenario.ended "quiz-9" = None
  ∧ outcome.2 = None
  ∧ outcome.1 = Scenario.ended.
Proof.
  intros outcome.
  assert (dynamoService.getQuiz Scenario.ended "quiz-9" = None) as Hquiz
    by (vm_compute; reflexivity).
  destruct (X10_createSession_fails Scenario.ended Scenario.draws "s-2" 9500 "host-2" "quiz-9")
    as [Hnull Hsame].
  split; [exact Hquiz|].
  split; [exact (proj2 Hnull (or_introl Hquiz))|].
  exact (Hsame (proj2 Hnull (or_introl Hquiz))).
Defined.

(** ** What each operation writes besides sessions and players *)

Lemma joinCodeLoop_true db draws remaining : ∀ attempts joinCode,
  joinCodeLoop db draws attempts remaining = (joinCode, true) → free_code db joinCode.
Proof.
  induction remaining as [|remaining IH]; intros attempts joinCode; cbn [joinCodeLoop].
  - intros [= <- Hfree]. by apply free_code_dec.
  - destruct (bool_decide _) eqn:Hunique; simpl.
    + intros [= <-]. by apply free_code_dec.
    + apply IH.
Qed.

Lemma saveGameResult_joinCodes db completedAt sessionId :
  joinCodes (saveGameResult db completedAt sessionId) = joinCodes db.
Proof.
  unfold saveGameResult.
  destruct (dynamoService.getSession db sessionId) as [s|]; [|done].
  destruct (GameSession.quiz s); done.
Qed.

(** The game results of [db'] are those of [db], or those of [db] with one
    result saved for [sessionId]. *)
Definition results_written (db db' : DB) (sessionId : string) : Prop :=
  (gameResults db' = gameResults db ∧ savedResults db' = savedResults db)
  ∨ ∃ result,
      GameResult.sessionId result = sessionId
      ∧ gameResults db' = <[sessionId := result]> (gameResults db)
      ∧ savedResults db' = savedResults db ++ [result].

Lemma finishGame_results db clock sessionId :
  results_written db (finishGame db clock sessionId).1 sessionId.
Proof.
  unfold finishGame.
  destruct (dynamoService.getSession db sessionId) as [session|] eqn:Hs; [|by left].
  simpl. unfold saveGameResult.
  destruct (dynamoService.getSession (dynamoService.updateSession _ _ _) sessionId)
    as [session'|]; [|by left].
  destruct (GameSession.quiz session') as [quiz|]; [|by left].
  right. eexists. split; [|split; reflexivity]. done.
Qed.

Lemma run_op_joinCodes db op :
  joinCodes (run_op db op) = joinCodes db
  ∨ ∃ joinCode uuid,
      free_code db joinCode ∧ joinCodes (run_op db op) = <[joinCode := uuid]> (joinCodes db).
Proof.
  destruct op; simpl.
  - unfold createSession.
    destruct (createSession_try _ _ _ _ _ _) as [[db1 session]|] eqn:Htry; [|by left].
    unfold createSession_try in Htry.
    destruct (dynamoService.getQuiz db quizId) as [quiz|]; [|injection Htry as <- _; by left].
    destruct (joinCodeLoop db draws 0 9) as [joinCode isUnique] eqn:Hloop.
    apply bind_Ok in Htry as (_ & Hunique%throwIf_Ok & Htry). injection Htry as <- _.
    apply negb_false_iff in Hunique as ->. apply joinCodeLoop_true in Hloop.
    right. by exists joinCode, uuid.
  - unfold joinSession.
    destruct (joinSession_try _ _ _ _ _) as [[db1 r]|] eqn:Htry; [|by left].
    unfold joinSession_try in Htry. try_inv Htry. injection Htry as <- _. by left.
  - unfold startGame.
    destruct (startGame_try _ _ _ _) as [db1|] eqn:Htry; [|by left].
    unfold startGame_try in Htry. try_inv Htry. injection Htry as <-. by left.
  - unfold nextQuestion.
    destruct (nextQuestion_try _ _ _ _) as [[db1 r]|] eqn:Htry; [|by left].
    unfold nextQuestion_try in Htry. try_inv Htry.
    destruct (Quiz.questions _ !! _); injection Htry as <- _; simpl; [by left|].
    left. unfold finishGame.
    destruct (dynamoService.getSession db sessionId); [|done].
    simpl. by rewrite saveGameResult_joinCodes.
  - unfold submitAnswer.
    destruct (submitAnswer_try _ _ _ _ _ _ _) as [[db1 r]|] eqn:Htry; [|by left].
    apply submitAnswer_try_Ok in Htry
      as (? & ? & ? & ? & _ & _ & _ & _ & _ & _ & _ & -> & _).
    by left.
  - left. unfold finishGame.
    destruct (dynamoService.getSession db sessionId); [|done].
    simpl. by rewrite saveGameResult_joinCodes.
  - by left.
Qed.

(** The sessions for which the operation can save a game result. *)
Definition finishes (op : Op) : option string :=
  match op with
  | OpNextQuestion _ sessionId _ | OpFinishGame _ sessionId => Some sessionId
  | _ => None
  end.

Lemma run_op_results db op :
  match finishes op with
  | Some sessionId => results_written db (run_op db op) sessionId
  | None =>
      gameResults (run_op db op) = gameResults db
      ∧ savedResults (run_op db op) = savedResults db
  end.
Proof.
  destruct op; simpl.
  - unfold createSession.
    destruct (createSession_try _ _ _ _ _ _) as [[db1 session]|] eqn:Htry; [|done].
    unfold createSession_try in Htry.
    destruct (dynamoService.getQuiz db quizId) as [quiz|]; [|by injection Htry as <- _].
    destruct (joinCodeLoop db draws 0 9) as [joinCode isUnique].
    apply bind_Ok in Htry as (_ & _ & Htry). by injection Htry as <- _.
  - unfold joinSession.
    destruct (joinSession_try _ _ _ _ _) as [[db1 r]|] eqn:Htry; [|done].
    unfold joinSession_try in Htry. try_inv Htry. by injection Htry as <- _.
  - unfold startGame.
    destruct (startGame_try _ _ _ _) as [db1|] eqn:Htry; [|done].
    unfold startGame_try in Htry. try_inv Htry. by injection Htry as <-.
  - unfold nextQuestion.
    destruct (nextQuestion_try _ _ _ _) as [[db1 r]|] eqn:Htry; [|by left].
    unfold nextQuestion_try in Htry. try_inv Htry.
    destruct (Quiz.questions _ !! _); injection Htry as <- _; simpl; [by left|].
    apply finishGame_results.
  - unfold submitAnswer.
    destruct (submitAnswer_try _ _ _ _ _ _ _) as [[db1 r]|] eqn:Htry; [|done].
    apply submitAnswer_try_Ok in Htry
      as (? & ? & ? & ? & _ & _ & _ & _ & _ & _ & _ & -> & _).
    done.
  - apply finishGame_results.
  - done.
Qed.

(** X11. A join code that leads to a session leads to that session for
    good: no sequence of calls removes or redirects the mapping, whatever
    becomes of the session. *)
Theorem X11_join_code_is_permanent db ops joinCode sessionId :
  truthy (dynamoService.getSessionByJoinCode db joinCode) = Some sessionId →
  dynamoService.getSessionByJoinCode (run_ops db ops) joinCode = Some sessionId.
Proof.
  unfold run_ops. revert db.
  induction ops as [|op ops IH]; intros db Hcode; simpl.
  - by apply truthy_Some in Hcode as [? _].
  - apply IH.
    destruct (run_op_joinCodes db op) as [Hsame|(code & uuid & Hfree & Hnew)];
      unfold dynamoService.getSessionByJoinCode in *.
    + by rewrite Hsame.
    + rewrite Hnew. destruct (decide (code = joinCode)) as [->|Hne].
      * unfold free_code, dynamoService.getSessionByJoinCode in Hfree. congruence.
      * by rewrite lookup_insert_ne.
Qed.

Lemma X11_join_code_is_permanent_witness :
  truthy (dynamoService.getSessionByJoinCode Scenario.created "A1B2C3") = Some "s-1"
  ∧ dynamoService.getSessionByJoinCode
      (run_ops Scenario.created
         [OpJoinSession "p-a" 2000 "A1B2C3" "Ann";
          OpFinishGame (mkFinishClock 9000 9001) "s-1";
          OpCreateSession Scenario.draws "s-2" 9500 "host-2" "quiz-1"]) "A1B2C3"
    = Some "s-1".
Proof.
  assert (truthy (dynamoService.getSessionByJoinCode Scenario.created "A1B2C3") = Some "s-1")
    as Hcode by (vm_compute; reflexivity).
  split; [exact Hcode|].
  exact (X11_join_code_is_permanent Scenario.created _ "A1B2C3" "s-1" Hcode).
Defined.

(** ** The results of a finished game *)

Lemma nextQuestion_not_active db clock sessionId hostId session :
  dynamoService.getSession db sessionId = Some session →
  GameSession.status session ≠ active →
  nextQuestion db clock sessionId hostId = (db, None).
Proof.
  intros Hs Hstatus. unfold nextQuestion, nextQuestion_try.
  rewrite Hs. unfold mbind, Res_bind, orThrow, throwIf.
  destruct (bool_decide (GameSession.hostId session ≠ hostId)); [done|].
  by rewrite (bool_decide_true (GameSession.status session ≠ active)).
Qed.

(** The operation is the explicit end of the game of [sessionId]. *)
Definition ends_game (sessionId : string) (op : Op) : Prop :=
  match op with
  | OpFinishGame _ sessionId' => sessionId' = sessionId
  | _ => False
  end.

Lemma run_op_finished db op sessionId session result :
  keeps_session sessionId op →
  ¬ ends_game sessionId op →
  dynamoService.getSession db sessionId = Some session →
  GameSession.status session = finished →
  dynamoService.getGameResult db sessionId = Some result →
  (∃ session',
     dynamoService.getSession (run_op db op) sessionId = Some session'
     ∧ GameSession.status session' = finished)
  ∧ dynamoService.getGameResult (run_op db op) sessionId = Some result.
Proof.
  intros Hkeeps Hends Hs Hfinished Hresult. split.
  - destruct (run_op_session db op sessionId session Hkeeps Hs)
      as (session' & Hs' & Hrank & _).
    exists session'. split; [done|]. rewrite Hfinished in Hrank.
    destruct (GameSession.status session'); simpl in Hrank; [lia|lia|done].
  - unfold dynamoService.getGameResult in *.
    pose proof (run_op_results db op) as Hwritten.
    destruct (finishes op) as [sessionId'|] eqn:Hop;
      [|destruct Hwritten as [-> _]; done].
    destruct (decide (sessionId' = sessionId)) as [->|Hne].
    + destruct op; simpl in Hop; simplify_eq; [|by destruct Hends].
      simpl. by rewrite (nextQuestion_not_active db clock sessionId hostId session Hs)
        by (rewrite Hfinished; done).
    + destruct Hwritten as [[-> _]|(r & _ & -> & _)]; [done|].
      by rewrite lookup_insert_ne.
Qed.

(** X12. When a game is finished, the results of the session are the
    leaderboard of that moment together with a session rebuilt from the saved
    result: finished, with the join code [FINISHED], the number of questions
    as index, the players of the leaderboard without their answers, and a
    quiz without questions. No later call changes them, except a further
    explicit end of the same game: players who leave afterwards stay in the
    results. *)
Theorem X12_results_frozen_at_finish db clock ops sessionId session quiz :
  dynamoService.getSession db sessionId = Some session →
  GameSession.quiz session = Some quiz →
  Forall (λ op, keeps_session sessionId op ∧ ¬ ends_game sessionId op) ops →
  let ended := (finishGame db clock sessionId).1 in
  let board := getLeaderboard db sessionId in
  ∃ sessionData,
    gameService.getSessionResults (run_ops ended ops) sessionId = Some (board, sessionData)
    ∧ GameSession.status sessionData = finished
    ∧ GameSession.joinCode sessionData = "FINISHED"
    ∧ GameSession.currentQuestionIndex sessionData = length (Quiz.questions quiz)
    ∧ Player.id <$> GameSession.players sessionData = LeaderboardEntry.playerId <$> board
    ∧ Player.score <$> GameSession.players sessionData = LeaderboardEntry.score <$> board
    ∧ Forall (λ p, Player.answers p = []) (GameSession.players sessionData)
    ∧ (Quiz.questions <$> GameSession.quiz sessionData) = Some [].
Proof.
  intros Hs Hquiz Hops ended board.
  destruct (finishGame_found db clock sessionId session Hs) as [_ Hfinished].
  destruct (finishGame_saved db clock sessionId session quiz Hs Hquiz) as (_ & Hsaved & _).
  fold ended in Hfinished, Hsaved.
  set (result := snapshot _ _ _ _ _) in Hsaved.
  assert ((∃ session',
             dynamoService.getSession (run_ops ended ops) sessionId = Some session'
             ∧ GameSession.status session' = finished)
          ∧ dynamoService.getGameResult (run_ops ended ops) sessionId = Some result)
    as [_ Hresult].
  { assert (∃ session',
              dynamoService.getSession ended sessionId = Some session'
              ∧ GameSession.status session' = finished) as Hended by eauto.
    clearbody ended result. clear Hfinished. revert ended Hended Hsaved. unfold run_ops.
    induction Hops as [|op ops [Hkeeps Hends] _ IH]; intros ended Hended Hsaved; simpl;
      [done|].
    destruct Hended as (session' & Hs' & Hstatus).
    destruct (run_op_finished ended op sessionId session' result Hkeeps Hends Hs' Hstatus
                Hsaved) as [Hnext Hkept].
    by apply IH. }
  unfold gameService.getSessionResults. rewrite Hresult.
  eexists. split; [subst result; simpl; by rewrite resultLeaderboard_id|].
  subst result. simpl. rewrite Nat2Z.id, <- !list_fmap_compose.
  split_and!; try done. by apply Forall_fmap, Forall_true.
Qed.

Lemma X12_results_frozen_at_finish_witness :
  let session :=
    GameSession.mk "s-1" "quiz-1" "host-1" "A1B2C3" active 1 [] 1000 (Some 3000) None
      (Some Scenario.quiz) in
  let ops := [OpRemovePlayer "s-1" "p-b"; OpNextQuestion (mkFinishClock 9700 9701) "s-1" "host-1"] in
  let after := run_ops (finishGame Scenario.answered2 (mkFinishClock 9000 9001) "s-1").1 ops in
  dynamoService.getSession Scenario.answered2 "s-1" = Some session
  ∧ Forall (λ op, keeps_session "s-1" op ∧ ¬ ends_game "s-1" op) ops
  ∧ length (getLeaderboard after "s-1") = 1%nat
  ∧ ∃ sessionData,
      gameService.getSessionResults after "s-1"
      = Some (getLeaderboard Scenario.answered2 "s-1", sessionData)
      ∧ GameSession.status sessionData = finished.
Proof.
  intros session ops after.
  assert (dynamoService.getSession Scenario.answered2 "s-1" = Some session) as Hs
    by (vm_compute; reflexivity).
  assert (Forall (λ op, keeps_session "s-1" op ∧ ¬ ends_game "s-1" op) ops) as Hops.
  { repeat constructor; intros []. }
  split; [exact Hs|]. split; [exact Hops|]. split; [vm_compute; reflexivity|].
  destruct (X12_results_frozen_at_finish Scenario.answered2 (mkFinishClock 9000 9001) ops
              "s-1" session Scenario.quiz Hs eq_refl Hops)
    as (sessionData & Hresults & Hstatus & _).
  exists sessionData. split; [exact Hresults|exact Hstatus].
Defined.

(** ** The statistics of a saved result *)

Global Instance player_ok_dec p : Decision (player_ok p).
Proof. unfold player_ok. apply _. Defined.

Global Instance players_ok_dec db : Decision (players_ok db).
Proof. unfold players_ok. apply _. Defined.

Lemma filter_key_NoDup {A} (f : A → string) (x : string) (l : list A) :
  NoDup (f <$> l) → (length (filter (λ a, f a = x) l) ≤ 1)%nat.
Proof.
  induction l as [|a r IH]; [simpl; lia|].
  rewrite fmap_cons, NoDup_cons. intros [Hfresh Hr]. rewrite filter_cons.
  case_decide as Ha; [|by apply IH]. simpl.
  destruct (filter (λ a, f a = x) r) as [|b rest] eqn:Hfilter; [simpl; lia|].
  exfalso. apply Hfresh.
  assert (b ∈ filter (λ a, f a = x) r) as [Hb Hin]%list_elem_of_filter
    by (rewrite Hfilter; left).
  apply list_elem_of_fmap. exists b. split; [congruence|done].
Qed.

Lemma length_bind_le {A B} (f : A → list B) (l : list A) :
  Forall (λ a, (length (f a) ≤ 1)%nat) l → (length (l ≫= f) ≤ length l)%nat.
Proof.
  induction 1 as [|a r Ha _ IH]; [done|].
  rewrite bind_cons, length_app. simpl. lia.
Qed.

Lemma questionStats_bounds players question :
  Forall player_ok players →
  let stat := questionStats players question in
  0 ≤ QuestionStat.correctCount stat
  ∧ QuestionStat.correctCount stat ≤ QuestionStat.totalAnswers stat
  ∧ QuestionStat.totalAnswers stat ≤ Z.of_nat (length players).
Proof.
  intros Hok. simpl. split_and!; [lia| |].
  - apply inj_le, length_filter.
  - apply inj_le, length_bind_le.
    eapply Forall_impl; [exact Hok|]. intros p [_ Hnodup]. simpl.
    by apply (filter_key_NoDup PlayerAnswer.questionId).
Qed.

(** X13. When every player's answers are to distinct questions, as in every
    store reached by calls of the service, the result saved at the end of a
    game counts the players of the session as participants, lists one
    leaderboard entry per player and one statistic per question of the quiz
    in order, and in each statistic the correct answers are at most the
    answers given, which are at most the participants. *)
Theorem X13_snapshot_statistics db clock sessionId session quiz :
  players_ok db →
  dynamoService.getSession db sessionId = Some session →
  GameSession.quiz session = Some quiz →
  ∃ result,
    dynamoService.getGameResult (finishGame db clock sessionId).1 sessionId = Some result
    ∧ GameResult.totalParticipants result
      = Z.of_nat (length (dynamoService.getSessionPlayers db sessionId))
    ∧ Z.of_nat (length (GameResult.leaderboard result))
      = GameResult.totalParticipants result
    ∧ Z.of_nat (length (GameResult.questionStats result)) = GameResult.totalQuestions result
    ∧ QuestionStat.questionId <$> GameResult.questionStats result
      = Question.id <$> Quiz.questions quiz
    ∧ Forall (λ stat,
        0 ≤ QuestionStat.correctCount stat
        ∧ QuestionStat.correctCount stat ≤ QuestionStat.totalAnswers stat
        ∧ QuestionStat.totalAnswers stat ≤ GameResult.totalParticipants result)
        (GameResult.questionStats result).
Proof.
  intros Hok Hs Hquiz.
  destruct (finishGame_saved db clock sessionId session quiz Hs Hquiz) as (_ & Hsaved & _).
  eexists. split; [exact Hsaved|]. cbn [snapshot GameResult.totalParticipants
    GameResult.leaderboard GameResult.questionStats GameResult.totalQuestions].
  change (dynamoService.getSessionPlayers (dynamoService.updateSession db sessionId _)
            sessionId) with (dynamoService.getSessionPlayers db sessionId).
  split_and!.
  - done.
  - f_equal.
    change (getLeaderboard (dynamoService.updateSession db sessionId
                              (set_finished (finishedAtNow clock))) sessionId)
      with (getLeaderboard db sessionId).
    unfold getLeaderboard, js_mapi, leaderboardData.
    by rewrite length_imap, js_sort_length, length_fmap.
  - by rewrite length_fmap.
  - rewrite <- list_fmap_compose. done.
  - apply Forall_fmap, Forall_forall. intros question _.
    apply questionStats_bounds. by apply players_ok_players.
Qed.

Lemma X13_snapshot_statistics_witness :
  let session :=
    GameSession.mk "s-1" "quiz-1" "host-1" "A1B2C3" active 1 [] 1000 (Some 3000) None
      (Some Scenario.quiz) in
  players_ok Scenario.answered2
  ∧ dynamoService.getSession Scenario.answered2 "s-1" = Some session
  ∧ ∃ result,
      dynamoService.getGameResult
        (finishGame Scenario.answered2 (mkFinishClock 9000 9001) "s-1").1 "s-1" = Some result
      ∧ GameResult.totalParticipants result = 2.
Proof.
  intros session.
  assert (players_ok Scenario.answered2) as Hok
    by (apply (bool_decide_unpack _); vm_compute; exact I).
  assert (dynamoService.getSession Scenario.answered2 "s-1" = Some session) as Hs
    by (vm_compute; reflexivity).
  assert (Z.of_nat (length (dynamoService.getSessionPlayers Scenario.answered2 "s-1")) = 2)
    as Hcount by (vm_compute; reflexivity).
  split; [exact Hok|]. split; [exact Hs|].
  destruct (X13_snapshot_statistics Scenario.answered2 (mkFinishClock 9000 9001) "s-1"
              session Scenario.quiz Hok Hs eq_refl) as (result & Hresult & Hn & _).
  exists result. split; [exact Hresult|]. rewrite Hn. exact Hcount.
Defined.

(** ** The roster of a session *)

(** The players stored for a session have distinct names and carry the id of
    the session. *)
Definition roster_ok (db : DB) : Prop :=
  map_Forall (λ sessionId l,
    NoDup (Player.name <$> l) ∧ Forall (λ p, Player.sessionId p = sessionId) l) (players db).

Lemma roster_ok_players db sessionId :
  roster_ok db →
  NoDup (Player.name <$> dynamoService.getSessionPlayers db sessionId)
  ∧ Forall (λ p, Player.sessionId p = sessionId) (dynamoService.getSessionPlayers db sessionId).
Proof.
  intros Hok. unfold dynamoService.getSessionPlayers.
  destruct (players db !! sessionId) as [l|] eqn:E; simpl.
  - by apply (map_Forall_lookup_1 _ _ _ _ Hok).
  - split; constructor.
Qed.

Lemma elem_of_put_player_inv (p x : Player.t) l : x ∈ put_player p l → x = p ∨ x ∈ l.
Proof.
  induction l as [|q r IH]; simpl.
  - rewrite list_elem_of_singleton. auto.
  - destruct (String_as_OT.compare _ _); rewrite !elem_of_cons; [tauto|tauto|].
    intros [->|Hin]; [tauto|]. destruct (IH Hin); tauto.
Qed.

Lemma put_player_names (p : Player.t) l :
  NoDup (Player.name <$> l) →
  Player.name p ∉ Player.name <$> l →
  NoDup (Player.name <$> put_player p l).
Proof.
  induction l as [|q r IH]; simpl; intros Hnodup Hfresh.
  - apply NoDup_singleton.
  - rewrite ?fmap_cons in Hnodup, Hfresh. apply NoDup_cons in Hnodup as [Hq Hr].
    apply not_elem_of_cons in Hfresh as [Hne Hfresh].
    destruct (String_as_OT.compare _ _); rewrite ?fmap_cons.
    + by apply NoDup_cons.
    + apply NoDup_cons. split; [|by apply NoDup_cons].
      by apply not_elem_of_cons.
    + apply NoDup_cons. split; [|by apply IH].
      intros (x & Hx & [->|Hin]%elem_of_put_player_inv)%list_elem_of_fmap; [done|].
      apply Hq, list_elem_of_fmap. by exists x.
Qed.

Lemma update_player_names playerId f l :
  (∀ q, Player.name (f q) = Player.name q) →
  Player.name <$> update_player playerId f l = Player.name <$> l.
Proof.
  intros Hf. unfold update_player. rewrite <-list_fmap_compose.
  apply list_fmap_ext. intros i q _. simpl. by case_decide.
Qed.

Lemma delete_player_names playerId l :
  NoDup (Player.name <$> l) → NoDup (Player.name <$> delete_player playerId l).
Proof.
  unfold delete_player. induction l as [|q r IH]; [done|].
  rewrite fmap_cons, NoDup_cons. intros [Hq Hr]. rewrite filter_cons.
  case_decide; [|by apply IH]. rewrite fmap_cons. apply NoDup_cons. split; [|by apply IH].
  intros (x & Hx & [_ Hin]%list_elem_of_filter)%list_elem_of_fmap.
  apply Hq, list_elem_of_fmap. by exists x.
Qed.

Lemma joinSession_None db uuid now joinCode playerName db' :
  joinSession db uuid now joinCode playerName = (db', None) → db' = db.
Proof.
  unfold joinSession. destruct (joinSession_try _ _ _ _ _) as [[db1 r]|]; by intros [= <-].
Qed.

Lemma roster_ok_run_op db op : roster_ok db → roster_ok (run_op db op).
Proof.
  intros Hok. unfold roster_ok in *. destruct op; simpl.
  - by destruct (createSession_effect db draws uuid now hostId quizId) as [-> _].
  - destruct (joinSession db uuid now joinCode playerName) as [db' [[session' player]|]]
      eqn:Hrun; simpl.
    + apply joinSession_Some in Hrun as (sessionId & session & _ & _ & _ & -> & ->).
      simpl. apply map_Forall_insert_2; [|done].
      destruct (roster_ok_players db sessionId Hok) as [Hnames Hids].
      split.
      * apply put_player_names; [done|]. simpl.
        apply (uniquePlayerName_spec (dynamoService.getSessionPlayers db sessionId)).
      * by apply Forall_put_player.
    + by apply joinSession_None in Hrun as ->.
  - by destruct (startGame_effect db now sessionId hostId) as [-> _].
  - by destruct (nextQuestion_effect db clock sessionId hostId) as [-> _].
  - destruct (submitAnswer_effect db clock sessionId playerId questionId selectedChoice
                timeToAnswer) as [_ [->|(player & answer & _ & _ & -> & _)]]; [done|].
    apply map_Forall_alter_2; [done|]. intros l _ [Hnames Hids]. split.
    + by rewrite update_player_names.
    + apply Forall_update_player; [|done]. by intros q _ _ Hq.
  - by destruct (finishGame_effect db clock sessionId) as [-> _].
  - apply map_Forall_alter_2; [done|]. intros l _ [Hnames Hids]. split.
    + by apply delete_player_names.
    + by apply Forall_delete_player.
Qed.

(** X14. In every store reached from a store without sessions by calls of
    the service, the players of a session have pairwise distinct names and
    pairwise distinct ids, and each of them carries the id of the session. *)
Theorem X14_roster_names_unique loaded quizzes ops sessionId :
  let roster :=
    dynamoService.getSessionPlayers (run_ops (initialDB loaded quizzes) ops) sessionId in
  NoDup (Player.name <$> roster)
  ∧ NoDup (Player.id <$> roster)
  ∧ Forall (λ p, Player.sessionId p = sessionId) roster.
Proof.
  intros roster. subst roster.
  assert (roster_ok (run_ops (initialDB loaded quizzes) ops)) as Hok.
  { apply run_ops_invariant; [apply roster_ok_run_op|apply map_Forall_empty]. }
  destruct (roster_ok_players _ sessionId Hok) as [Hnames Hids].
  split_and!; [done| |done].
  apply keys_sorted_NoDup, wf_db_players, wf_db_reachable.
Qed.

(** ** The replies of the message handlers *)

Lemma host_join_error_failed quizId :
  messageHandlers.host_join_error quizId "Failed to create session"
  = messageHandlers.error "Failed to create session" "SESSION_CREATE_ERROR"
      (Some "Failed to create session").
Proof. vm_compute. reflexivity. Qed.

Lemma host_join_error_missing quizId :
  messageHandlers.host_join_error quizId "Missing hostId or quizId"
  = messageHandlers.error "Missing required parameters" "MISSING_PARAMETERS"
      (Some "Missing hostId or quizId").
Proof. vm_compute. reflexivity. Qed.

(** X15. A message of type [host_join] is answered with exactly one
    message to the sender. When the message has no content, the handler
    throws before its [try] and the listener answers with the error
    [INVALID_MESSAGE_FORMAT]; nothing is written. With a content: when the
    host id or the quiz id is missing or empty, the answer is the error
    [MISSING_PARAMETERS] and nothing is written; when [createSession]
    returns [null], which includes the case of a quiz that is not stored, it
    is the error [SESSION_CREATE_ERROR] and nothing is written; otherwise it
    is [session_created] with the new session. The error [QUIZ_NOT_FOUND] is
    never sent. *)
Theorem X15_host_join_replies db draws uuid now typeError hostId quizId :
  let outcome :=
    messageHandlers.on_message_host_join db draws uuid now typeError
      (Some (hostId, quizId)) in
  messageHandlers.on_message_host_join db draws uuid now typeError None
  = (db, [(server.sender,
           messageHandlers.error "Invalid message format" "INVALID_MESSAGE_FORMAT"
             (Some typeError))])
  ∧ ((truthy hostId = None ∨ truthy quizId = None) →
     outcome
     = (db, [(server.sender,
              messageHandlers.error "Missing required parameters" "MISSING_PARAMETERS"
                (Some "Missing hostId or quizId"))]))
  ∧ (∀ hostId' quizId',
       truthy hostId = Some hostId' → truthy quizId = Some quizId' →
       match (createSession db draws uuid now hostId' quizId').2 with
       | Some session =>
           outcome
           = ((createSession db draws uuid now hostId' quizId').1,
              [(server.sender, messageHandlers.session_created session)])
       | None =>
           outcome
           = (db, [(server.sender,
                    messageHandlers.error "Failed to create session" "SESSION_CREATE_ERROR"
                      (Some "Failed to create session"))])
       end)
  ∧ (∀ hostId' quizId',
       truthy hostId = Some hostId' → truthy quizId = Some quizId' →
       dynamoService.getQuiz db quizId' = None →
       outcome
       = (db, [(server.sender,
                messageHandlers.error "Failed to create session" "SESSION_CREATE_ERROR"
                  (Some "Failed to create session"))]))
  ∧ (∀ content recipient message details,
       (recipient, messageHandlers.error message "QUIZ_NOT_FOUND" details)
       ∉ (messageHandlers.on_message_host_join db draws uuid now typeError content).2).
Proof.
  intros outcome. subst outcome.
  unfold messageHandlers.on_message_host_join, messageHandlers.host_join.
  cbv beta iota. unfold messageHandlers.host_join_try.
  assert (∀ hostId' quizId',
            (createSession db draws uuid now hostId' quizId').2 = None →
            (createSession db draws uuid now hostId' quizId').1 = db) as Hnull.
  { intros hostId' quizId'. unfold createSession.
    destruct (createSession_try _ _ _ _ _ _) as [[db1 [session|]]|] eqn:Htry; [done| |done].
    intros _. unfold createSession_try in Htry.
    destruct (dynamoService.getQuiz db quizId'); [|by injection Htry as <-].
    destruct (joinCodeLoop db draws 0 9) as [joinCode isUnique].
    by apply bind_Ok in Htry as (_ & _ & Htry). }
  split; [done|]. split_and!.
  - intros [Hmissing|Hmissing]; rewrite Hmissing.
    + by rewrite host_join_error_missing.
    + rewrite host_join_error_missing. by destruct (truthy hostId).
  - intros hostId' quizId' -> ->. specialize (Hnull hostId' quizId').
    destruct (createSession db draws uuid now hostId' quizId') as [db1 [session|]];
      simpl in *; [done|].
    by rewrite host_join_error_failed, Hnull.
  - intros hostId' quizId' -> -> Hquiz.
    unfold createSession, createSession_try. rewrite Hquiz. simpl.
    by rewrite host_join_error_failed.
  - intros content recipient message details.
    destruct content as [[hostId0 quizId0]|]; cbv beta iota;
      [|simpl; rewrite list_elem_of_singleton; congruence].
    destruct (truthy hostId0) as [hostId'|];
      [destruct (truthy quizId0) as [quizId'|];
       [destruct (createSession db draws uuid now hostId' quizId') as [db1 [session|]]|]|];
      simpl; rewrite ?host_join_error_failed, ?host_join_error_missing;
      rewrite list_elem_of_singleton; congruence.
Qed.

Lemma X15_host_join_replies_witness :
  truthy (Some "host-2") = Some "host-2"
  ∧ truthy (Some "quiz-9") = Some "quiz-9"
  ∧ dynamoService.getQuiz Scenario.ended "quiz-9" = None
  ∧ messageHandlers.on_message_host_join Scenario.ended Scenario.draws "s-2" 9500
      "TypeError" (Some (Some "host-2", Some "quiz-9"))
    = (Scenario.ended,
       [(server.sender,
         messageHandlers.error "Failed to create session" "SESSION_CREATE_ERROR"
           (Some "Failed to create session"))]).
Proof.
  assert (dynamoService.getQuiz Scenario.ended "quiz-9" = None) as Hquiz
    by (vm_compute; reflexivity).
  split; [reflexivity|]. split; [reflexivity|]. split; [exact Hquiz|].
  exact (proj1 (proj2 (proj2 (proj2
           (X15_host_join_replies Scenario.ended Scenario.draws "s-2" 9500 "TypeError"
              (Some "host-2") (Some "quiz-9")))))
           "host-2" "quiz-9" eq_refl eq_refl Hquiz).
Defined.

Lemma getSession_updateSession db sessionId updates session :
  dynamoService.getSession db sessionId = Some session →
  dynamoService.getSession (dynamoService.updateSession db sessionId updates) sessionId
  = Some (updates session).
Proof.
  intros Hs. unfold dynamoService.getSession in *. simpl. by rewrite lookup_alter_eq, Hs.
Qed.

(** X16. When the host starts a waiting session that has a player,
    [start_game] stores the session as active and then asks for the first
    question. If the quiz has a question at the session's index, every
    participant receives [game_started] with that question and the question
    index 1, and the session's index is advanced by one. If it has none, the
    sender receives the error [GAME_START_ERROR] although the session has
    been stored as finished and a game result has been saved; if the session
    carries no quiz, the same error is sent and the session stays active. *)
Theorem X16_start_game_replies db now clock sessionId playerId session :
  dynamoService.getSession db sessionId = Some session →
  GameSession.hostId session = playerId →
  GameSession.status session = waiting →
  dynamoService.getSessionPlayers db sessionId ≠ [] →
  let outcome := messageHandlers.start_game db now clock true sessionId playerId in
  let started := set_active now session in
  let failed :=
    [(server.sender, messageHandlers.error "Failed to start game" "GAME_START_ERROR" None)] in
  match GameSession.quiz session with
  | None =>
      outcome.2 = failed
      ∧ dynamoService.getSession outcome.1 sessionId = Some started
  | Some quiz =>
      match Quiz.questions quiz !! GameSession.currentQuestionIndex session with
      | Some question =>
          outcome.2
          = [(server.everyone sessionId,
              messageHandlers.game_started question 1 (Question.timeLimit question))]
          ∧ dynamoService.getSession outcome.1 sessionId
            = Some (set_currentQuestionIndex (GameSession.currentQuestionIndex session + 1)
                      started)
          ∧ savedResults outcome.1 = savedResults db
      | None =>
          outcome.2 = failed
          ∧ dynamoService.getSession outcome.1 sessionId
            = Some (set_finished (finishedAtNow clock) started)
          ∧ length (savedResults outcome.1) = S (length (savedResults db))
      end
  end.
Proof.
  intros Hs Hhost Hwaiting Hplayers outcome started failed.
  subst outcome. unfold messageHandlers.start_game. cbn [negb].
  pose proof (startGame_ok db now sessionId session Hs Hwaiting Hplayers) as Hstart.
  rewrite Hhost in Hstart. rewrite Hstart.
  set (db1 := dynamoService.updateSession db sessionId (set_active now)).
  pose proof (getSession_updateSession db sessionId (set_active now) session Hs) as Hs1.
  fold db1 started in Hs1.
  destruct (GameSession.quiz session) as [quiz|] eqn:Hquiz.
  - rewrite (nextQuestion_by_host db1 clock sessionId playerId started quiz Hs1 Hhost eq_refl
               Hquiz).
    change (GameSession.currentQuestionIndex started)
      with (GameSession.currentQuestionIndex session).
    destruct (Quiz.questions quiz !! GameSession.currentQuestionIndex session)
      as [question|]; simpl.
    + split; [done|]. split; [|done]. by apply getSession_updateSession.
    + destruct (finishGame_found db1 clock sessionId started Hs1) as [_ Hfinished].
      destruct (finishGame_saved db1 clock sessionId started quiz Hs1 Hquiz) as (Hlog & _).
      destruct (finishGame db1 clock sessionId) as [db2 ok]. simpl in *.
      split; [done|]. split; [done|]. by rewrite Hlog, length_app, Nat.add_1_r.
  - assert (nextQuestion db1 clock sessionId playerId = (db1, None)) as ->.
    { unfold nextQuestion, nextQuestion_try. rewrite Hs1.
      unfold mbind, Res_bind, orThrow, throwIf.
      destruct (bool_decide (GameSession.hostId started ≠ playerId)); [done|].
      destruct (bool_decide (GameSession.status started ≠ active)); [done|].
      change (GameSession.quiz started) with (GameSession.quiz session).
      by rewrite Hquiz. }
    done.
Qed.

Lemma X16_start_game_replies_witness :
  let session :=
    GameSession.mk "s-1" "quiz-1" "host-1" "A1B2C3" waiting 0 [] 1000 None None
      (Some Scenario.quiz) in
  let question := Question.mk "q1" "Capital of France?" ["Lyon"; "Paris"; "Nice"] 1 20 100 in
  dynamoService.getSession Scenario.joined "s-1" = Some session
  ∧ dynamoService.getSessionPlayers Scenario.joined "s-1" ≠ []
  ∧ (messageHandlers.start_game Scenario.joined 3000 (mkFinishClock 4000 4001) true
       "s-1" "host-1").2
    = [(server.everyone "s-1", messageHandlers.game_started question 1 20)].
Proof.
  intros session question.
  assert (dynamoService.getSession Scenario.joined "s-1" = Some session) as Hs
    by (vm_compute; reflexivity).
  assert (dynamoService.getSessionPlayers Scenario.joined "s-1" ≠ []) as Hplayers
    by (vm_compute; discriminate).
  split; [exact Hs|]. split; [exact Hplayers|].
  exact (proj1 (X16_start_game_replies Scenario.joined 3000 (mkFinishClock 4000 4001)
                  "s-1" "host-1" session Hs eq_refl eq_refl Hplayers)).
Defined.

Lemma revealedIndex_pred i : messageHandlers.revealedIndex i = Nat.pred i.
Proof.
  unfold messageHandlers.revealedIndex. case_bool_decide; [subst; done|].
  rewrite Nat.max_0_l. lia.
Qed.

Lemma length_omap_le {A B} (f : A → option B) (l : list A) :
  (length (omap f l) ≤ length l)%nat.
Proof.
  induction l as [|a r IH]; csimpl; [done|]. destruct (f a); csimpl; lia.
Qed.

(** X17. For the host, [reveal_answer] reveals the question before the
    session's index, which is the question [nextQuestion] served last, and
    at index 0 the first question; the status of the session is not looked
    at. Every participant receives the question, its correct answer, one
    statistic per choice in order, marked correct exactly at the index of the
    correct answer, and the present leaderboard; the correct answers counted
    are at most the answers counted, which are at most the players. Nothing
    is written. *)
Theorem X17_reveal_answer_shows_last_question db sessionId session quiz question :
  dynamoService.getSession db sessionId = Some session →
  GameSession.quiz session = Some quiz →
  Quiz.questions quiz !! Nat.pred (GameSession.currentQuestionIndex session) = Some question →
  ∃ result,
    messageHandlers.reveal_answer db true sessionId
    = [(server.everyone sessionId, messageHandlers.answer_revealed result)]
    ∧ Revealed.question result = question
    ∧ Revealed.correctAnswer result = Question.correctAnswer question
    ∧ Revealed.leaderboard result = getLeaderboard db sessionId
    ∧ AnswerStat.choiceText <$> Revealed.answerStats result = Question.choices question
    ∧ (∀ i stat,
         Revealed.answerStats result !! i = Some stat →
         AnswerStat.choiceIndex stat = Z.of_nat i
         ∧ (AnswerStat.isCorrect stat = true
            ↔ Z.of_nat i = Question.correctAnswer question))
    ∧ 0 ≤ Revealed.correctCount result
    ∧ Revealed.correctCount result ≤ Revealed.totalAnswers result
    ∧ Revealed.totalAnswers result
      ≤ Z.of_nat (length (dynamoService.getSessionPlayers db sessionId)).
Proof.
  intros Hs Hquiz Hquestion.
  unfold messageHandlers.reveal_answer, messageHandlers.reveal_answer_try,
    gameService.getSession.
  rewrite Hs. cbn [negb orThrow mbind Res_bind with_players GameSession.quiz
    GameSession.currentQuestionIndex].
  rewrite Hquiz, revealedIndex_pred. cbn [mbind option_bind]. rewrite Hquestion.
  cbn [orThrow]. eexists. split; [reflexivity|].
  cbn [Revealed.question Revealed.correctAnswer Revealed.leaderboard Revealed.answerStats
       Revealed.correctCount Revealed.totalAnswers].
  split_and!; try done.
  - unfold js_mapi. generalize (Question.choices question). intros choices.
    apply list_eq. intros i. rewrite list_lookup_fmap, list_lookup_imap.
    by destruct (choices !! i).
  - intros i stat. unfold js_mapi. rewrite list_lookup_imap.
    destruct (Question.choices question !! i) as [choice|]; [|done].
    intros [= <-]. simpl. split; [done|]. apply bool_decide_eq_true.
  - lia.
  - apply inj_le, length_filter.
  - apply inj_le, length_omap_le.
Qed.

Lemma X17_reveal_answer_shows_last_question_witness :
  let session :=
    GameSession.mk "s-1" "quiz-1" "host-1" "A1B2C3" active 1 [] 1000 (Some 3000) None
      (Some Scenario.quiz) in
  let question := Question.mk "q1" "Capital of France?" ["Lyon"; "Paris"; "Nice"] 1 20 100 in
  dynamoService.getSession Scenario.answered2 "s-1" = Some session
  ∧ Quiz.questions Scenario.quiz !! 0%nat = Some question
  ∧ ∃ result,
      messageHandlers.reveal_answer Scenario.answered2 true "s-1"
      = [(server.everyone "s-1", messageHandlers.answer_revealed result)]
      ∧ Revealed.question result = question.
Proof.
  intros session question.
  assert (dynamoService.getSession Scenario.answered2 "s-1" = Some session) as Hs
    by (vm_compute; reflexivity).
  assert (Quiz.questions Scenario.quiz !! 0%nat = Some question) as Hquestion
    by reflexivity.
  split; [exact Hs|]. split; [exact Hquestion|].
  destruct (X17_reveal_answer_shows_last_question Scenario.answered2 "s-1" session
              Scenario.quiz question Hs eq_refl Hquestion) as (result & Hsent & Hshown & _).
  exists result. split; [exact Hsent|exact Hshown].
Defined.

(** X18. When the host asks for the next question and [nextQuestion]
    refuses, because the session is not stored, the caller's id is not the
    host id, the session is not active or it carries no quiz, [next_question]
    writes nothing and still announces the end of the game: every
    participant receives [game_ended] with the present leaderboard. *)
Theorem X18_next_question_refused_announces_end db clock sessionId playerId :
  (dynamoService.getSession db sessionId = None
   ∨ ∃ session,
       dynamoService.getSession db sessionId = Some session
       ∧ (GameSession.hostId session ≠ playerId
          ∨ GameSession.status session ≠ active
          ∨ GameSession.quiz session = None)) →
  server.next_question db clock true sessionId playerId
  = (db, [(server.everyone sessionId, server.game_ended (getLeaderboard db sessionId))]).
Proof.
  intros Hrefused.
  assert (nextQuestion db clock sessionId playerId = (db, None)) as Hnext.
  { unfold nextQuestion, nextQuestion_try.
    destruct Hrefused as [-> | (session & -> & Hwhy)]; [done|].
    unfold mbind, Res_bind, orThrow, throwIf.
    destruct (bool_decide (GameSession.hostId session ≠ playerId)) eqn:Hhost; [done|].
    destruct (bool_decide (GameSession.status session ≠ active)) eqn:Hstatus; [done|].
    apply bool_decide_eq_false in Hhost, Hstatus.
    destruct Hwhy as [Hwhy | [Hwhy | Hwhy]]; [done|done|]. by rewrite Hwhy. }
  unfold server.next_question. cbn [negb]. by rewrite Hnext.
Qed.

Lemma X18_next_question_refused_announces_end_witness :
  let session :=
    GameSession.mk "s-1" "quiz-1" "host-1" "A1B2C3" waiting 0 [] 1000 None None
      (Some Scenario.quiz) in
  dynamoService.getSession Scenario.joined "s-1" = Some session
  ∧ server.next_question Scenario.joined (mkFinishClock 4000 4001) true "s-1" "host-1"
    = (Scenario.joined,
       [(server.everyone "s-1", server.game_ended (getLeaderboard Scenario.joined "s-1"))]).
Proof.
  intros session.
  assert (dynamoService.getSession Scenario.joined "s-1" = Some session) as Hs
    by (vm_compute; reflexivity).
  split; [exact Hs|].
  apply X18_next_question_refused_announces_end.
  right. exists session. split; [exact Hs|]. right. left. discriminate.
Defined.

(** ** Removing a player *)

Section js_sort_filter.
Context {A : Type} (cmp : A → A → Z).
Context (key : A → Z) (cmp_key : ∀ x y, cmp x y ≤ 0 ↔ key x ≤ key y).
Context (P : A → Prop) `{∀ a, Decision (P a)}.

Lemma js_sort_insert_first x l :
  Forall (λ y, key x ≤ key y) l → js_sort_insert cmp x l = x :: l.
Proof using cmp_key.
  destruct 1 as [|y r Hy _]; simpl; [done|].
  apply cmp_key in Hy. by destruct (Z.leb_spec (cmp x y) 0); [|lia].
Qed.

Lemma js_sort_insert_filter x l :
  StronglySorted (λ a b, key a ≤ key b) l →
  filter P (js_sort_insert cmp x l)
  = if decide (P x) then js_sort_insert cmp x (filter P l) else filter P l.
Proof using cmp_key.
  induction 1 as [|y r Hr IH Hy]; simpl.
  { rewrite filter_cons, filter_nil. by case_decide. }
  destruct (Z.leb_spec (cmp x y) 0) as [Hle|Hgt].
  - apply cmp_key in Hle. rewrite (filter_cons _ x). case_decide; [|done].
    rewrite js_sort_insert_first; [done|].
    apply Forall_filter_keep. constructor; [done|].
    eapply Forall_impl; [exact Hy|]. simpl. intros; lia.
  - rewrite (filter_cons _ y), IH, (filter_cons _ y).
    destruct (decide (P y)), (decide (P x)); try done.
    simpl. by destruct (Z.leb_spec (cmp x y) 0); [lia|].
Qed.

(** Sorting and selecting commute: the sort is stable. *)
Lemma js_sort_filter l : filter P (js_sort cmp l) = js_sort cmp (filter P l).
Proof using cmp_key.
  induction l as [|x r IH]; [done|]. simpl.
  rewrite js_sort_insert_filter by (by apply (js_sort_sorted cmp key cmp_key)).
  rewrite filter_cons, IH. by case_decide.
Qed.
End js_sort_filter.

(** X19. [removePlayer] always returns [true], also for a player or a
    session that does not exist. It removes the player with the given id
    from the session and nothing else: the other players of the session, the
    players of other sessions and all sessions are as before. On the
    leaderboard the player's entry disappears and the remaining entries keep
    their order. Removing the same player again changes nothing. *)
Theorem X19_removePlayer_removes_one db sessionId playerId :
  let outcome := removePlayer db sessionId playerId in
  outcome.2 = true
  ∧ dynamoService.getSessionPlayers outcome.1 sessionId
    = filter (λ p, Player.id p ≠ playerId) (dynamoService.getSessionPlayers db sessionId)
  ∧ (∀ other, other ≠ sessionId →
       dynamoService.getSessionPlayers outcome.1 other
       = dynamoService.getSessionPlayers db other)
  ∧ sessions outcome.1 = sessions db
  ∧ standing <$> getLeaderboard outcome.1 sessionId
    = filter (λ s, s.1.1 ≠ playerId) (standing <$> getLeaderboard db sessionId)
  ∧ (∀ other,
       dynamoService.getSessionPlayers (removePlayer outcome.1 sessionId playerId).1 other
       = dynamoService.getSessionPlayers outcome.1 other).
Proof.
  intros outcome. subst outcome.
  assert (∀ d, dynamoService.getSessionPlayers (removePlayer d sessionId playerId).1 sessionId
               = filter (λ p, Player.id p ≠ playerId)
                   (dynamoService.getSessionPlayers d sessionId)) as Hremoved.
  { intros d. unfold dynamoService.getSessionPlayers. simpl. rewrite lookup_alter_eq.
    by destruct (players d !! sessionId). }
  assert (∀ d other, other ≠ sessionId →
            dynamoService.getSessionPlayers (removePlayer d sessionId playerId).1 other
            = dynamoService.getSessionPlayers d other) as Hother.
  { intros d other Hne. unfold dynamoService.getSessionPlayers. simpl.
    by rewrite lookup_alter_ne. }
  split_and!; [done|apply Hremoved|apply Hother|done| |].
  - unfold getLeaderboard. rewrite Hremoved, !standing_ranked.
    rewrite (filter_fmap standing (λ s, s.1.1 ≠ playerId)).
    rewrite (js_sort_filter _ (λ e, - LeaderboardEntry.score e) byScore_key).
    f_equal. f_equal. unfold leaderboardData. by rewrite filter_fmap.
  - intros other. destruct (decide (other = sessionId)) as [->|Hne]; [|by apply Hother].
    rewrite Hremoved. rewrite Hremoved. rewrite list_filter_filter.
    apply list_filter_iff. tauto.
Qed.

(** ** Joining and looking the session up *)

Lemma put_player_fresh (p : Player.t) l :
  Player.id p ∉ Player.id <$> l → put_player p l ≡ₚ p :: l.
Proof.
  induction l as [|q r IH]; simpl; intros Hfresh; [done|].
  rewrite ?fmap_cons in Hfresh. apply not_elem_of_cons in Hfresh as [Hne Hfresh].
  destruct (String_as_OT.compare_spec (Player.id p) (Player.id q)) as [Heq|Hlt|Hgt].
  - done.
  - done.
  - rewrite (IH Hfresh). apply Permutation_swap.
Qed.

(** X20. After a player has joined under an id that no player of the
    session has, looking the session up by its join code returns the session
    that [joinSession] returned, with the same players up to their order: the
    lookup lists them in the order of the store, [joinSession] lists the new
    player last. *)
Theorem X20_join_then_lookup db uuid now joinCode playerName db' session player :
  joinSession db uuid now joinCode playerName = (db', Some (session, player)) →
  uuid ∉ Player.id <$> dynamoService.getSessionPlayers db (Player.sessionId player) →
  ∃ found,
    gameService.getSessionByJoinCode db' joinCode = Some found
    ∧ GameSession.players found ≡ₚ GameSession.players session
    ∧ with_players [] found = with_players [] session
    ∧ player ∈ GameSession.players found.
Proof.
  intros Hjoin Hfresh. unfold joinSession in Hjoin.
  destruct (joinSession_try _ _ _ _ _) as [[db1 r]|] eqn:Htry; [|done].
  injection Hjoin as -> ->.
  unfold joinSession_try in Htry. try_inv Htry.
  rename a into sessionId, a0 into stored.
  injection Htry as <- <- <-. cbn [Player.sessionId] in Hfresh.
  unfold gameService.getSessionByJoinCode, gameService.getSession.
  change (dynamoService.getSessionByJoinCode (dynamoService.savePlayer db sessionId _) joinCode)
    with (dynamoService.getSessionByJoinCode db joinCode).
  rewrite Hstep.
  change (dynamoService.getSession (dynamoService.savePlayer db sessionId _) sessionId)
    with (dynamoService.getSession db sessionId).
  rewrite Hstep0, getSessionPlayers_savePlayer.
  eexists. split; [reflexivity|]. cbn [with_players GameSession.players].
  split_and!; [|done|apply elem_of_put_player].
  rewrite put_player_fresh by done. by rewrite Permutation_cons_append.
Qed.

Lemma X20_join_then_lookup_witness :
  let db' := run_op Scenario.created (OpJoinSession "p-a" 2000 "A1B2C3" "Ann") in
  let player := Player.mk "p-a" "Ann" "s-1" 0 [] true 2000 in
  let session :=
    GameSession.mk "s-1" "quiz-1" "host-1" "A1B2C3" waiting 0 [player] 1000 None None
      (Some Scenario.quiz) in
  joinSession Scenario.created "p-a" 2000 "A1B2C3" "Ann" = (db', Some (session, player))
  ∧ ∃ found,
      gameService.getSessionByJoinCode db' "A1B2C3" = Some found
      ∧ player ∈ GameSession.players found.
Proof.
  intros db' player session.
  assert (joinSession Scenario.created "p-a" 2000 "A1B2C3" "Ann"
          = (db', Some (session, player))) as Hjoin by (vm_compute; reflexivity).
  assert ("p-a" ∉ Player.id <$> dynamoService.getSessionPlayers Scenario.created
                                  (Player.sessionId player)) as Hfresh.
  { replace (dynamoService.getSessionPlayers Scenario.created (Player.sessionId player))
      with (@nil Player.t) by (vm_compute; reflexivity).
    apply not_elem_of_nil. }
  split; [exact Hjoin|].
  destruct (X20_join_then_lookup Scenario.created "p-a" 2000 "A1B2C3" "Ann" db' session
              player Hjoin Hfresh) as (found & Hfound & _ & _ & Hin).
  exists found. split; [exact Hfound|exact Hin].
Defined.

(** ** The end of the game as the participants see it *)

Lemma getLeaderboard_players db db' sessionId :
  players db' = players db → getLeaderboard db' sessionId = getLeaderboard db sessionId.
Proof.
  intros Hplayers. unfold getLeaderboard, dynamoService.getSessionPlayers.
  by rewrite Hplayers.
Qed.

(** X21. When the host ends the game of a stored session, every participant
    receives [game_ended] with the leaderboard of that moment; the same
    leaderboard is the one of the saved game result and the one a later
    request for the session results is answered with. When the host of an
    active session asks for the next question and none is left, the handler
    does and sends the same. *)
Theorem X21_game_ended_matches_saved_result db clock sessionId session quiz :
  dynamoService.getSession db sessionId = Some session →
  GameSession.quiz session = Some quiz →
  let board := getLeaderboard db sessionId in
  let ended := server.finish_game db clock true sessionId in
  ended.2 = [(server.everyone sessionId, server.game_ended board)]
  ∧ GameResult.leaderboard <$> dynamoService.getGameResult ended.1 sessionId = Some board
  ∧ (∃ sessionData,
       messageHandlers.get_session_results ended.1 sessionId
       = [(server.sender, messageHandlers.session_results (Some (board, sessionData)))])
  ∧ (GameSession.status session = active →
     Quiz.questions quiz !! GameSession.currentQuestionIndex session = None →
     server.next_question db clock true sessionId (GameSession.hostId session) = ended).
Proof.
  intros Hs Hquiz board ended.
  destruct (finishGame_found db clock sessionId session Hs) as [Hrun _].
  destruct (finishGame_saved db clock sessionId session quiz Hs Hquiz) as (_ & Hsaved & _).
  destruct (finishGame_effect db clock sessionId) as [Hplayers _].
  pose proof (getLeaderboard_players db _ sessionId Hplayers) as Hboard.
  assert (ended = ((finishGame db clock sessionId).1,
                   [(server.everyone sessionId, server.game_ended board)])) as Hended.
  { subst ended board. unfold server.finish_game. cbn [negb].
    rewrite <- Hboard. by rewrite Hrun. }
  rewrite Hended. cbn [fst snd]. split_and!.
  - done.
  - by rewrite Hsaved.
  - unfold messageHandlers.get_session_results, gameService.getSessionResults.
    rewrite Hsaved. eexists. cbn [snapshot GameResult.leaderboard].
    by rewrite resultLeaderboard_id.
  - intros Hactive Hnone. unfold server.next_question. cbn [negb].
    rewrite (nextQuestion_by_host db clock sessionId _ session quiz Hs eq_refl Hactive Hquiz).
    rewrite Hnone. by rewrite Hboard.
Qed.

Lemma X21_game_ended_matches_saved_result_witness :
  let session :=
    GameSession.mk "s-1" "quiz-1" "host-1" "A1B2C3" active 1 [] 1000 (Some 3000) None
      (Some Scenario.quiz) in
  let board :=
    [LeaderboardEntry.mk "p-a" "Ann" 100 1; LeaderboardEntry.mk "p-b" "Ann2" 75 2] in
  dynamoService.getSession Scenario.answered2 "s-1" = Some session
  ∧ getLeaderboard Scenario.answered2 "s-1" = board
  ∧ (server.finish_game Scenario.answered2 (mkFinishClock 9000 9001) true "s-1").2
    = [(server.everyone "s-1", server.game_ended board)].
Proof.
  intros session board.
  assert (dynamoService.getSession Scenario.answered2 "s-1" = Some session) as Hs
    by (vm_compute; reflexivity).
  assert (getLeaderboard Scenario.answered2 "s-1" = board) as Hboard
    by (vm_compute; reflexivity).
  split; [exact Hs|]. split; [exact Hboard|]. rewrite <- Hboard.
  exact (proj1 (X21_game_ended_matches_saved_result Scenario.answered2
                  (mkFinishClock 9000 9001) "s-1" session Scenario.quiz Hs eq_refl)).
Defined.

(** ** The demo quiz *)

(** X22. The demo quiz is found under its id in every store, whatever the
    store holds under that id. Each of its questions is the first one with
    its id, so that [submitAnswer] finds it by id, and has a correct answer
    that is an index of its choices and positive points; its creator is the
    demo host. *)
Theorem X22_demo_quiz_always_found db :
  ∃ quiz,
    dynamoService.getQuiz db DEMO_QUIZ_ID = Some quiz
    ∧ isDemoQuiz (Quiz.id quiz) = true
    ∧ Quiz.creatorId quiz = DEMO_HOST_ID
    ∧ Quiz.questions quiz = demoQuestions
    ∧ ∀ question, question ∈ Quiz.questions quiz →
        js_find (λ q, Question.id q = Question.id question) (Quiz.questions quiz)
        = Some question
        ∧ 0 ≤ Question.correctAnswer question
            < Z.of_nat (length (Question.choices question))
        ∧ 0 < Question.points question.
Proof.
  exists (demoQuiz (loadedAt db).1 (loadedAt db).2).
  split; [reflexivity|]. split; [reflexivity|]. split; [reflexivity|].
  split; [reflexivity|].
  cbn [demoQuiz Quiz.questions]. intros question Hin. unfold demoQuestions in Hin.
  repeat (apply elem_of_cons in Hin as [->|Hin];
          [split; [vm_compute; reflexivity|split; [vm_compute; split; [discriminate|reflexivity]|reflexivity]]|]).
  by apply elem_of_nil in Hin.
Qed.

(** ** The first correct answer *)

(** X23. When a player of an active session gives the correct answer to a
    question to which no player has a correct answer recorded, [submit_answer]
    answers the sender with [answer_submitted]: correct, rank 1 of 1 and the
    full base points of the question, whatever the time taken; the host is
    told that the player has answered, under the fixed name [Player]; and the
    player's score grows by the base points. *)
Theorem X23_first_correct_answer db clock sessionId playerId questionId selectedChoice
    timeToAnswer session quiz question player :
  dynamoService.getSession db sessionId = Some session →
  GameSession.status session = active →
  GameSession.quiz session = Some quiz →
  js_find (λ q, Question.id q = questionId) (Quiz.questions quiz) = Some question →
  js_find (λ p, Player.id p = playerId) (dynamoService.getSessionPlayers db sessionId)
    = Some player →
  js_find (λ a, PlayerAnswer.questionId a = questionId) (Player.answers player) = None →
  selectedChoice = Question.correctAnswer question →
  0 ≤ selectedChoice < Z.of_nat (length (Question.choices question)) →
  collectCorrect clock questionId (dynamoService.getSessionPlayers db sessionId) = [] →
  let outcome :=
    messageHandlers.submit_answer db clock sessionId playerId questionId selectedChoice
      timeToAnswer in
  outcome.2
  = [(server.sender,
      messageHandlers.answer_submitted
        (SubmitResult.mk true (Question.points question) questionId (Some 1) (Some 1)));
     (server.host sessionId, messageHandlers.player_answered playerId "Player" true)]
  ∧ Player.score
      <$> js_find (λ p, Player.id p = playerId)
            (dynamoService.getSessionPlayers outcome.1 sessionId)
    = Some (Player.score player + Question.points question).
Proof.
  intros Hs Hactive Hquiz Hq Hp Hnone Hright Hchoice Hfirst outcome. subst outcome.
  unfold messageHandlers.submit_answer, submitAnswer, submitAnswer_try.
  rewrite Hs. unfold mbind, Res_bind, orThrow, throwIf.
  rewrite Hactive, Hquiz, Hq, Hp, Hnone.
  rewrite (bool_decide_false (active ≠ active)) by auto.
  rewrite (bool_decide_false (is_Some None)) by (by intros [? ?]).
  assert ((selectedChoice <? 0)
          || (selectedChoice >=? Z.of_nat (length (Question.choices question))) = false)
    as ->.
  { apply orb_false_iff. split; [apply Z.ltb_ge; lia|].
    rewrite Z.geb_leb. apply Z.leb_gt. lia. }
  rewrite Hright, Z.eqb_refl.
  unfold correctAnswersForQuestion. rewrite Hfirst.
  cbn [app js_sort js_sort_insert length]. unfold js_findIndex.
  cbn [list_find RankEntry.playerId]. rewrite decide_True by done.
  cbn [fmap option_fmap option_map Z.of_nat]. change (0 + 1) with 1.
  change (Z.of_nat 1) with 1. change (scorePoints (Question.points question) 1 1)
    with (Question.points question).
  cbn [fst snd]. split; [done|].
  rewrite getSessionPlayers_updatePlayer.
  rewrite (update_player_find playerId playerId (set_score_answers _ _) _ (λ _, eq_refl)), Hp.
  simpl. destruct (js_find_Some _ _ _ Hp) as [_ Hpid]. by rewrite decide_True.
Qed.

Lemma X23_first_correct_answer_witness :
  let session :=
    GameSession.mk "s-1" "quiz-1" "host-1" "A1B2C3" active 1 [] 1000 (Some 3000) None
      (Some Scenario.quiz) in
  let question := Question.mk "q1" "Capital of France?" ["Lyon"; "Paris"; "Nice"] 1 20 100 in
  let player := Player.mk "p-a" "Ann" "s-1" 0 [] true 2000 in
  dynamoService.getSession Scenario.started "s-1" = Some session
  ∧ js_find (λ p, Player.id p = "p-a") (dynamoService.getSessionPlayers Scenario.started "s-1")
    = Some player
  ∧ collectCorrect Scenario.clock1 "q1" (dynamoService.getSessionPlayers Scenario.started "s-1")
    = []
  ∧ (messageHandlers.submit_answer Scenario.started Scenario.clock1 "s-1" "p-a" "q1" 1 800).2
    = [(server.sender,
        messageHandlers.answer_submitted (SubmitResult.mk true 100 "q1" (Some 1) (Some 1)));
       (server.host "s-1", messageHandlers.player_answered "p-a" "Player" true)].
Proof.
  intros session question player.
  assert (dynamoService.getSession Scenario.started "s-1" = Some session) as Hs
    by (vm_compute; reflexivity).
  assert (js_find (λ p, Player.id p = "p-a")
            (dynamoService.getSessionPlayers Scenario.started "s-1") = Some player) as Hp
    by (vm_compute; reflexivity).
  assert (collectCorrect Scenario.clock1 "q1"
            (dynamoService.getSessionPlayers Scenario.started "s-1") = []) as Hfirst
    by (vm_compute; reflexivity).
  assert (js_find (λ q, Question.id q = "q1") (Quiz.questions Scenario.quiz) = Some question)
    as Hq by (vm_compute; reflexivity).
  assert (0 ≤ 1 < Z.of_nat (length (Question.choices question))) as Hchoice
    by (vm_compute; split; [discriminate|reflexivity]).
  split; [exact Hs|]. split; [exact Hp|]. split; [exact Hfirst|].
  exact (proj1 (X23_first_correct_answer Scenario.started Scenario.clock1 "s-1" "p-a" "q1" 1
                  800 session Scenario.quiz question player Hs eq_refl eq_refl Hq Hp
                  eq_refl eq_refl Hchoice Hfirst)).
Defined.

(** ** The stored quizzes *)

Lemma saveGameResult_quizzes db completedAt sessionId :
  quizzes (saveGameResult db completedAt sessionId) = quizzes db
  ∧ loadedAt (saveGameResult db completedAt sessionId) = loadedAt db.
Proof.
  unfold saveGameResult.
  destruct (dynamoService.getSession db sessionId) as [s|]; [|done].
  destruct (GameSession.quiz s); done.
Qed.

Lemma finishGame_quizzes db clock sessionId :
  quizzes (finishGame db clock sessionId).1 = quizzes db
  ∧ loadedAt (finishGame db clock sessionId).1 = loadedAt db.
Proof.
  unfold finishGame.
  destruct (dynamoService.getSession db sessionId); [|done].
  cbn [fst]. by destruct (saveGameResult_quizzes
    (dynamoService.updateSession db sessionId (set_finished (finishedAtNow clock)))
    (completedAtNow clock) sessionId) as [-> ->].
Qed.

Lemma run_op_quizzes db op :
  quizzes (run_op db op) = quizzes db ∧ loadedAt (run_op db op) = loadedAt db.
Proof.
  destruct op; simpl.
  - unfold createSession.
    destruct (createSession_try _ _ _ _ _ _) as [[db1 session]|] eqn:Htry; [|done].
    unfold createSession_try in Htry.
    destruct (dynamoService.getQuiz db quizId) as [quiz|]; [|by injection Htry as <- _].
    destruct (joinCodeLoop db draws 0 9) as [joinCode isUnique].
    apply bind_Ok in Htry as (_ & _ & Htry). by injection Htry as <- _.
  - unfold joinSession.
    destruct (joinSession_try _ _ _ _ _) as [[db1 r]|] eqn:Htry; [|done].
    unfold joinSession_try in Htry. try_inv Htry. by injection Htry as <- _.
  - unfold startGame.
    destruct (startGame_try _ _ _ _) as [db1|] eqn:Htry; [|done].
    unfold startGame_try in Htry. try_inv Htry. by injection Htry as <-.
  - unfold nextQuestion.
    destruct (nextQuestion_try _ _ _ _) as [[db1 r]|] eqn:Htry; [|done].
    unfold nextQuestion_try in Htry. try_inv Htry.
    destruct (Quiz.questions _ !! _); injection Htry as <- _; simpl; [done|].
    apply finishGame_quizzes.
  - unfold submitAnswer.
    destruct (submitAnswer_try _ _ _ _ _ _ _) as [[db1 r]|] eqn:Htry; [|done].
    apply submitAnswer_try_Ok in Htry
      as (? & ? & ? & ? & _ & _ & _ & _ & _ & _ & _ & -> & _).
    done.
  - apply finishGame_quizzes.
  - done.
Qed.

(** X24. No call of the service writes a quiz: after any sequence of calls,
    every quiz id is answered with the same quiz, or the same absence, as
    before. *)
Theorem X24_quizzes_never_written db ops quizId :
  dynamoService.getQuiz (run_ops db ops) quizId = dynamoService.getQuiz db quizId.
Proof.
  unfold run_ops. revert db. induction ops as [|op ops IH]; intros db; simpl; [done|].
  rewrite IH. unfold dynamoService.getQuiz.
  by destruct (run_op_quizzes db op) as [-> ->].
Qed.
